(** * Multi-persona messenger: the real-time messaging and presence core

    A shallow embedding of the database functions of
    [supabase/migrations] and of the client code that calls them
    ([ChatView.tsx], [typingService], [presenceService], [fileService],
    [UnreadBadge]), followed by the properties of the specification.

    Conventions.
    - A table is the list of its rows, in insertion order.  Unique
      constraints are checked by the statements that insert, they are not
      built into the type of a table.
    - [now()], [Date.now()], [new Date()] and [gen_random_uuid()] are
      inputs of the operation that evaluates them.
    - Instants are integers, in milliseconds since the epoch.
    - Row-level security is not modelled: every call is taken to be
      authorised.  The [profiles] and [user_personas] tables are only
      referenced, so the foreign keys into them are not modelled either. *)

From Stdlib Require Import ZArith NArith List String Ascii Bool Lia.
From Stdlib Require Import DecimalString DecimalPos DecimalZ.
Import ListNotations.

Open Scope Z_scope.
Open Scope list_scope.

(** ** Base types *)

Definition uuid := string.
Bind Scope string_scope with uuid.
Definition timestamptz := Z.

Definition uuid_eqb (a b : uuid) : bool := String.eqb a b.

(** The [status] column of [messages]:
    [CHECK (status IN ('sent', 'delivered', 'read'))]. *)
Inductive message_status := sent | delivered | read.

Definition message_status_eqb (a b : message_status) : bool :=
  match a, b with
  | sent, sent | delivered, delivered | read, read => true
  | _, _ => false
  end.

(** Position of a status on the path sent -> delivered -> read. *)
Definition status_rank (s : message_status) : Z :=
  match s with sent => 0 | delivered => 1 | read => 2 end.

(** The [status] column of [user_presence]. *)
Inductive PresenceStatus := online | offline | away.

(** ** JavaScript strings

    A string is its sequence of UTF-16 code units. *)
Module JS.

Definition code_unit := N.
Definition jsstring := list code_unit.

Definition lit (s : string) : jsstring :=
  map N_of_ascii (list_ascii_of_string s).

(** ECMAScript [WhiteSpace] and [LineTerminator] code points, the ones
    [String.prototype.trim] strips. *)
Definition is_white_space (c : code_unit) : bool :=
  ((c =? 9) || (c =? 10) || (c =? 11) || (c =? 12) || (c =? 13)
   || (c =? 32) || (c =? 160) || (c =? 5760)
   || ((8192 <=? c) && (c <=? 8202))
   || (c =? 8232) || (c =? 8233) || (c =? 8239) || (c =? 8287)
   || (c =? 12288) || (c =? 65279))%N.

Fixpoint trim_start (s : jsstring) : jsstring :=
  match s with
  | c :: s' => if is_white_space c then trim_start s' else s
  | [] => []
  end.

Definition trim_end (s : jsstring) : jsstring :=
  rev (trim_start (rev s)).

Definition trim (s : jsstring) : jsstring := trim_end (trim_start s).

(** [!s] on a string: true exactly for the empty string. *)
Definition falsy (s : jsstring) : bool :=
  match s with [] => true | _ => false end.

(** [n.toString()] and [`${n}`] for an integer-valued number. *)
Definition toString (n : Z) : string :=
  NilZero.string_of_int (Z.to_int n).


End JS.

(** ** Tables *)

Module Contacts.
Record row := {
  id : uuid;
  user_id : uuid;
  contact_user_id : uuid;
  nickname : option string;
  created_at : timestamptz
}.
End Contacts.

Module PersonaChannels.
Record row := {
  id : uuid;
  contact_id : uuid;
  persona_id : uuid;
  last_message_at : option timestamptz;
  is_locked : bool;
  notification_enabled : bool;
  created_at : timestamptz;
  unread_count : Z
}.

Definition set_unread_count (n : Z) (r : row) : row :=
  {| id := id r; contact_id := contact_id r; persona_id := persona_id r;
     last_message_at := last_message_at r; is_locked := is_locked r;
     notification_enabled := notification_enabled r;
     created_at := created_at r; unread_count := n |}.

Definition set_last_message_at (t : option timestamptz) (r : row) : row :=
  {| id := id r; contact_id := contact_id r; persona_id := persona_id r;
     last_message_at := t; is_locked := is_locked r;
     notification_enabled := notification_enabled r;
     created_at := created_at r; unread_count := unread_count r |}.
End PersonaChannels.

Module Messages.
Record row := {
  id : uuid;
  channel_id : uuid;
  sender_id : uuid;
  content : JS.jsstring;
  detected_tone : option string;
  is_read : bool;
  created_at : timestamptz;
  status : message_status;
  delivered_at : option timestamptz;
  read_at : option timestamptz;
  file_url : option string;
  file_type : option string;
  file_name : option string
}.

Definition set_status (s : message_status)
    (d r_at : option timestamptz) (r : row) : row :=
  {| id := id r; channel_id := channel_id r; sender_id := sender_id r;
     content := content r; detected_tone := detected_tone r;
     is_read := is_read r; created_at := created_at r;
     status := s; delivered_at := d; read_at := r_at;
     file_url := file_url r; file_type := file_type r;
     file_name := file_name r |}.
End Messages.

Module UserPresence.
Record row := {
  id : uuid;
  user_id : uuid;
  status : PresenceStatus;
  last_seen : timestamptz;
  updated_at : timestamptz
}.
End UserPresence.

Module TypingIndicators.
Record row := {
  id : uuid;
  channel_id : uuid;
  user_id : uuid;
  created_at : timestamptz;
  expires_at : timestamptz
}.
End TypingIndicators.

Record db := {
  contacts : list Contacts.row;
  persona_channels : list PersonaChannels.row;
  messages : list Messages.row;
  user_presence : list UserPresence.row;
  typing_indicators : list TypingIndicators.row
}.

Definition with_persona_channels (d : db) (l : list PersonaChannels.row) : db :=
  {| contacts := contacts d; persona_channels := l; messages := messages d;
     user_presence := user_presence d;
     typing_indicators := typing_indicators d |}.

Definition with_messages (d : db) (l : list Messages.row) : db :=
  {| contacts := contacts d; persona_channels := persona_channels d;
     messages := l; user_presence := user_presence d;
     typing_indicators := typing_indicators d |}.

Definition with_user_presence (d : db) (l : list UserPresence.row) : db :=
  {| contacts := contacts d; persona_channels := persona_channels d;
     messages := messages d; user_presence := l;
     typing_indicators := typing_indicators d |}.

Definition with_typing_indicators (d : db) (l : list TypingIndicators.row) : db :=
  {| contacts := contacts d; persona_channels := persona_channels d;
     messages := messages d; user_presence := user_presence d;
     typing_indicators := l |}.

(** ** Statement results *)

Inductive sql_error :=
  | unique_violation
  | foreign_key_violation
  | numeric_value_out_of_range.

Inductive result (A : Type) :=
  | Ok (a : A)
  | Err (e : sql_error).
Arguments Ok {A} a.
Arguments Err {A} e.

(** A statement that fails is rolled back: the store is the one before. *)
Definition commit (before : db) (r : result db) : db :=
  match r with Ok d => d | Err _ => before end.

(** Largest value of the SQL type [integer]. *)
Definition int4_max : Z := 2147483647.

(** ** Database functions of [20260114_phase1_enhancements.sql] *)

Definition find_channel (d : db) (cid : uuid) : option PersonaChannels.row :=
  find (fun pc => uuid_eqb (PersonaChannels.id pc) cid) (persona_channels d).

Definition find_contact (d : db) (cid : uuid) : option Contacts.row :=
  find (fun c => uuid_eqb (Contacts.id c) cid) (contacts d).

(** [SELECT c.user_id FROM persona_channels pc
     JOIN contacts c ON c.id = pc.contact_id WHERE pc.id = channel]. *)
Definition channel_owner (d : db) (channel : uuid) : option uuid :=
  match find_channel d channel with
  | Some pc =>
      match find_contact d (PersonaChannels.contact_id pc) with
      | Some c => Some (Contacts.user_id c)
      | None => None
      end
  | None => None
  end.

(** [UPDATE persona_channels SET unread_count = unread_count + 1
     WHERE id = channel]; the addition is on [integer]. *)
Definition bump (channel : uuid) (pc : PersonaChannels.row) : PersonaChannels.row :=
  if uuid_eqb (PersonaChannels.id pc) channel
  then PersonaChannels.set_unread_count (PersonaChannels.unread_count pc + 1) pc
  else pc.

Definition bump_overflows (channel : uuid) (pc : PersonaChannels.row) : bool :=
  uuid_eqb (PersonaChannels.id pc) channel
  && (int4_max <? PersonaChannels.unread_count pc + 1).

(** The trigger function, run [AFTER INSERT ON messages FOR EACH ROW].
    When the owner is not found [channel_owner_id] is NULL, the comparison
    is NULL and the [IF] branch is not taken. *)
Definition increment_unread_count (d : db) (NEW : Messages.row) : result db :=
  let channel_owner_id := channel_owner d (Messages.channel_id NEW) in
  match channel_owner_id with
  | Some owner =>
      if negb (uuid_eqb (Messages.sender_id NEW) owner) then
        if existsb (bump_overflows (Messages.channel_id NEW)) (persona_channels d)
        then Err numeric_value_out_of_range
        else Ok (with_persona_channels d
                   (map (bump (Messages.channel_id NEW)) (persona_channels d)))
      else Ok d
  | None => Ok d
  end.

(** What a client sends to [from('messages').insert(...)]. *)
Record message_insert := {
  ins_channel_id : uuid;
  ins_sender_id : uuid;
  ins_content : JS.jsstring;
  ins_file_url : option string;
  ins_file_type : option string;
  ins_file_name : option string
}.

(** The row an insert builds: [status] is ['sent'], given by the client and
    equal to the column default, the other columns take their defaults. *)
Definition new_message (fresh : uuid) (now : timestamptz) (m : message_insert)
  : Messages.row :=
  {| Messages.id := fresh;
     Messages.channel_id := ins_channel_id m;
     Messages.sender_id := ins_sender_id m;
     Messages.content := ins_content m;
     Messages.detected_tone := None;
     Messages.is_read := false;
     Messages.created_at := now;
     Messages.status := sent;
     Messages.delivered_at := None;
     Messages.read_at := None;
     Messages.file_url := ins_file_url m;
     Messages.file_type := ins_file_type m;
     Messages.file_name := ins_file_name m |}.

(** [INSERT INTO messages]: primary key, foreign key to the channel, then
    the row is appended and the trigger runs in the same statement. *)
Definition insert_message (d : db) (fresh : uuid) (now : timestamptz)
    (m : message_insert) : result db :=
  if existsb (fun r => uuid_eqb (Messages.id r) fresh) (messages d)
  then Err unique_violation
  else match find_channel d (ins_channel_id m) with
       | None => Err foreign_key_violation
       | Some _ =>
           let NEW := new_message fresh now m in
           increment_unread_count (with_messages d (messages d ++ [NEW])) NEW
       end.

(** [reset_unread_count(p_channel_id)]. *)
Definition reset_unread_count (d : db) (p_channel_id : uuid) : db :=
  with_persona_channels d
    (map (fun pc =>
            if uuid_eqb (PersonaChannels.id pc) p_channel_id
            then PersonaChannels.set_unread_count 0 pc
            else pc)
         (persona_channels d)).

(** [mark_messages_as_read(p_channel_id, p_user_id)]; [now] is the value
    of [now()] in the call. *)
Definition to_mark_read (p_channel_id p_user_id : uuid) (m : Messages.row) : bool :=
  uuid_eqb (Messages.channel_id m) p_channel_id
  && negb (uuid_eqb (Messages.sender_id m) p_user_id)
  && negb (message_status_eqb (Messages.status m) read).

Definition mark_read_row (now : timestamptz) (p_channel_id p_user_id : uuid)
    (m : Messages.row) : Messages.row :=
  if to_mark_read p_channel_id p_user_id m
  then Messages.set_status read (Messages.delivered_at m) (Some now) m
  else m.

Definition mark_messages_as_read (d : db) (now : timestamptz)
    (p_channel_id p_user_id : uuid) : db :=
  with_messages d (map (mark_read_row now p_channel_id p_user_id) (messages d)).

(** ** The trigger of the bundled schema copy

    [multi-persona-messenger-main/supabase/migrations] declares, next to
    the tables, a trigger that keeps [last_message_at] current:
    [SET last_message_at =
       GREATEST(COALESCE(last_message_at, TIMESTAMPTZ 'epoch'), NEW.created_at)]. *)
Definition epoch : timestamptz := 0.

Definition coalesce (o : option timestamptz) (dflt : timestamptz) : timestamptz :=
  match o with Some t => t | None => dflt end.

Definition update_channel_last_message_at (d : db) (NEW : Messages.row) : db :=
  with_persona_channels d
    (map (fun pc =>
            if uuid_eqb (PersonaChannels.id pc) (Messages.channel_id NEW)
            then PersonaChannels.set_last_message_at
                   (Some (Z.max (coalesce (PersonaChannels.last_message_at pc) epoch)
                                (Messages.created_at NEW))) pc
            else pc)
         (persona_channels d)).

(** ** [typingService] *)
Module TypingService.

(** [upsert({channel_id, user_id, expires_at},
            {onConflict: 'channel_id,user_id'})]: a row with the key is
    updated in place, only the columns given are written; otherwise a row
    is inserted, [id] and [created_at] from their defaults. *)
Definition same_key (channel user : uuid) (r : TypingIndicators.row) : bool :=
  uuid_eqb (TypingIndicators.channel_id r) channel
  && uuid_eqb (TypingIndicators.user_id r) user.

Definition set_expires_at (t : timestamptz) (r : TypingIndicators.row)
  : TypingIndicators.row :=
  {| TypingIndicators.id := TypingIndicators.id r;
     TypingIndicators.channel_id := TypingIndicators.channel_id r;
     TypingIndicators.user_id := TypingIndicators.user_id r;
     TypingIndicators.created_at := TypingIndicators.created_at r;
     TypingIndicators.expires_at := t |}.

Definition upsert_typing (d : db) (fresh : uuid) (server_now : timestamptz)
    (channel user : uuid) (expiresAt : timestamptz) : result db :=
  let rows := typing_indicators d in
  if existsb (same_key channel user) rows
  then Ok (with_typing_indicators d
             (map (fun r => if same_key channel user r
                            then set_expires_at expiresAt r else r) rows))
  else if existsb (fun r => uuid_eqb (TypingIndicators.id r) fresh) rows
  then Err unique_violation
  else match find_channel d channel with
       | None => Err foreign_key_violation
       | Some _ =>
           Ok (with_typing_indicators d
                 (rows ++ [ {| TypingIndicators.id := fresh;
                               TypingIndicators.channel_id := channel;
                               TypingIndicators.user_id := user;
                               TypingIndicators.created_at := server_now;
                               TypingIndicators.expires_at := expiresAt |} ]))
       end.

(** [sendTypingIndicator]: [client_now] is [Date.now()].  An error is
    logged and the store is left as it was. *)
Definition sendTypingIndicator (d : db) (fresh : uuid)
    (server_now client_now : timestamptz) (channelId userId : uuid) : db :=
  let expiresAt := client_now + 5000 in
  commit d (upsert_typing d fresh server_now channelId userId expiresAt).

(** [removeTypingIndicator]. *)
Definition removeTypingIndicator (d : db) (channelId userId : uuid) : db :=
  with_typing_indicators d
    (filter (fun r => negb (same_key channelId userId r)) (typing_indicators d)).

(** [getTypingIndicators]: [.eq('channel_id', c).gt('expires_at', now)]. *)
Definition getTypingIndicators (d : db) (now : timestamptz) (channelId : uuid)
  : list TypingIndicators.row :=
  filter (fun r => uuid_eqb (TypingIndicators.channel_id r) channelId
                   && (now <? TypingIndicators.expires_at r))
         (typing_indicators d).

(** A change event.  [payload.new] is read through a cast to
    [TypingIndicator]; a property the object does not carry reads as
    [undefined], here [None].  [new_expires_at] is the instant
    [new Date(indicator.expires_at)] denotes, [None] for an invalid date. *)
Inductive eventType := INSERT | UPDATE | DELETE.

Record payload := {
  payload_eventType : eventType;
  new_user_id : option uuid;
  new_expires_at : option timestamptz
}.

(** The event the change feed delivers for a row.  The transport fills
    [new] from the record for INSERT and UPDATE and leaves it [{}] for
    DELETE, where the record, as far as it is sent, is in [old]. *)
Definition change_event (e : eventType) (r : TypingIndicators.row) : payload :=
  match e with
  | INSERT | UPDATE =>
      {| payload_eventType := e;
         new_user_id := Some (TypingIndicators.user_id r);
         new_expires_at := Some (TypingIndicators.expires_at r) |}
  | DELETE =>
      {| payload_eventType := DELETE;
         new_user_id := None;
         new_expires_at := None |}
  end.

(** One invocation of [callback(isTyping, userId)]. *)
Record callback_call := {
  call_isTyping : bool;
  call_userId : option uuid
}.

(** [new Date(x) > new Date()]; false when the left side is invalid. *)
Definition date_gt (x : option timestamptz) (now : timestamptz) : bool :=
  match x with
  | Some t => now <? t
  | None => false
  end.

Definition strict_eq (x : option uuid) (y : uuid) : bool :=
  match x with
  | Some u => uuid_eqb u y
  | None => false
  end.

(** The handler [subscribeToTyping] registers, run at local time [now]:
    the call it makes to [callback], if any. *)
Definition subscribeToTyping_on_change (currentUserId : uuid) (now : timestamptz)
    (p : payload) : option callback_call :=
  if strict_eq (new_user_id p) currentUserId then None
  else
    let isValid := date_gt (new_expires_at p) now in
    match payload_eventType p with
    | INSERT | UPDATE =>
        Some {| call_isTyping := isValid; call_userId := new_user_id p |}
    | DELETE =>
        Some {| call_isTyping := false; call_userId := new_user_id p |}
    end.

(** [cleanupTyping(channelId, userId)] with both arguments given; the
    timers it clears are not part of the store. *)
Definition cleanupTyping (d : db) (channelId userId : uuid) : db :=
  removeTypingIndicator d channelId userId.

End TypingService.

(** ** [ChatView.tsx] *)
Module ChatView.

Record props := {
  contact_id : uuid;
  contact_contact_user_id : uuid;
  persona_id : uuid;
  user_id : uuid
}.

(** The component state the operations below read or set. *)
Record view := {
  channelId : option uuid;
  isLocked : bool;
  notificationsEnabled : bool;
  newMessage : JS.jsstring;
  loading : bool;
  contactTyping : bool
}.

Definition initial : view :=
  {| channelId := None; isLocked := false; notificationsEnabled := true;
     newMessage := []; loading := true; contactTyping := false |}.

Definition set_loading (b : bool) (v : view) : view :=
  {| channelId := channelId v; isLocked := isLocked v;
     notificationsEnabled := notificationsEnabled v;
     newMessage := newMessage v; loading := b;
     contactTyping := contactTyping v |}.

Definition set_channel (c : PersonaChannels.row) (v : view) : view :=
  {| channelId := Some (PersonaChannels.id c);
     isLocked := PersonaChannels.is_locked c;
     notificationsEnabled := PersonaChannels.notification_enabled c;
     newMessage := newMessage v; loading := loading v;
     contactTyping := contactTyping v |}.

Definition set_newMessage (s : JS.jsstring) (v : view) : view :=
  {| channelId := channelId v; isLocked := isLocked v;
     notificationsEnabled := notificationsEnabled v;
     newMessage := s; loading := loading v;
     contactTyping := contactTyping v |}.

Definition set_contactTyping (b : bool) (v : view) : view :=
  {| channelId := channelId v; isLocked := isLocked v;
     notificationsEnabled := notificationsEnabled v;
     newMessage := newMessage v; loading := loading v;
     contactTyping := b |}.

(** [!channelId]: null, or the empty string. *)
Definition no_channel (c : option uuid) : bool :=
  match c with
  | None => true
  | Some s => uuid_eqb s EmptyString
  end.

(** [.select('*').eq('contact_id', c).eq('persona_id', p).maybeSingle()]:
    the row when exactly one matches, null otherwise. *)
Definition channel_of_pair (c p : uuid) (pc : PersonaChannels.row) : bool :=
  uuid_eqb (PersonaChannels.contact_id pc) c
  && uuid_eqb (PersonaChannels.persona_id pc) p.

Definition select_channel (d : db) (c p : uuid) : option PersonaChannels.row :=
  match filter (channel_of_pair c p) (persona_channels d) with
  | [r] => Some r
  | _ => None
  end.

(** The row [insert({contact_id, persona_id})] builds from the column
    defaults. *)
Definition new_channel (fresh : uuid) (now : timestamptz) (c p : uuid)
  : PersonaChannels.row :=
  {| PersonaChannels.id := fresh;
     PersonaChannels.contact_id := c;
     PersonaChannels.persona_id := p;
     PersonaChannels.last_message_at := None;
     PersonaChannels.is_locked := false;
     PersonaChannels.notification_enabled := true;
     PersonaChannels.created_at := now;
     PersonaChannels.unread_count := 0 |}.

(** [INSERT INTO persona_channels ... RETURNING *]: primary key,
    [UNIQUE(contact_id, persona_id)], foreign key to [contacts]. *)
Definition insert_channel (d : db) (fresh : uuid) (now : timestamptz)
    (c p : uuid) : result (db * PersonaChannels.row) :=
  if existsb (fun pc => uuid_eqb (PersonaChannels.id pc) fresh) (persona_channels d)
  then Err unique_violation
  else if existsb (channel_of_pair c p) (persona_channels d)
  then Err unique_violation
  else match find_contact d c with
       | None => Err foreign_key_violation
       | Some _ =>
           let r := new_channel fresh now c p in
           Ok (with_persona_channels d (persona_channels d ++ [r]), r)
       end.

(** [loadChannel] from its first [await] on: [channel] is what the
    select returned.  The error of the insert is not read; on an error
    [newChannel] is null. *)
Definition loadChannel_after_select (pr : props) (fresh : uuid)
    (now : timestamptz) (channel : option PersonaChannels.row)
    (d : db) (v : view) : db * view :=
  let '(d', channel') :=
    match channel with
    | Some r => (d, Some r)
    | None =>
        match insert_channel d fresh now (contact_id pr) (persona_id pr) with
        | Ok (d', newChannel) => (d', Some newChannel)
        | Err _ => (d, None)
        end
    end in
  let v' := match channel' with
            | Some r => set_channel r v
            | None => v
            end in
  (d', set_loading false v').

Definition loadChannel (pr : props) (fresh : uuid) (now : timestamptz)
    (d : db) (v : view) : db * view :=
  let v0 := set_loading true v in
  loadChannel_after_select pr fresh now
    (select_channel d (contact_id pr) (persona_id pr)) d v0.

(** Two resolvers of one pair, both past their select before either
    inserts: the first to insert is the winner. *)
Definition race (pr : props) (fresh1 fresh2 : uuid) (now1 now2 : timestamptz)
    (d : db) (v1 v2 : view) : db * view * view :=
  let seen1 := select_channel d (contact_id pr) (persona_id pr) in
  let seen2 := select_channel d (contact_id pr) (persona_id pr) in
  let r1 := loadChannel_after_select pr fresh1 now1 seen1 d (set_loading true v1) in
  let r2 := loadChannel_after_select pr fresh2 now2 seen2 (fst r1)
              (set_loading true v2) in
  (fst r2, snd r1, snd r2).

(** [update({status: 'delivered', delivered_at: now}).eq('id', messageId)]. *)
Definition deliver_row (now : timestamptz) (messageId : uuid)
    (m : Messages.row) : Messages.row :=
  if uuid_eqb (Messages.id m) messageId
  then Messages.set_status delivered (Some now) (Messages.read_at m) m
  else m.

Definition markMessageAsDelivered (d : db) (now : timestamptz)
    (messageId : uuid) : db :=
  with_messages d (map (deliver_row now messageId) (messages d)).

(** The INSERT handler of [subscribeToMessages], as far as the store is
    concerned: a message of the other side is marked delivered. *)
Definition subscribeToMessages_on_insert (pr : props) (now : timestamptz)
    (newMsg : Messages.row) (d : db) : db :=
  if negb (uuid_eqb (Messages.sender_id newMsg) (user_id pr))
  then markMessageAsDelivered d now (Messages.id newMsg)
  else d.

Definition markMessagesAsRead (pr : props) (now : timestamptz)
    (d : db) (v : view) : db :=
  if no_channel (channelId v) then d
  else match channelId v with
       | Some c => mark_messages_as_read d now c (user_id pr)
       | None => d
       end.

Definition resetUnreadCount (d : db) (v : view) : db :=
  if no_channel (channelId v) then d
  else match channelId v with
       | Some c => reset_unread_count d c
       | None => d
       end.

(** [update({last_message_at: now}).eq('id', channel)]. *)
Definition touch_channel (d : db) (now : timestamptz) (channel : uuid) : db :=
  with_persona_channels d
    (map (fun pc =>
            if uuid_eqb (PersonaChannels.id pc) channel
            then PersonaChannels.set_last_message_at (Some now) pc
            else pc)
         (persona_channels d)).

(** [handleSendMessage].  [fresh] and [server_now] are the id and the
    [created_at] the store gives the message, [client_now] is the
    sender's [new Date()].  The result of the insert is not read. *)
Definition handleSendMessage (pr : props) (fresh : uuid)
    (server_now client_now : timestamptz) (d : db) (v : view) : db * view :=
  if JS.falsy (JS.trim (newMessage v)) || no_channel (channelId v)
  then (d, v)
  else match channelId v with
       | None => (d, v)
       | Some c =>
           let message :=
             {| ins_channel_id := c; ins_sender_id := user_id pr;
                ins_content := JS.trim (newMessage v);
                ins_file_url := None; ins_file_type := None;
                ins_file_name := None |} in
           let d1 := commit d (insert_message d fresh server_now message) in
           let d2 := touch_channel d1 client_now c in
           let d3 := TypingService.cleanupTyping d2 c (user_id pr) in
           (d3, set_newMessage [] v)
       end.

(** The callback of [subscribeToTypingIndicators]. *)
Definition subscribeToTypingIndicators_callback (pr : props)
    (c : TypingService.callback_call) (v : view) : view :=
  if TypingService.strict_eq (TypingService.call_userId c)
       (contact_contact_user_id pr)
  then set_contactTyping (TypingService.call_isTyping c) v
  else v.

(** A typing event as it reaches the state of the view, at local time
    [now]. *)
Definition on_typing_event (pr : props) (now : timestamptz)
    (p : TypingService.payload) (v : view) : view :=
  match TypingService.subscribeToTyping_on_change (user_id pr) now p with
  | Some c => subscribeToTypingIndicators_callback pr c v
  | None => v
  end.

End ChatView.

(** ** [presenceService] *)
Module PresenceService.

(** [updatePresence]: an upsert on [user_id].  [t_seen] and [t_updated]
    are the two [new Date()] of the call. *)
Definition put (userId : uuid) (status : PresenceStatus)
    (t_seen t_updated : timestamptz) (r : UserPresence.row) : UserPresence.row :=
  if uuid_eqb (UserPresence.user_id r) userId
  then {| UserPresence.id := UserPresence.id r;
          UserPresence.user_id := userId;
          UserPresence.status := status;
          UserPresence.last_seen := t_seen;
          UserPresence.updated_at := t_updated |}
  else r.

Definition upsert_presence (d : db) (fresh : uuid) (userId : uuid)
    (status : PresenceStatus) (t_seen t_updated : timestamptz) : result db :=
  let rows := user_presence d in
  if existsb (fun r => uuid_eqb (UserPresence.user_id r) userId) rows
  then Ok (with_user_presence d (map (put userId status t_seen t_updated) rows))
  else if existsb (fun r => uuid_eqb (UserPresence.id r) fresh) rows
  then Err unique_violation
  else Ok (with_user_presence d
             (rows ++ [ {| UserPresence.id := fresh;
                           UserPresence.user_id := userId;
                           UserPresence.status := status;
                           UserPresence.last_seen := t_seen;
                           UserPresence.updated_at := t_updated |} ])).

Definition updatePresence (d : db) (fresh : uuid) (userId : uuid)
    (status : PresenceStatus) (t_seen t_updated : timestamptz) : db :=
  commit d (upsert_presence d fresh userId status t_seen t_updated).

(** What [startHeartbeat] and [stopHeartbeat] make of each event. *)
Inductive presence_event :=
  | heartbeat_tick
  | visibility_change (hidden : bool)
  | before_unload
  | stop_heartbeat.

Definition status_of_event (e : presence_event) : PresenceStatus :=
  match e with
  | heartbeat_tick => online
  | visibility_change hidden => if hidden then away else online
  | before_unload => offline
  | stop_heartbeat => offline
  end.

(** An event with what its call reads from the environment. *)
Record call := {
  call_event : presence_event;
  call_fresh : uuid;
  call_t_seen : timestamptz;
  call_t_updated : timestamptz
}.

Definition on_event (userId : uuid) (d : db) (c : call) : db :=
  updatePresence d (call_fresh c) userId (status_of_event (call_event c))
    (call_t_seen c) (call_t_updated c).

(** The stores after each call of a sequence, the first one included. *)
Fixpoint states (userId : uuid) (d : db) (cs : list call) : list db :=
  match cs with
  | [] => [d]
  | c :: cs' => d :: states userId (on_event userId d c) cs'
  end.

Definition presence_rows (d : db) (userId : uuid) : list UserPresence.row :=
  filter (fun r => uuid_eqb (UserPresence.user_id r) userId) (user_presence d).

(** [last_seen] of the user, [None] while there is no record. *)
Definition last_seen_of (d : db) (userId : uuid) : option timestamptz :=
  match presence_rows d userId with
  | r :: _ => Some (UserPresence.last_seen r)
  | [] => None
  end.

(** [a] is not later than [b]; no record is before every record. *)
Definition seen_le (a b : option timestamptz) : Prop :=
  match a, b with
  | None, _ => True
  | Some _, None => False
  | Some x, Some y => x <= y
  end.

Fixpoint non_decreasing (l : list (option timestamptz)) : Prop :=
  match l with
  | a :: ((b :: _) as l') => seen_le a b /\ non_decreasing l'
  | _ => True
  end.

End PresenceService.

(** ** [fileService] *)
Module FileService.

Open Scope string_scope.

Definition MAX_FILE_SIZE : Z := (50 * 1024 * 1024)%Z.
Definition BUCKET_NAME : string := "message-attachments".

Definition ALLOWED_IMAGE_TYPES : list string :=
  ["image/jpeg"; "image/png"; "image/gif"; "image/webp"; "image/svg+xml"].

Definition ALLOWED_DOCUMENT_TYPES : list string :=
  ["application/pdf";
   "application/msword";
   "application/vnd.openxmlformats-officedocument.wordprocessingml.document";
   "application/vnd.ms-excel";
   "application/vnd.openxmlformats-officedocument.spreadsheetml.sheet";
   "application/vnd.ms-powerpoint";
   "application/vnd.openxmlformats-officedocument.presentationml.presentation";
   "text/plain"].

Definition ALLOWED_VIDEO_TYPES : list string :=
  ["video/mp4"; "video/webm"; "video/ogg"].

Definition ALLOWED_AUDIO_TYPES : list string :=
  ["audio/mpeg"; "audio/ogg"; "audio/wav"; "audio/webm"].

Definition ALLOWED_TYPES : list string :=
  ALLOWED_IMAGE_TYPES ++ ALLOWED_DOCUMENT_TYPES
  ++ ALLOWED_VIDEO_TYPES ++ ALLOWED_AUDIO_TYPES.

(** [Array.prototype.includes] on strings. *)
Definition includes (l : list string) (x : string) : bool :=
  existsb (String.eqb x) l.

(** The properties of a [File] the service reads. *)
Record File := {
  name : string;
  size : Z;
  type : string
}.

Record validation := {
  valid : bool;
  error : option string
}.

Definition validateFile (file : File) : validation :=
  if (MAX_FILE_SIZE <? size file)%Z then
    {| valid := false;
       error := Some ("File size exceeds "
                      ++ JS.toString (MAX_FILE_SIZE / 1024 / 1024)%Z
                      ++ "MB limit") |}
  else if negb (includes ALLOWED_TYPES (type file)) then
    {| valid := false; error := Some "File type not allowed" |}
  else {| valid := true; error := None |}.

(** The bucket: the objects written so far, by path. *)
Definition storage := list (string * File).

Record FileUploadResult := {
  url : string;
  path : string;
  res_type : string;
  res_name : string;
  res_size : Z
}.

(** How a call ends. *)
Inductive outcome (A : Type) :=
  | returned (a : A)
  | thrown (message : option string).
Arguments returned {A} a.
Arguments thrown {A} message.

(** [file.name.split('.').pop()]: what follows the last dot, the whole
    name when there is none. *)
Fixpoint last_segment (cs acc : list ascii) : list ascii :=
  match cs with
  | [] => rev acc
  | c :: cs' =>
      if Ascii.eqb c "."%char then last_segment cs' []
      else last_segment cs' (c :: acc)
  end.

Definition fileExt_of (n : string) : string :=
  string_of_list_ascii (last_segment (list_ascii_of_string n) []).

(** [storage.from(BUCKET_NAME).upload(filePath, file, {upsert: false})]:
    an object already at the path is an error. *)
Definition upload (st : storage) (filePath : string) (file : File)
  : option storage :=
  if existsb (fun o => String.eqb (fst o) filePath) st then None
  else Some (st ++ [(filePath, file)])%list.

(** [uploadFile].  [timestamp] is [Date.now()], [rnd] is
    [Math.random().toString(36).substring(7)], [getPublicUrl] is the
    storage client's.  The result carries the bucket the call leaves. *)
Definition uploadFile (getPublicUrl : string -> string)
    (timestamp : Z) (rnd : string)
    (file : File) (channelId userId : uuid) (st : storage)
  : outcome FileUploadResult * storage :=
  let validation := validateFile file in
  if negb (valid validation) then (thrown (error validation), st)
  else
    let fileExt := fileExt_of (name file) in
    let fileName := JS.toString timestamp ++ "-" ++ rnd ++ "." ++ fileExt in
    let filePath := channelId ++ "/" ++ fileName in
    match upload st filePath file with
    | None => (thrown (Some "Failed to upload file"), st)
    | Some st' =>
        (returned {| url := getPublicUrl filePath; path := filePath;
                     res_type := type file; res_name := name file;
                     res_size := size file |}, st')
    end.

End FileService.

(** ** Numbers as text *)

Module JSNumber.

Open Scope string_scope.

(** An integer-valued Number is modelled by the integer it is.
    [to_double m] is the Number value for a non-negative integer [m] below
    [2 ^ 1024]: [m] rounded to 53 significant bits, ties to even. *)
Definition to_double (m : Z) : Z :=
  let e := Z.log2 m in
  if (e <? 53)%Z then m
  else
    let ulp := (2 ^ (e - 52))%Z in
    let q := (m / ulp)%Z in
    let r := (m mod ulp)%Z in
    let q' := if (2 * r <? ulp)%Z then q
              else if (ulp <? 2 * r)%Z then (q + 1)%Z
              else if Z.even q then q else (q + 1)%Z in
    (q' * ulp)%Z.


(** The number of decimal digits of a positive integer. *)
Fixpoint digits_from (fuel : nat) (x : Z) : Z :=
  match fuel with
  | O => 1%Z
  | S f => if (x <? 10)%Z then 1%Z else (1 + digits_from f (x / 10))%Z
  end.

Definition digits (x : Z) : Z := digits_from (Z.to_nat (Z.log2 x)) x.

(** The [s], [k] and [n] of [Number::toString]: [k] digits [s] with
    [s * 10 ^ (n - k)] a numeral whose Number value is [x], [k] as small
    as possible; [sh_value] is [s * 10 ^ (n - k)]. *)
Record shortest := {
  sh_s : Z;
  sh_k : Z;
  sh_n : Z;
  sh_value : Z
}.

(** The search for [k], from [k] on, for an [x] of [n] digits: with [k]
    digits the candidates are [x] cut to its first [k] digits and the next
    [k]-digit number; of two that both give [x] the one closer to [x] is
    taken, the even one when they are as close.  The next number after
    [k] nines is a one followed by zeros, of [n + 1] digits.  With all [n]
    digits [x] is its own numeral. *)
Fixpoint search (fuel : nat) (k n x : Z) : shortest :=
  match fuel with
  | O => {| sh_s := x; sh_k := n; sh_n := n; sh_value := x |}
  | S f =>
      let p := (10 ^ (n - k))%Z in
      let lo := (x / p)%Z in
      let hi := (lo + 1)%Z in
      let lo_ok := (to_double (lo * p) =? x)%Z in
      let hi_ok := (to_double (hi * p) =? x)%Z in
      let r := (x mod p)%Z in
      if lo_ok && (negb hi_ok || (2 * r <? p)%Z || ((2 * r =? p)%Z && Z.even lo))
      then {| sh_s := lo; sh_k := k; sh_n := n; sh_value := (lo * p)%Z |}
      else if hi_ok
      then if (hi =? 10 ^ k)%Z
           then {| sh_s := 1%Z; sh_k := 1%Z; sh_n := (n + 1)%Z;
                   sh_value := (hi * p)%Z |}
           else {| sh_s := hi; sh_k := k; sh_n := n; sh_value := (hi * p)%Z |}
      else search f (k + 1)%Z n x
  end.

(** [Number::toString] of a positive integer-valued Number: with
    [n <= 21] the digits of [s] followed by [n - k] zeros, which is the
    numeral of [s * 10 ^ (n - k)]; otherwise the first digit of [s], a
    point and the other digits if there are any, and the exponent
    [n - 1]. *)
Definition toString_pos (x : Z) : string :=
  let n := digits x in
  let r := search (Z.to_nat (n - 1)) 1%Z n x in
  if (sh_n r <=? 21)%Z then JS.toString (sh_value r)
  else
    let e := "e+" ++ JS.toString (sh_n r - 1)%Z in
    match JS.toString (sh_s r) with
    | String c EmptyString => String c e
    | String c rest => String c ("." ++ rest ++ e)
    | EmptyString => e
    end.

(** [x.toString()] and [`${x}`] of an integer-valued Number. *)
Definition Number_toString (x : Z) : string :=
  if (x =? 0)%Z then "0"
  else if (x <? 0)%Z then "-" ++ toString_pos (- x)%Z
  else toString_pos x.

End JSNumber.

(** ** [UnreadBadge] *)
Module UnreadBadge.

Open Scope string_scope.

Inductive badge_size := sm | md | lg.

Definition sizeClasses (s : badge_size) : string :=
  match s with
  | sm => "min-w-[16px] h-4 text-[10px] px-1"
  | md => "min-w-[20px] h-5 text-xs px-1.5"
  | lg => "min-w-[24px] h-6 text-sm px-2"
  end.

(** The [div] the component returns. *)
Record element := {
  className : string;
  children : string
}.

(** [UnreadBadge({count, size = 'md', max = 99})]; [None] is [null].
    [count] and [max] are integer-valued Numbers, as the counters they
    come from. *)
Definition UnreadBadge (count : Z) (size : option badge_size) (max : option Z)
  : option element :=
  let size := match size with Some s => s | None => md end in
  let max := match max with Some m => m | None => 99 end in
  if (count <=? 0)%Z then None
  else
    let displayCount :=
      if (max <? count)%Z then JSNumber.Number_toString max ++ "+"
      else JSNumber.Number_toString count in
    Some {| className :=
              sizeClasses size
              ++ " bg-red-500 text-white rounded-full flex items-center justify-center font-semibold";
            children := displayCount |}.

End UnreadBadge.

(** ** Sequences of store operations *)

(** Message inserts and counter resets, as clients issue them. *)
Inductive op :=
  | OpInsert (fresh : uuid) (now : timestamptz) (m : message_insert)
  | OpReset (channel : uuid).

Definition step (d : db) (o : op) : db :=
  match o with
  | OpInsert fresh now m => commit d (insert_message d fresh now m)
  | OpReset c => reset_unread_count d c
  end.

Definition run (ops : list op) (d : db) : db := fold_left step ops d.

(** The rows the inserts of [ops] add when run from [d]: one for each
    insert that succeeds. *)
Fixpoint inserted (ops : list op) (d : db) : list Messages.row :=
  match ops with
  | [] => []
  | o :: ops' =>
      match o with
      | OpInsert fresh now m =>
          match insert_message d fresh now m with
          | Ok _ => [new_message fresh now m]
          | Err _ => []
          end
      | OpReset _ => []
      end ++ inserted ops' (step d o)
  end.

Definition is_reset_of (channel : uuid) (o : op) : bool :=
  match o with
  | OpReset c => uuid_eqb c channel
  | OpInsert _ _ _ => false
  end.

Definition unread_of (d : db) (channel : uuid) : option Z :=
  option_map PersonaChannels.unread_count (find_channel d channel).

(** A message into [channel] whose sender is not [owner]. *)
Definition inbound (channel owner : uuid) (m : Messages.row) : bool :=
  uuid_eqb (Messages.channel_id m) channel
  && negb (uuid_eqb (Messages.sender_id m) owner).

Definition count_inbound (channel owner : uuid) (l : list Messages.row) : Z :=
  Z.of_nat (List.length (filter (inbound channel owner) l)).

(** ** What the operations on messages are to do *)

(** [m'] is [m] in every column but [status] and [read_at]. *)
Definition same_but_read (m m' : Messages.row) : Prop :=
  Messages.id m' = Messages.id m
  /\ Messages.channel_id m' = Messages.channel_id m
  /\ Messages.sender_id m' = Messages.sender_id m
  /\ Messages.content m' = Messages.content m
  /\ Messages.detected_tone m' = Messages.detected_tone m
  /\ Messages.is_read m' = Messages.is_read m
  /\ Messages.created_at m' = Messages.created_at m
  /\ Messages.delivered_at m' = Messages.delivered_at m
  /\ Messages.file_url m' = Messages.file_url m
  /\ Messages.file_type m' = Messages.file_type m
  /\ Messages.file_name m' = Messages.file_name m.

(** The rows [markAllRead(channel, reader)] is about. *)
Definition unread_from_others (channel reader : uuid) (m : Messages.row) : Prop :=
  Messages.channel_id m = channel
  /\ Messages.sender_id m <> reader
  /\ Messages.status m <> read.

(** [m'] is what [markAllRead(channel, reader)] at [now] makes of [m]. *)
Definition read_transition (now : timestamptz) (channel reader : uuid)
    (m m' : Messages.row) : Prop :=
  (unread_from_others channel reader m ->
     Messages.status m' = read /\ Messages.read_at m' = Some now
     /\ same_but_read m m')
  /\ (~ unread_from_others channel reader m -> m' = m).

(** Status and timestamps of the message with the given id. *)
Definition message_state (d : db) (id : uuid)
  : option (message_status * option timestamptz * option timestamptz) :=
  option_map
    (fun m => (Messages.status m, Messages.delivered_at m, Messages.read_at m))
    (find (fun m => uuid_eqb (Messages.id m) id) (messages d)).

(** [last_message_at] of a channel: [None] when there is no such channel,
    [Some None] when the column is null. *)
Definition last_message_at_of (d : db) (channel : uuid)
  : option (option timestamptz) :=
  option_map PersonaChannels.last_message_at (find_channel d channel).

(** The key of [UNIQUE(channel_id, user_id)] on [typing_indicators]. *)
Definition typing_keys (d : db) : list (uuid * uuid) :=
  map (fun r => (TypingIndicators.channel_id r, TypingIndicators.user_id r))
      (typing_indicators d).

(** The key of [UNIQUE(user_id)] on [user_presence]. *)
Definition presence_keys (d : db) : list uuid :=
  map UserPresence.user_id (user_presence d).

(** ** A small store

    Alice has Bob as a contact; one channel for the pair, in one persona. *)
Module Sample.

Open Scope string_scope.

Definition alice : uuid := "alice".
Definition bob : uuid := "bob".

Definition contact_ab : Contacts.row :=
  {| Contacts.id := "contact-ab"; Contacts.user_id := alice;
     Contacts.contact_user_id := bob; Contacts.nickname := None;
     Contacts.created_at := 0 |}.

Definition channel_ab : PersonaChannels.row :=
  {| PersonaChannels.id := "channel-1";
     PersonaChannels.contact_id := "contact-ab";
     PersonaChannels.persona_id := "professional";
     PersonaChannels.last_message_at := Some 100%Z;
     PersonaChannels.is_locked := false;
     PersonaChannels.notification_enabled := true;
     PersonaChannels.created_at := 0;
     PersonaChannels.unread_count := 7 |}.

Definition empty_db : db :=
  {| contacts := []; persona_channels := []; messages := [];
     user_presence := []; typing_indicators := [] |}.

(** The contact is there, the channel is not yet. *)
Definition db_contact : db :=
  {| contacts := [contact_ab]; persona_channels := []; messages := [];
     user_presence := []; typing_indicators := [] |}.

Definition db_channel : db :=
  {| contacts := [contact_ab]; persona_channels := [channel_ab];
     messages := []; user_presence := []; typing_indicators := [] |}.

Definition text (sender : uuid) (s : string) : message_insert :=
  {| ins_channel_id := "channel-1"; ins_sender_id := sender;
     ins_content := JS.lit s; ins_file_url := None; ins_file_type := None;
     ins_file_name := None |}.

(** Alice's view of the channel, once it is resolved. *)
Definition props_alice : ChatView.props :=
  {| ChatView.contact_id := "contact-ab";
     ChatView.contact_contact_user_id := bob;
     ChatView.persona_id := "professional";
     ChatView.user_id := alice |}.

Definition view_alice : ChatView.view :=
  ChatView.set_loading false (ChatView.set_channel channel_ab ChatView.initial).

(** Bob's typing row in the channel, if he signals when his clock reads
    [t]. *)
Definition typing_bob (t : timestamptz) : TypingIndicators.row :=
  {| TypingIndicators.id := "typing-1";
     TypingIndicators.channel_id := "channel-1";
     TypingIndicators.user_id := bob;
     TypingIndicators.created_at := t;
     TypingIndicators.expires_at := (t + 5000)%Z |}.

Definition tick (fresh : uuid) (t : timestamptz) : PresenceService.call :=
  {| PresenceService.call_event := PresenceService.heartbeat_tick;
     PresenceService.call_fresh := fresh;
     PresenceService.call_t_seen := t;
     PresenceService.call_t_updated := t |}.

Definition png (n : Z) : FileService.File :=
  {| FileService.name := "photo.png"; FileService.size := n;
     FileService.type := "image/png" |}.

End Sample.

(** ** The rest of [ChatView.tsx] *)
Module ChatViewRest.

Definition set_is_locked (b : bool) (r : PersonaChannels.row) : PersonaChannels.row :=
  {| PersonaChannels.id := PersonaChannels.id r;
     PersonaChannels.contact_id := PersonaChannels.contact_id r;
     PersonaChannels.persona_id := PersonaChannels.persona_id r;
     PersonaChannels.last_message_at := PersonaChannels.last_message_at r;
     PersonaChannels.is_locked := b;
     PersonaChannels.notification_enabled := PersonaChannels.notification_enabled r;
     PersonaChannels.created_at := PersonaChannels.created_at r;
     PersonaChannels.unread_count := PersonaChannels.unread_count r |}.

Definition set_notification_enabled (b : bool) (r : PersonaChannels.row)
  : PersonaChannels.row :=
  {| PersonaChannels.id := PersonaChannels.id r;
     PersonaChannels.contact_id := PersonaChannels.contact_id r;
     PersonaChannels.persona_id := PersonaChannels.persona_id r;
     PersonaChannels.last_message_at := PersonaChannels.last_message_at r;
     PersonaChannels.is_locked := PersonaChannels.is_locked r;
     PersonaChannels.notification_enabled := b;
     PersonaChannels.created_at := PersonaChannels.created_at r;
     PersonaChannels.unread_count := PersonaChannels.unread_count r |}.

Definition set_isLocked (b : bool) (v : ChatView.view) : ChatView.view :=
  {| ChatView.channelId := ChatView.channelId v;
     ChatView.isLocked := b;
     ChatView.notificationsEnabled := ChatView.notificationsEnabled v;
     ChatView.newMessage := ChatView.newMessage v;
     ChatView.loading := ChatView.loading v;
     ChatView.contactTyping := ChatView.contactTyping v |}.

Definition set_notificationsEnabled (b : bool) (v : ChatView.view) : ChatView.view :=
  {| ChatView.channelId := ChatView.channelId v;
     ChatView.isLocked := ChatView.isLocked v;
     ChatView.notificationsEnabled := b;
     ChatView.newMessage := ChatView.newMessage v;
     ChatView.loading := ChatView.loading v;
     ChatView.contactTyping := ChatView.contactTyping v |}.

(** [update(f).eq('id', channelId!)]: every row with the id; with
    [channelId] null no row has the id. *)
Definition update_channel (f : PersonaChannels.row -> PersonaChannels.row)
    (d : db) (channelId : option uuid) : db :=
  match channelId with
  | Some c =>
      with_persona_channels d
        (map (fun pc => if uuid_eqb (PersonaChannels.id pc) c then f pc else pc)
             (persona_channels d))
  | None => d
  end.

Definition toggleLock (d : db) (v : ChatView.view) : db * ChatView.view :=
  let newLockState := negb (ChatView.isLocked v) in
  (update_channel (set_is_locked newLockState) d (ChatView.channelId v),
   set_isLocked newLockState v).

Definition toggleNotifications (d : db) (v : ChatView.view) : db * ChatView.view :=
  let newNotificationState := negb (ChatView.notificationsEnabled v) in
  (update_channel (set_notification_enabled newNotificationState) d
     (ChatView.channelId v),
   set_notificationsEnabled newNotificationState v).

(** What [handleSendFile] gets from the upload. *)
Record fileData := {
  fd_url : string;
  fd_type : string;
  fd_name : string
}.

(** [handleSendFile]: the insert, then the update of [last_message_at].
    The name goes into the content code unit by code unit. *)
Definition handleSendFile (pr : ChatView.props) (fresh : uuid)
    (server_now client_now : timestamptz) (f : fileData)
    (d : db) (v : ChatView.view) : db :=
  if ChatView.no_channel (ChatView.channelId v) then d
  else match ChatView.channelId v with
       | None => d
       | Some c =>
           let message :=
             {| ins_channel_id := c; ins_sender_id := ChatView.user_id pr;
                ins_content := JS.lit "Sent a file: " ++ JS.lit (fd_name f);
                ins_file_url := Some (fd_url f);
                ins_file_type := Some (fd_type f);
                ins_file_name := Some (fd_name f) |} in
           let d1 := commit d (insert_message d fresh server_now message) in
           ChatView.touch_channel d1 client_now c
       end.

(** [handleSendGif]. *)
Definition handleSendGif (pr : ChatView.props) (fresh : uuid)
    (server_now client_now : timestamptz) (gifUrl : string)
    (d : db) (v : ChatView.view) : db :=
  if ChatView.no_channel (ChatView.channelId v) then d
  else match ChatView.channelId v with
       | None => d
       | Some c =>
           let message :=
             {| ins_channel_id := c; ins_sender_id := ChatView.user_id pr;
                ins_content := JS.lit "Sent a GIF";
                ins_file_url := Some gifUrl;
                ins_file_type := Some "image/gif"%string;
                ins_file_name := Some "giphy.gif"%string |} in
           let d1 := commit d (insert_message d fresh server_now message) in
           ChatView.touch_channel d1 client_now c
       end.

(** [s.startsWith(prefix)]. *)
Fixpoint startsWith (pre s : JS.jsstring) : bool :=
  match pre, s with
  | [], _ => true
  | _ :: _, [] => false
  | a :: pre', b :: s' => N.eqb a b && startsWith pre' s'
  end.

(** A nullable string as a condition: null and the empty string are
    false. *)
Definition truthy (o : option string) : bool :=
  match o with
  | Some (String _ _) => true
  | _ => false
  end.

(** The two conditions under which a message row is rendered:
    [message.file_url && message.file_type && message.file_name], and
    [message.content && !message.content.startsWith('Sent a ')]. *)
Definition hasAttachment (m : Messages.row) : bool :=
  truthy (Messages.file_url m) && truthy (Messages.file_type m)
  && truthy (Messages.file_name m).

Definition shows_text (m : Messages.row) : bool :=
  negb (JS.falsy (Messages.content m))
  && negb (startsWith (JS.lit "Sent a ") (Messages.content m)).

(** The handlers of [subscribeToMessages] on the list the view keeps:
    [[...prev, newMsg]] and
    [prev.map((msg) => (msg.id === updatedMsg.id ? updatedMsg : msg))]. *)
Definition on_insert_event (newMsg : Messages.row) (prev : list Messages.row)
  : list Messages.row :=
  prev ++ [newMsg].

Definition on_update_event (updatedMsg : Messages.row) (prev : list Messages.row)
  : list Messages.row :=
  map (fun msg => if uuid_eqb (Messages.id msg) (Messages.id updatedMsg)
                  then updatedMsg else msg) prev.

(** The effect on [channelId]: what opening a resolved channel does to the
    store, its two calls in either order. *)
Definition open_read_first (pr : ChatView.props) (now : timestamptz)
    (d : db) (v : ChatView.view) : db :=
  ChatView.resetUnreadCount (ChatView.markMessagesAsRead pr now d v) v.

Definition open_reset_first (pr : ChatView.props) (now : timestamptz)
    (d : db) (v : ChatView.view) : db :=
  ChatView.markMessagesAsRead pr now (ChatView.resetUnreadCount d v) v.

End ChatViewRest.

(** [pc'] is [pc] in every column but [notification_enabled]. *)
Definition same_but_notification_enabled (pc pc' : PersonaChannels.row) : Prop :=
  PersonaChannels.id pc' = PersonaChannels.id pc
  /\ PersonaChannels.contact_id pc' = PersonaChannels.contact_id pc
  /\ PersonaChannels.persona_id pc' = PersonaChannels.persona_id pc
  /\ PersonaChannels.last_message_at pc' = PersonaChannels.last_message_at pc
  /\ PersonaChannels.is_locked pc' = PersonaChannels.is_locked pc
  /\ PersonaChannels.created_at pc' = PersonaChannels.created_at pc
  /\ PersonaChannels.unread_count pc' = PersonaChannels.unread_count pc.




(** The messages of a channel that are from others than [reader] and not
    read. *)
Definition unread_rows (channel reader : uuid) (d : db) : Z :=
  Z.of_nat
    (List.length (filter (to_mark_read channel reader) (messages d))).

(** ** The rest of the typing code *)

(** [cleanup_expired_typing_indicators()]:
    [DELETE FROM typing_indicators WHERE expires_at < now()]. *)
Definition cleanup_expired_typing_indicators (d : db) (now : timestamptz) : db :=
  with_typing_indicators d
    (filter (fun r => negb (TypingIndicators.expires_at r <? now))
            (typing_indicators d)).

(** [handleTypingInput] and [cleanupTyping] with the timers they keep.
    The calls to the store are taken in the order they are issued. *)
Module TypingTimers.

(** What [setTimeout] returns. *)
Definition handle := N.
Bind Scope N_scope with handle.

(** [typingTimeouts], the entries of the [Map] in insertion order, and the
    timeouts that are set and neither cleared nor run, each with the pair
    its callback removes. *)
Record state := {
  typingTimeouts : list (string * handle);
  pending : list (handle * (uuid * uuid))
}.

Definition initial : state := {| typingTimeouts := []; pending := [] |}.

(** [`${channelId}-${userId}`]. *)
Definition key (channelId userId : uuid) : string :=
  (channelId ++ "-" ++ userId)%string.

Definition map_get (k : string) (m : list (string * handle)) : option handle :=
  option_map snd (find (fun e => String.eqb (fst e) k) m).

Definition map_delete (k : string) (m : list (string * handle))
  : list (string * handle) :=
  filter (fun e => negb (String.eqb (fst e) k)) m.

(** [Map.set]: the value of an entry that is there is replaced in place. *)
Definition map_set (k : string) (h : handle) (m : list (string * handle))
  : list (string * handle) :=
  if existsb (fun e => String.eqb (fst e) k) m
  then map (fun e => if String.eqb (fst e) k then (k, h) else e) m
  else m ++ [(k, h)].

Definition clearTimeout (h : handle) (p : list (handle * (uuid * uuid)))
  : list (handle * (uuid * uuid)) :=
  filter (fun e => negb (N.eqb (fst e) h)) p.

(** [if (typingTimeouts.has(key)) { clearTimeout(typingTimeouts.get(key)!);
     typingTimeouts.delete(key); }]. *)
Definition clear_key (k : string) (s : state) : state :=
  match map_get k (typingTimeouts s) with
  | Some h => {| typingTimeouts := map_delete k (typingTimeouts s);
                 pending := clearTimeout h (pending s) |}
  | None => s
  end.

(** [handleTypingInput(channelId, userId, isTyping)]; [h] is the handle
    [setTimeout] returns, [fresh], [server_now] and [client_now] are what
    [sendTypingIndicator] reads. *)
Definition handleTypingInput (h : handle) (fresh : uuid)
    (server_now client_now : timestamptz) (channelId userId : uuid)
    (isTyping : bool) (s : state) (d : db) : state * db :=
  let k := key channelId userId in
  let s1 := clear_key k s in
  if isTyping then
    let d1 := TypingService.sendTypingIndicator d fresh server_now client_now
                channelId userId in
    ({| typingTimeouts := map_set k h (typingTimeouts s1);
        pending := pending s1 ++ [(h, (channelId, userId))] |}, d1)
  else (s1, TypingService.removeTypingIndicator d channelId userId).

(** The callback of the timeout with handle [h], when the runtime runs
    it; a handle that is not pending runs nothing. *)
Definition fire (h : handle) (s : state) (d : db) : state * db :=
  match find (fun e => N.eqb (fst e) h) (pending s) with
  | Some (_, (channelId, userId)) =>
      ({| typingTimeouts := map_delete (key channelId userId) (typingTimeouts s);
          pending := clearTimeout h (pending s) |},
       TypingService.removeTypingIndicator d channelId userId)
  | None => (s, d)
  end.

(** An optional string as a condition. *)
Definition given (o : option uuid) : option uuid :=
  match o with
  | Some (String a r) => Some (String a r)
  | _ => None
  end.

(** [cleanupTyping(channelId?, userId?)]. *)
Definition cleanupTyping (channelId userId : option uuid) (s : state) (d : db)
  : state * db :=
  match given channelId, given userId with
  | Some c, Some u =>
      (clear_key (key c u) s, TypingService.removeTypingIndicator d c u)
  | _, _ =>
      ({| typingTimeouts := [];
          pending := fold_left (fun p e => clearTimeout (snd e) p)
                               (typingTimeouts s) (pending s) |}, d)
  end.

(** What can happen to the timers of a client. *)
Inductive event :=
  | Input (h : handle) (fresh : uuid) (server_now client_now : timestamptz)
          (channelId userId : uuid) (isTyping : bool)
  | Fire (h : handle)
  | Cleanup (channelId userId : option uuid).

Definition apply_event (e : event) (sd : state * db) : state * db :=
  match e with
  | Input h fresh sn cn c u b => handleTypingInput h fresh sn cn c u b (fst sd) (snd sd)
  | Fire h => fire h (fst sd) (snd sd)
  | Cleanup c u => cleanupTyping c u (fst sd) (snd sd)
  end.

(** The runtime never returns the handle of a timeout that is pending. *)
Definition handle_is_new (e : event) (s : state) : Prop :=
  match e with
  | Input h _ _ _ _ _ true => ~ In h (map fst (pending s))
  | _ => True
  end.

Fixpoint run (es : list event) (sd : state * db) : state * db :=
  match es with
  | [] => sd
  | e :: es' => run es' (apply_event e sd)
  end.

Fixpoint handles_are_new (es : list event) (sd : state * db) : Prop :=
  match es with
  | [] => True
  | e :: es' => handle_is_new e (fst sd) /\ handles_are_new es' (apply_event e sd)
  end.

(** Every pending timeout is the one the map has for the key of its pair,
    every entry of the map is a pending timeout, and no key and no handle
    occurs twice. *)
Definition consistent (s : state) : Prop :=
  NoDup (map fst (typingTimeouts s))
  /\ NoDup (map fst (pending s))
  /\ (forall h c u, In (h, (c, u)) (pending s) -> In (key c u, h) (typingTimeouts s))
  /\ (forall k h, In (k, h) (typingTimeouts s) ->
                  exists c u, k = key c u /\ In (h, (c, u)) (pending s)).

End TypingTimers.

(** ** The rest of [presenceService] *)
Module PresenceRest.

(** [getUserPresence]: [.eq('user_id', userId).maybeSingle()], the row
    when exactly one matches, null when none does or, with an error, when
    several do. *)
Definition getUserPresence (d : db) (userId : uuid) : option UserPresence.row :=
  match PresenceService.presence_rows d userId with
  | [r] => Some r
  | _ => None
  end.

(** [getMultipleUserPresence]: no query for an empty list, otherwise
    [.in('user_id', userIds)]. *)
Definition getMultipleUserPresence (d : db) (userIds : list uuid)
  : list UserPresence.row :=
  match userIds with
  | [] => []
  | _ => filter (fun r => existsb (uuid_eqb (UserPresence.user_id r)) userIds)
                (user_presence d)
  end.

(** [getLastSeenText(lastSeen)] at [now], for a [lastSeen] that is a
    date; [toLocaleDateString] is the one of the runtime. *)
Definition getLastSeenText (toLocaleDateString : timestamptz -> string)
    (now lastSeen : timestamptz) : string :=
  let diffMs := now - lastSeen in
  let diffMins := diffMs / 60000 in
  let diffHours := diffMs / 3600000 in
  let diffDays := diffMs / 86400000 in
  if diffMins <? 1 then "Just now"%string
  else if diffMins <? 60 then (JS.toString diffMins ++ "m ago")%string
  else if diffHours <? 24 then (JS.toString diffHours ++ "h ago")%string
  else if diffDays <? 7 then (JS.toString diffDays ++ "d ago")%string
  else toLocaleDateString lastSeen.

(** What one [updatePresence] reads from its environment. *)
Record reading := {
  r_fresh : uuid;
  r_seen : timestamptz;
  r_updated : timestamptz
}.

Definition write (d : db) (e : reading) (userId : uuid) (st : PresenceStatus) : db :=
  PresenceService.updatePresence d (r_fresh e) userId st (r_seen e) (r_updated e).

(** The module state of [presenceService] and what it has registered with
    the runtime: [heartbeatInterval], the intervals that are running, each
    with the user it pings for, and the users of the [visibilitychange]
    and [beforeunload] listeners, in the order they were added. *)
Record state := {
  heartbeatInterval : option N;
  intervals : list (N * uuid);
  visibility_listeners : list uuid;
  unload_listeners : list uuid
}.

Definition initial : state :=
  {| heartbeatInterval := None; intervals := [];
     visibility_listeners := []; unload_listeners := [] |}.

(** A user id as a condition: [undefined] and the empty string are
    false. *)
Definition given (o : option uuid) : option uuid :=
  match o with
  | Some (String a r) => Some (String a r)
  | _ => None
  end.

(** [stopHeartbeat(userId?)]. *)
Definition stopHeartbeat (e : reading) (userId : option uuid) (s : state) (d : db)
  : state * db :=
  let s1 :=
    match heartbeatInterval s with
    | Some h =>
        {| heartbeatInterval := None;
           intervals := filter (fun i => negb (N.eqb (fst i) h)) (intervals s);
           visibility_listeners := visibility_listeners s;
           unload_listeners := unload_listeners s |}
    | None => s
    end in
  match given userId with
  | Some u => (s1, write d e u offline)
  | None => (s1, d)
  end.

(** [startHeartbeat(userId)]; [h] is the handle [setInterval] returns. *)
Definition startHeartbeat (h : N) (e : reading) (userId : uuid) (s : state) (d : db)
  : state * db :=
  let s1 := fst (stopHeartbeat e None s d) in
  let d1 := write d e userId online in
  ({| heartbeatInterval := Some h;
      intervals := intervals s1 ++ [(h, userId)];
      visibility_listeners := visibility_listeners s1 ++ [userId];
      unload_listeners := unload_listeners s1 ++ [userId] |}, d1).

(** The runtime calls every listener, in order; the i-th call reads
    [env i]. *)
Fixpoint notify (st : PresenceStatus) (env : nat -> reading) (i : nat)
    (users : list uuid) (d : db) : db :=
  match users with
  | [] => d
  | u :: users' => notify st env (S i) users' (write d (env i) u st)
  end.

Inductive event :=
  | Start (h : N) (e : reading) (userId : uuid)
  | Stop (e : reading) (userId : option uuid)
  | Tick (h : N) (e : reading)
  | VisibilityChange (hidden : bool) (env : nat -> reading)
  | BeforeUnload (env : nat -> reading).

Definition apply_event (ev : event) (sd : state * db) : state * db :=
  let (s, d) := sd in
  match ev with
  | Start h e u => startHeartbeat h e u s d
  | Stop e u => stopHeartbeat e u s d
  | Tick h e =>
      match find (fun i => N.eqb (fst i) h) (intervals s) with
      | Some (_, u) => (s, write d e u online)
      | None => (s, d)
      end
  | VisibilityChange hidden env =>
      (s, notify (if hidden then away else online) env 0 (visibility_listeners s) d)
  | BeforeUnload env => (s, notify offline env 0 (unload_listeners s) d)
  end.

Fixpoint run (evs : list event) (sd : state * db) : state * db :=
  match evs with
  | [] => sd
  | ev :: evs' => run evs' (apply_event ev sd)
  end.

(** The number of [startHeartbeat] calls among the events. *)
Fixpoint starts (evs : list event) : nat :=
  match evs with
  | [] => 0
  | Start _ _ _ :: evs' => S (starts evs')
  | _ :: evs' => starts evs'
  end.

(** The intervals that run are the one [heartbeatInterval] holds, if any. *)
Definition one_interval (s : state) : Prop :=
  map fst (intervals s)
  = match heartbeatInterval s with Some h => [h] | None => [] end.

Definition status_of (d : db) (userId : uuid) : option PresenceStatus :=
  option_map UserPresence.status (getUserPresence d userId).

End PresenceRest.

(** ** The rest of [fileService], and [MessageAttachment] *)
Module FileRest.

Open Scope string_scope.

Definition isImageFile (fileType : string) : bool :=
  FileService.includes FileService.ALLOWED_IMAGE_TYPES fileType.

Definition isVideoFile (fileType : string) : bool :=
  FileService.includes FileService.ALLOWED_VIDEO_TYPES fileType.

Definition isAudioFile (fileType : string) : bool :=
  FileService.includes FileService.ALLOWED_AUDIO_TYPES fileType.

(** [s.includes(sub)] on strings. *)
Fixpoint str_includes (sub s : string) : bool :=
  String.prefix sub s
  || match s with
     | EmptyString => false
     | String _ s' => str_includes sub s'
     end.

Definition getFileIcon (fileType : string) : string :=
  if isImageFile fileType then "Image"
  else if isVideoFile fileType then "Video"
  else if isAudioFile fileType then "Music"
  else if String.eqb fileType "application/pdf" then "FileText"
  else if str_includes "word" fileType then "FileText"
  else if str_includes "excel" fileType || str_includes "sheet" fileType
  then "Table"
  else if str_includes "powerpoint" fileType
          || str_includes "presentation" fileType
  then "Presentation"
  else "File".

(** [deleteFile]: [remove([filePath])] on the bucket. *)
Definition deleteFile (filePath : string) (st : FileService.storage)
  : FileService.storage :=
  filter (fun o => negb (String.eqb (fst o) filePath)) st.

(** [getFileUrl]. *)
Definition getFileUrl (getPublicUrl : string -> string) (filePath : string) : string :=
  getPublicUrl filePath.

(** [renderIcon] of [MessageAttachment]: the icon component drawn for the
    name [getFileIcon] returns. *)
Definition renderIcon (fileType : string) : string :=
  let iconName := getFileIcon fileType in
  if String.eqb iconName "Image" then "ImageIcon"
  else if String.eqb iconName "Video" then "Video"
  else if String.eqb iconName "Music" then "Music"
  else if String.eqb iconName "FileText" then "FileText"
  else "FileIcon".

(** What [MessageAttachment] returns for a file type. *)
Inductive attachment :=
  | image
  | video
  | audio
  | download (icon : string).

Definition MessageAttachment (fileType : string) : attachment :=
  if isImageFile fileType then image
  else if isVideoFile fileType then video
  else if isAudioFile fileType then audio
  else download (renderIcon fileType).

(** The path [uploadFile] stores a file at. *)
Definition filePath_of (timestamp : Z) (rnd : string) (file : FileService.File)
    (channelId : uuid) : string :=
  channelId ++ "/" ++ JS.toString timestamp ++ "-" ++ rnd ++ "."
  ++ FileService.fileExt_of (FileService.name file).

End FileRest.

(** ** notificationService.ts *)

Module NotificationService.

Inductive NotificationPermission := default | granted | denied.

(** What the service reads of the browser: ['Notification' in window],
    [Notification.permission], [document.hidden], and whether
    [new Notification(...)] throws. *)
Record browser := {
  supported : bool;
  permission : NotificationPermission;
  hidden : bool;
  constructor_throws : bool
}.

(** The fields are optional: [None] is [undefined]. *)
Record NotificationData := {
  channelId : option uuid;
  contactId : option uuid;
  personaId : option uuid;
  messageId : option uuid
}.

Record options := {
  body : option JS.jsstring;
  icon : option string;
  badge : option string;
  tag : option JS.jsstring;
  data : option NotificationData;
  requireInteraction : option bool
}.

(** What [new Notification(title, {...})] is given. *)
Record Notification := {
  n_title : JS.jsstring;
  n_body : option JS.jsstring;
  n_icon : string;
  n_badge : string;
  n_tag : option JS.jsstring;
  n_data : option NotificationData;
  n_requireInteraction : bool
}.

Definition permission_eqb (a b : NotificationPermission) : bool :=
  match a, b with
  | default, default | granted, granted | denied, denied => true
  | _, _ => false
  end.

Definition isNotificationSupported (b : browser) : bool := supported b.

Definition getNotificationPermission (b : browser) : NotificationPermission :=
  if negb (isNotificationSupported b) then denied else permission b.

(** [requestNotificationPermission]; [answer] is what
    [Notification.requestPermission()] resolves to, [None] when it
    throws. *)
Definition requestNotificationPermission (b : browser)
    (answer : option NotificationPermission) : NotificationPermission :=
  if negb (isNotificationSupported b) then denied
  else if permission_eqb (permission b) granted then granted
  else if permission_eqb (permission b) denied then denied
  else match answer with
       | Some p => p
       | None => denied
       end.

Definition initializeNotifications (b : browser)
    (answer : option NotificationPermission) : bool :=
  if negb (isNotificationSupported b) then false
  else permission_eqb (requestNotificationPermission b answer) granted.

Definition shouldSendNotification (b : browser) : bool :=
  isNotificationSupported b
  && permission_eqb (permission b) granted
  && hidden b.

(** [s || d] on an optional string. *)
Definition or_default (s : option string) (d : string) : string :=
  match s with
  | Some (String c r) => String c r
  | _ => d
  end.

(** [sendNotification]: the notification created, if one is, and the
    delay of the timer that closes it, if one is set. *)
Definition sendNotification (b : browser) (title : JS.jsstring)
    (o : option options) : option (Notification * option Z) :=
  if negb (isNotificationSupported b) then None
  else if negb (permission_eqb (permission b) granted) then None
  else if negb (hidden b) then None
  else if constructor_throws b then None
  else
    let interaction :=
      match o with
      | Some o' => match requireInteraction o' with
                   | Some r => r
                   | None => false
                   end
      | None => false
      end in
    Some ({| n_title := title;
             n_body := match o with Some o' => body o' | None => None end;
             n_icon := or_default
                         (match o with Some o' => icon o' | None => None end)
                         "/icon-192.png";
             n_badge := or_default
                          (match o with Some o' => badge o' | None => None end)
                          "/icon-192.png";
             n_tag := match o with Some o' => tag o' | None => None end;
             n_data := match o with Some o' => data o' | None => None end;
             n_requireInteraction := interaction |},
          if negb interaction then Some 5000%Z else None).

(** [`${x}`] on an optional string. *)
Definition template (x : option uuid) : JS.jsstring :=
  match x with
  | Some s => JS.lit s
  | None => JS.lit "undefined"
  end.

Definition body_of (messageContent : JS.jsstring) : JS.jsstring :=
  if (100 <? List.length messageContent)%nat
  then (firstn 100 messageContent ++ JS.lit "...")%list
  else messageContent.

Definition sendMessageNotification (b : browser)
    (senderName messageContent personaName : JS.jsstring)
    (d : NotificationData) : option (Notification * option Z) :=
  let title := (senderName ++ JS.lit " (" ++ personaName ++ JS.lit ")")%list in
  let body := body_of messageContent in
  sendNotification b title
    (Some {| body := Some body; icon := None; badge := None;
             tag := Some (JS.lit "message-" ++ template (channelId d))%list;
             data := Some d; requireInteraction := None |}).

(** The names of the contact and the persona [ChatView] is given. *)
Record names := {
  nickname : option JS.jsstring;
  display_name : JS.jsstring;
  persona_name : JS.jsstring
}.

(** [contact.nickname || contact.display_name]. *)
Definition senderName_of (n : names) : JS.jsstring :=
  match nickname n with
  | Some (c :: r) => c :: r
  | _ => display_name n
  end.

(** The notification part of the INSERT handler of [subscribeToMessages]
    in [ChatView]: [pr], [v] and [n] are the props and the state of the
    render that subscribed, [channelId] the channel it subscribed for. *)
Definition on_insert_notification (b : browser) (pr : ChatView.props)
    (v : ChatView.view) (channelId : uuid) (n : names) (newMsg : Messages.row)
  : option (Notification * option Z) :=
  if negb (uuid_eqb (Messages.sender_id newMsg) (ChatView.user_id pr)) then
    if shouldSendNotification b && ChatView.notificationsEnabled v then
      sendMessageNotification b (senderName_of n) (Messages.content newMsg)
        (persona_name n)
        {| NotificationService.channelId := Some channelId;
           contactId := Some (ChatView.contact_id pr);
           personaId := Some (ChatView.persona_id pr);
           messageId := Some (Messages.id newMsg) |}
    else None
  else None.

End NotificationService.

(** ** Unread counters on the contact list and the persona panel *)

Module UnreadViews.

(** A row of the view [contact_unread_counts]; [None] is NULL. *)
Record row := {
  contact_id : uuid;
  user_id : uuid;
  total_unread : option Z
}.

(** The rows [LEFT JOIN persona_channels pc ON pc.contact_id = c.id]
    finds for a contact. *)
Definition channels_of (d : db) (contact : uuid) : list PersonaChannels.row :=
  filter (fun pc => uuid_eqb (PersonaChannels.contact_id pc) contact)
         (persona_channels d).

(** [SUM]: NULL over no value, and on [integer] it gives [bigint]. *)
Definition SUM (l : list Z) : option Z :=
  match l with
  | [] => None
  | _ => Some (fold_right Z.add 0 l)
  end.

(** The view: [GROUP BY c.id, c.user_id], and [id] is the primary key of
    [contacts], so that every contact is a group. *)
Definition contact_unread_counts (d : db) : list row :=
  map (fun c =>
         {| contact_id := Contacts.id c;
            user_id := Contacts.user_id c;
            total_unread :=
              SUM (map PersonaChannels.unread_count
                       (channels_of d (Contacts.id c))) |})
      (contacts d).

(** A JS [Map] as the list of its writes: [get] reads the last one of a
    key. *)
Definition Map_get {V : Type} (m : list (uuid * V)) (k : uuid) : option V :=
  option_map snd (find (fun e => uuid_eqb (fst e) k) (rev m)).

Definition Map_set {V : Type} (m : list (uuid * V)) (k : uuid) (v : V)
  : list (uuid * V) :=
  (m ++ [(k, v)])%list.

(** [ContactList.loadPresenceData], its unread counts:
    [from('contact_unread_counts').select('*').eq('user_id', user.id)],
    [new Map(unreadData.map(u => [u.contact_id, u.total_unread]))] and
    [unreadMap.get(contact.id) || 0]. *)
Definition unreadData (d : db) (user : uuid) : list row :=
  filter (fun u => uuid_eqb (user_id u) user) (contact_unread_counts d).

Definition unreadMap (d : db) (user : uuid) : list (uuid * option Z) :=
  map (fun u => (contact_id u, total_unread u)) (unreadData d user).

Definition contact_unread_count (d : db) (user contact : uuid) : Z :=
  match Map_get (unreadMap d user) contact with
  | Some (Some n) => if (n =? 0)%Z then 0%Z else n
  | _ => 0%Z
  end.

(** The value of a JSX expression [{...}]: a number (React draws it as
    text), [false] (React draws nothing), or what a component returns. *)
Inductive jsx :=
  | jsx_number (n : Z)
  | jsx_false
  | jsx_component (e : option UnreadBadge.element).

(** [ContactList]:
    [contact.unread_count && contact.unread_count > 0 && <UnreadBadge .../>]. *)
Definition ContactList_badge (unread_count : Z) : jsx :=
  if (unread_count =? 0)%Z then jsx_number unread_count
  else if (0 <? unread_count)%Z
       then jsx_component
              (UnreadBadge.UnreadBadge unread_count (Some UnreadBadge.sm) None)
       else jsx_false.

(** [PersonaPanel.loadUnreadCounts]:
    [from('persona_channels').select('persona_id, unread_count')
       .eq('contact_id', contactId)]
    and [new Map(data.map(d => [d.persona_id, d.unread_count]))]. *)
Definition loadUnreadCounts (d : db) (contactId : uuid) : list (uuid * Z) :=
  map (fun r => (PersonaChannels.persona_id r, PersonaChannels.unread_count r))
      (channels_of d contactId).

(** The state of [PersonaPanel]: [unreadCounts], and the contacts of the
    subscriptions [subscribeToUnreadUpdates] has made.  The effect does
    not return the function that removes a subscription, so none is ever
    removed. *)
Record panel := {
  unreadCounts : list (uuid * Z);
  subscriptions : list uuid
}.

(** The effect on [contactId] and [personas]: with a contact,
    [loadUnreadCounts], answered at once, and
    [subscribeToUnreadUpdates]. *)
Definition effect (d : db) (contactId : option uuid) (p : panel) : panel :=
  match contactId with
  | Some (String a r) =>
      {| unreadCounts := loadUnreadCounts d (String a r);
         subscriptions := (subscriptions p ++ [String a r])%list |}
  | _ => p
  end.

(** The UPDATE handler of [subscribeToUnreadUpdates]: it sets the count of
    the persona of the row, whatever the contact of the row. *)
Definition handler (updated : PersonaChannels.row) (prev : list (uuid * Z))
  : list (uuid * Z) :=
  Map_set prev (PersonaChannels.persona_id updated)
               (PersonaChannels.unread_count updated).

(** An UPDATE of a row of [persona_channels]: every subscription whose
    filter [contact_id=eq.c] the row passes calls its handler. *)
Definition on_update (updated : PersonaChannels.row) (p : panel) : panel :=
  {| unreadCounts :=
       fold_left (fun m c =>
                    if uuid_eqb (PersonaChannels.contact_id updated) c
                    then handler updated m else m)
                 (subscriptions p) (unreadCounts p);
     subscriptions := subscriptions p |}.

(** [unreadCounts.get(persona.id) || 0]. *)
Definition unreadCount (unreadCounts : list (uuid * Z)) (persona : uuid) : Z :=
  match Map_get unreadCounts persona with
  | Some n => if (n =? 0)%Z then 0%Z else n
  | None => 0%Z
  end.

(** [PersonaPanel]: [unreadCount > 0 && <UnreadBadge .../>]. *)
Definition PersonaPanel_badge (unreadCount : Z) : jsx :=
  if (0 <? unreadCount)%Z
  then jsx_component
         (UnreadBadge.UnreadBadge unreadCount (Some UnreadBadge.sm) None)
  else jsx_false.

End UnreadViews.

(** ** ChatView.tsx: typing in the input *)

Module ChatViewTyping.

(** The state [handleTyping] reads and sets: [newMessage], [isTyping],
    [typingTimeoutRef.current], the timeouts of the view that are set and
    neither cleared nor run, each with the channel its callback closed
    over, and the timers of the typing service. *)
Record state := {
  newMessage : JS.jsstring;
  isTyping : bool;
  typingTimeoutRef : option TypingTimers.handle;
  view_pending : list (TypingTimers.handle * uuid);
  timers : TypingTimers.state
}.

(** What a call of [handleTyping] is given by its surroundings: the
    handles the two [setTimeout] calls return, and what
    [sendTypingIndicator] reads. *)
Record keystroke := {
  view_handle : TypingTimers.handle;
  service_handle : TypingTimers.handle;
  fresh : uuid;
  server_now : timestamptz;
  client_now : timestamptz;
  value : JS.jsstring
}.

Definition clear_view (h : option TypingTimers.handle)
    (p : list (TypingTimers.handle * uuid)) : list (TypingTimers.handle * uuid) :=
  match h with
  | Some h' => filter (fun e => negb (N.eqb (fst e) h')) p
  | None => p
  end.

(** [handleTyping(value)]; a call sees the state the one before it
    set. *)
Definition handleTyping (channelId : option uuid) (userId : uuid)
    (k : keystroke) (s : state) (d : db) : state * db :=
  if ChatView.no_channel channelId then
    ({| newMessage := value k; isTyping := isTyping s;
        typingTimeoutRef := typingTimeoutRef s;
        view_pending := view_pending s; timers := timers s |}, d)
  else
    match channelId with
    | None => (s, d)
    | Some c =>
        let sent :=
          if (0 <? List.length (value k))%nat && negb (isTyping s)
          then (true,
                TypingTimers.handleTypingInput (service_handle k) (fresh k)
                  (server_now k) (client_now k) c userId true (timers s) d)
          else (isTyping s, (timers s, d)) in
        ({| newMessage := value k;
            isTyping := fst sent;
            typingTimeoutRef := Some (view_handle k);
            view_pending :=
              (clear_view (typingTimeoutRef s) (view_pending s)
               ++ [(view_handle k, c)])%list;
            timers := fst (snd sent) |},
         snd (snd sent))
    end.

(** The callback of the 2000 ms timeout of the view with handle [h], when
    the runtime runs it. *)
Definition view_timeout (userId : uuid) (h : TypingTimers.handle)
    (s : state) (d : db) : state * db :=
  match find (fun e => N.eqb (fst e) h) (view_pending s) with
  | Some (_, c) =>
      let r := TypingTimers.handleTypingInput 0%N EmptyString 0 0 c userId
                 false (timers s) d in
      ({| newMessage := newMessage s; isTyping := false;
          typingTimeoutRef := typingTimeoutRef s;
          view_pending := filter (fun e => negb (N.eqb (fst e) h)) (view_pending s);
          timers := fst r |},
       snd r)
  | None => (s, d)
  end.

(** The callback of the 3000 ms timeout of the service. *)
Definition service_timeout (h : TypingTimers.handle) (s : state) (d : db)
  : state * db :=
  let r := TypingTimers.fire h (timers s) d in
  ({| newMessage := newMessage s; isTyping := isTyping s;
      typingTimeoutRef := typingTimeoutRef s;
      view_pending := view_pending s; timers := fst r |},
   snd r).

(** Keystrokes one after the other, no timeout running in between. *)
Fixpoint type_on (channelId : option uuid) (userId : uuid)
    (ks : list keystroke) (sd : state * db) : state * db :=
  match ks with
  | [] => sd
  | k :: ks' =>
      type_on channelId userId ks' (handleTyping channelId userId k (fst sd) (snd sd))
  end.

End ChatViewTyping.

(** * Properties *)

(** ** Lists and identifiers *)

Lemma uuid_eqb_eq (a b : uuid) : uuid_eqb a b = true <-> a = b.
Proof. apply String.eqb_eq. Qed.

Lemma uuid_eqb_refl (a : uuid) : uuid_eqb a a = true.
Proof. apply String.eqb_refl. Qed.

Lemma uuid_eqb_neq (a b : uuid) : uuid_eqb a b = false <-> a <> b.
Proof. apply String.eqb_neq. Qed.

Lemma find_map_stable {A} (p : A -> bool) (f : A -> A) (l : list A) :
  (forall x, p (f x) = p x) ->
  find p (map f l) = option_map f (find p l).
Proof.
  intros Hp. induction l as [|x l IH]; simpl; [reflexivity|].
  rewrite Hp. destruct (p x); [reflexivity|exact IH].
Qed.

Lemma find_app_some {A} (p : A -> bool) (l l' : list A) (x : A) :
  find p l = Some x -> find p (l ++ l') = Some x.
Proof.
  induction l as [|y l IH]; simpl; [discriminate|].
  destruct (p y); [trivial|exact IH].
Qed.

(** ** The unread counter *)

Section Unread.

Variable channel : uuid.

Lemma bump_id c pc : PersonaChannels.id (bump c pc) = PersonaChannels.id pc.
Proof. unfold bump. destruct (uuid_eqb _ _); reflexivity. Qed.

Lemma bump_contact_id c pc :
  PersonaChannels.contact_id (bump c pc) = PersonaChannels.contact_id pc.
Proof. unfold bump. destruct (uuid_eqb _ _); reflexivity. Qed.

Lemma find_channel_with_messages d l c :
  find_channel (with_messages d l) c = find_channel d c.
Proof. reflexivity. Qed.

Lemma find_channel_bump d c :
  find_channel (with_persona_channels d (map (bump c) (persona_channels d))) channel
  = option_map (bump c) (find_channel d channel).
Proof.
  unfold find_channel; simpl. apply find_map_stable.
  intros x. now rewrite bump_id.
Qed.

Lemma find_channel_id d c pc :
  find_channel d c = Some pc -> PersonaChannels.id pc = c.
Proof.
  unfold find_channel. intros H. apply find_some in H as [_ H].
  now apply uuid_eqb_eq.
Qed.

Lemma find_channel_reset d c :
  find_channel (reset_unread_count d c) channel
  = option_map (fun pc => if uuid_eqb (PersonaChannels.id pc) c
                          then PersonaChannels.set_unread_count 0 pc else pc)
               (find_channel d channel).
Proof.
  unfold find_channel, reset_unread_count; simpl. apply find_map_stable.
  intros x. destruct (uuid_eqb (PersonaChannels.id x) c); reflexivity.
Qed.

Lemma channel_owner_bump d c :
  channel_owner (with_persona_channels d (map (bump c) (persona_channels d))) channel
  = channel_owner d channel.
Proof.
  unfold channel_owner. rewrite find_channel_bump.
  destruct (find_channel d channel) as [pc|]; simpl; [|reflexivity].
  rewrite bump_contact_id. reflexivity.
Qed.

Lemma channel_owner_reset d c :
  channel_owner (reset_unread_count d c) channel = channel_owner d channel.
Proof.
  unfold channel_owner. rewrite find_channel_reset.
  destruct (find_channel d channel) as [pc|]; simpl; [|reflexivity].
  destruct (uuid_eqb (PersonaChannels.id pc) c); reflexivity.
Qed.

(** What a successful insert does: the row is appended and the counter of
    [channel] moves by one exactly when the row is inbound to it. *)
Lemma insert_message_ok d fresh now m d' owner :
  channel_owner d channel = Some owner ->
  insert_message d fresh now m = Ok d' ->
  messages d' = messages d ++ [new_message fresh now m]
  /\ contacts d' = contacts d
  /\ channel_owner d' channel = Some owner
  /\ unread_of d' channel
     = option_map
         (fun n => n + (if inbound channel owner (new_message fresh now m)
                        then 1 else 0))
         (unread_of d channel).
Proof.
  intros Hown. unfold insert_message.
  destruct (existsb _ (messages d)); [discriminate|].
  destruct (find_channel d (ins_channel_id m)) as [pcm|] eqn:Hm; [|discriminate].
  unfold increment_unread_count.
  set (NEW := new_message fresh now m).
  set (d0 := with_messages d (messages d ++ [NEW])).
  change (Messages.channel_id NEW) with (ins_channel_id m).
  change (Messages.sender_id NEW) with (ins_sender_id m).
  assert (Hown0 : forall c, channel_owner d0 c = channel_owner d c) by reflexivity.
  assert (Hun : unread_of d channel
                = option_map (fun n => n + 0) (unread_of d channel)).
  { destruct (unread_of d channel); simpl; [f_equal; lia|reflexivity]. }
  unfold inbound.
  change (Messages.channel_id NEW) with (ins_channel_id m).
  change (Messages.sender_id NEW) with (ins_sender_id m).
  destruct (channel_owner d0 (ins_channel_id m)) as [o|] eqn:Ho.
  - destruct (uuid_eqb (ins_sender_id m) o) eqn:Hs; simpl.
    + intros [= <-]. repeat split; trivial.
      destruct (uuid_eqb (ins_channel_id m) channel) eqn:Hc; simpl; trivial.
      apply uuid_eqb_eq in Hc. rewrite Hc in Ho.
      rewrite Hown0, Hown in Ho. injection Ho as <-.
      rewrite Hs. exact Hun.
    + destruct (existsb _ _); [discriminate|].
      intros [= <-]. repeat split; trivial.
      * change (persona_channels d) with (persona_channels d0).
        rewrite (channel_owner_bump d0), Hown0. exact Hown.
      * unfold unread_of.
        change (persona_channels d) with (persona_channels d0).
        rewrite (find_channel_bump d0).
        change (find_channel d0 channel) with (find_channel d channel).
        destruct (find_channel d channel) as [pc|] eqn:Hpc; simpl; [|reflexivity].
        apply find_channel_id in Hpc. unfold bump. rewrite Hpc.
        rewrite (String.eqb_sym channel). fold (uuid_eqb (ins_channel_id m) channel).
        destruct (uuid_eqb (ins_channel_id m) channel) eqn:Hc; simpl.
        -- apply uuid_eqb_eq in Hc. rewrite Hc in Ho.
           rewrite Hown0, Hown in Ho. injection Ho as <-.
           rewrite Hs. reflexivity.
        -- f_equal. lia.
  - intros [= <-]. repeat split; trivial.
    destruct (uuid_eqb (ins_channel_id m) channel) eqn:Hc; simpl; trivial.
    apply uuid_eqb_eq in Hc. rewrite Hc in Ho.
    rewrite Hown0, Hown in Ho. discriminate.
Qed.

End Unread.

(** With the primary keys of [persona_channels] and [contacts], a row that
    is in the table is the one its id finds. *)
Lemma find_channel_unique (d : db) (pc : PersonaChannels.row) :
  NoDup (map PersonaChannels.id (persona_channels d)) ->
  In pc (persona_channels d) ->
  find_channel d (PersonaChannels.id pc) = Some pc.
Proof.
  unfold find_channel. induction (persona_channels d) as [|a l IH];
    [intros _ []|].
  intros Hnd Hin. inversion Hnd as [|y ys Hnot Hnd']; subst. simpl.
  destruct Hin as [->|Hin].
  - now rewrite uuid_eqb_refl.
  - destruct (uuid_eqb (PersonaChannels.id a) (PersonaChannels.id pc)) eqn:E.
    + apply uuid_eqb_eq in E. exfalso. apply Hnot. rewrite E. now apply in_map.
    + now apply IH.
Qed.

Lemma find_contact_unique (d : db) (c : Contacts.row) :
  NoDup (map Contacts.id (contacts d)) ->
  In c (contacts d) ->
  find_contact d (Contacts.id c) = Some c.
Proof.
  unfold find_contact. induction (contacts d) as [|a l IH]; [intros _ []|].
  intros Hnd Hin. inversion Hnd as [|y ys Hnot Hnd']; subst. simpl.
  destruct Hin as [->|Hin].
  - now rewrite uuid_eqb_refl.
  - destruct (uuid_eqb (Contacts.id a) (Contacts.id c)) eqn:E.
    + apply uuid_eqb_eq in E. exfalso. apply Hnot. rewrite E. now apply in_map.
    + now apply IH.
Qed.

Section UnreadRuns.

Variables channel owner : uuid.

Lemma reset_unread_count_messages d c :
  messages (reset_unread_count d c) = messages d.
Proof. reflexivity. Qed.

Lemma unread_of_reset_same d :
  channel_owner d channel = Some owner ->
  unread_of (reset_unread_count d channel) channel = Some 0.
Proof.
  unfold channel_owner, unread_of. rewrite find_channel_reset.
  destruct (find_channel d channel) as [pc|] eqn:Hpc; [|discriminate].
  intros _. apply find_channel_id in Hpc. simpl.
  rewrite Hpc, uuid_eqb_refl. reflexivity.
Qed.

Lemma unread_of_reset_other d c :
  uuid_eqb c channel = false ->
  unread_of (reset_unread_count d c) channel = unread_of d channel.
Proof.
  intros Hc. unfold unread_of. rewrite find_channel_reset.
  destruct (find_channel d channel) as [pc|] eqn:Hpc; [|reflexivity].
  apply find_channel_id in Hpc. simpl. rewrite Hpc.
  unfold uuid_eqb in *. rewrite String.eqb_sym, Hc. reflexivity.
Qed.

Lemma reset_unread_count_idem d c :
  reset_unread_count (reset_unread_count d c) c = reset_unread_count d c.
Proof.
  unfold reset_unread_count, with_persona_channels; simpl. f_equal.
  rewrite map_map. apply map_ext. intros pc.
  destruct (uuid_eqb (PersonaChannels.id pc) c) eqn:E; simpl; rewrite E;
    reflexivity.
Qed.

(** Between two resets of [channel] the counter moves by the number of
    inbound rows the inserts add. *)
Lemma run_without_reset post :
  forall d,
    channel_owner d channel = Some owner ->
    forallb (fun o => negb (is_reset_of channel o)) post = true ->
    messages (run post d) = messages d ++ inserted post d
    /\ channel_owner (run post d) channel = Some owner
    /\ unread_of (run post d) channel
       = option_map (fun n => n + count_inbound channel owner (inserted post d))
                    (unread_of d channel).
Proof.
  induction post as [|o post IH]; intros d Hown Hnr.
  - simpl. rewrite app_nil_r. repeat split; trivial.
    unfold count_inbound; simpl.
    destruct (unread_of d channel); simpl; [f_equal; lia|reflexivity].
  - simpl in Hnr. apply andb_prop in Hnr as [Ho Hnr].
    change (run (o :: post) d) with (run post (step d o)).
    destruct o as [fresh now m|c].
    + simpl inserted. simpl step.
      destruct (insert_message d fresh now m) as [d'|e] eqn:Hins; simpl commit.
      * destruct (insert_message_ok channel d fresh now m d' owner Hown Hins)
          as (Hmsg & _ & Hown' & Hun).
        destruct (IH d' Hown' Hnr) as (Hm & Ho' & Hu).
        split; [|split]; trivial.
        -- rewrite Hm, Hmsg, <- app_assoc. reflexivity.
        -- rewrite Hu, Hun. unfold count_inbound.
           simpl filter.
           destruct (unread_of d channel) as [n|]; simpl; [|reflexivity].
           destruct (inbound channel owner (new_message fresh now m)); simpl;
             f_equal; lia.
      * apply (IH d Hown Hnr).
    + simpl inserted. simpl step. simpl in Ho.
      apply negb_true_iff in Ho.
      assert (Hown' : channel_owner (reset_unread_count d c) channel = Some owner)
        by (rewrite channel_owner_reset; exact Hown).
      destruct (IH _ Hown' Hnr) as (Hm & Ho' & Hu).
      split; [|split]; trivial.
      rewrite Hu, (unread_of_reset_other d c Ho). reflexivity.
Qed.

Lemma run_channel_owner ops :
  forall d,
    channel_owner d channel = Some owner ->
    channel_owner (run ops d) channel = Some owner.
Proof.
  induction ops as [|o ops IH]; intros d Hown; [exact Hown|].
  change (run (o :: ops) d) with (run ops (step d o)). apply IH.
  destruct o as [fresh now m|c]; simpl.
  - destruct (insert_message d fresh now m) as [d'|e] eqn:Hins; simpl; trivial.
    now destruct (insert_message_ok channel d fresh now m d' owner Hown Hins)
      as (_ & _ & H & _).
  - rewrite channel_owner_reset. exact Hown.
Qed.

End UnreadRuns.

(** C2.  For a channel [pc] of a contact [c], in tables whose ids are
    primary keys, with [owner] the [user_id] of the contact: an insert
    that succeeds appends its row and, in the same statement, moves
    [unread_count] by one when the sender is not the owner and leaves it
    when the sender is the owner (or the row goes to another channel);
    [reset_unread_count] sets it to 0 whatever it was and is idempotent;
    a sequence without a reset of the channel adds the number of inbound
    rows it inserts; so after any sequence of inserts and resets the
    counter is the number of inbound rows inserted since the last reset of
    the channel. *)
Theorem unread_count_is_inbound_since_reset :
  forall (d : db) (c : Contacts.row) (pc : PersonaChannels.row),
    NoDup (map Contacts.id (contacts d)) ->
    NoDup (map PersonaChannels.id (persona_channels d)) ->
    In c (contacts d) ->
    In pc (persona_channels d) ->
    PersonaChannels.contact_id pc = Contacts.id c ->
    let channel := PersonaChannels.id pc in
    let owner := Contacts.user_id c in
    (forall fresh now m d',
        insert_message d fresh now m = Ok d' ->
        messages d' = messages d ++ [new_message fresh now m]
        /\ unread_of d' channel
           = option_map
               (fun n => n + (if inbound channel owner (new_message fresh now m)
                              then 1 else 0))
               (unread_of d channel))
    /\ unread_of d channel = Some (PersonaChannels.unread_count pc)
    /\ unread_of (reset_unread_count d channel) channel = Some 0
    /\ reset_unread_count (reset_unread_count d channel) channel
       = reset_unread_count d channel
    /\ (forall ops,
           forallb (fun o => negb (is_reset_of channel o)) ops = true ->
           messages (run ops d) = messages d ++ inserted ops d
           /\ unread_of (run ops d) channel
              = Some (PersonaChannels.unread_count pc
                      + count_inbound channel owner (inserted ops d)))
    /\ (forall pre post,
           forallb (fun o => negb (is_reset_of channel o)) post = true ->
           let d1 := reset_unread_count (run pre d) channel in
           let d2 := run post d1 in
           messages d2 = messages d1 ++ inserted post d1
           /\ unread_of d2 channel
              = Some (count_inbound channel owner (inserted post d1))).
Proof.
  intros d c pc Hndc Hndp Hc Hpc Hcid channel owner.
  assert (Hfind : find_channel d channel = Some pc)
    by (apply find_channel_unique; assumption).
  assert (Hown : channel_owner d channel = Some owner).
  { unfold channel_owner. rewrite Hfind, Hcid.
    now rewrite (find_contact_unique d c Hndc Hc). }
  assert (Hun : unread_of d channel = Some (PersonaChannels.unread_count pc))
    by (unfold unread_of; now rewrite Hfind).
  split; [|split; [exact Hun|split; [|split; [|split]]]].
  - intros fresh now m d' H.
    destruct (insert_message_ok channel d fresh now m d' owner Hown H)
      as (Hm & _ & _ & Hu).
    now split.
  - apply (unread_of_reset_same channel owner d Hown).
  - apply reset_unread_count_idem.
  - intros ops H.
    destruct (run_without_reset channel owner ops d Hown H) as (Hm & _ & Hu).
    split; [exact Hm|]. rewrite Hu, Hun. reflexivity.
  - intros pre post H d1 d2.
    pose proof (run_channel_owner channel owner pre d Hown) as Hpre.
    assert (Hd1 : channel_owner d1 channel = Some owner)
      by (unfold d1; rewrite channel_owner_reset; exact Hpre).
    destruct (run_without_reset channel owner post _ Hd1 H) as (Hm & _ & Hu).
    split; [exact Hm|].
    unfold d2. rewrite Hu. unfold d1.
    rewrite (unread_of_reset_same channel owner _ Hpre). simpl. reflexivity.
Qed.

Lemma unread_count_is_inbound_since_reset_witness :
  unread_of
    (run [OpInsert "m2" 2 (Sample.text Sample.bob "hi");
          OpInsert "m3" 3 (Sample.text Sample.alice "hello");
          OpInsert "m4" 4 (Sample.text Sample.bob "there");
          OpInsert "m2" 5 (Sample.text Sample.bob "again")]
       (reset_unread_count
          (run [OpInsert "m1" 1 (Sample.text Sample.bob "first")] Sample.db_channel)
          "channel-1"))
    "channel-1"
  = Some 2.
Proof.
  assert (Hc : NoDup (map Contacts.id (contacts Sample.db_channel)))
    by (constructor; [intros []|constructor]).
  assert (Hp : NoDup (map PersonaChannels.id (persona_channels Sample.db_channel)))
    by (constructor; [intros []|constructor]).
  exact (proj2 (proj2 (proj2 (proj2 (proj2 (proj2
           (unread_count_is_inbound_since_reset Sample.db_channel
              Sample.contact_ab Sample.channel_ab Hc Hp
              (or_introl eq_refl) (or_introl eq_refl) eq_refl)))))
           [OpInsert "m1" 1 (Sample.text Sample.bob "first")]
           [OpInsert "m2" 2 (Sample.text Sample.bob "hi");
            OpInsert "m3" 3 (Sample.text Sample.alice "hello");
            OpInsert "m4" 4 (Sample.text Sample.bob "there");
            OpInsert "m2" 5 (Sample.text Sample.bob "again")]
           eq_refl)).
Defined.

(** ** Delivery and read state *)

Lemma message_status_eqb_eq (a b : message_status) :
  message_status_eqb a b = true <-> a = b.
Proof. destruct a, b; simpl; split; congruence. Qed.

Lemma to_mark_read_spec channel reader m :
  to_mark_read channel reader m = true <-> unread_from_others channel reader m.
Proof.
  unfold to_mark_read, unread_from_others.
  rewrite !andb_true_iff, !negb_true_iff, uuid_eqb_eq, uuid_eqb_neq.
  rewrite <- not_true_iff_false, message_status_eqb_eq. tauto.
Qed.

Lemma mark_read_row_transition now channel reader m :
  read_transition now channel reader m (mark_read_row now channel reader m).
Proof.
  unfold read_transition, mark_read_row.
  destruct (to_mark_read channel reader m) eqn:E.
  - split; [intros _|intros H; apply to_mark_read_spec in E; contradiction].
    unfold same_but_read; simpl. tauto.
  - split; [|reflexivity].
    intros H. apply to_mark_read_spec in H. congruence.
Qed.

Lemma mark_read_row_idem now now' channel reader m :
  mark_read_row now' channel reader (mark_read_row now channel reader m)
  = mark_read_row now channel reader m.
Proof.
  unfold mark_read_row at 2 3.
  destruct (to_mark_read channel reader m) eqn:E.
  - unfold mark_read_row, to_mark_read; simpl.
    rewrite andb_false_r. reflexivity.
  - unfold mark_read_row. rewrite E. reflexivity.
Qed.

(** [mark_messages_as_read] never takes a status back. *)
Lemma mark_read_row_rank now channel reader m :
  status_rank (Messages.status m)
  <= status_rank (Messages.status (mark_read_row now channel reader m)).
Proof.
  unfold mark_read_row. destruct (to_mark_read channel reader m); simpl; [|lia].
  destruct (Messages.status m); simpl; lia.
Qed.

(** [markMessageAsDelivered] writes ['delivered'] and the time of the call
    whatever the status of the row was. *)
Lemma deliver_row_overwrites now messageId m :
  Messages.id m = messageId ->
  Messages.status (ChatView.deliver_row now messageId m) = delivered
  /\ Messages.delivered_at (ChatView.deliver_row now messageId m) = Some now.
Proof.
  intros H. unfold ChatView.deliver_row. rewrite H, uuid_eqb_refl.
  split; reflexivity.
Qed.

(** C5.  [mark_messages_as_read(channel, reader)], in one statement, takes
    exactly the rows of the channel whose sender is not the reader and
    whose status is not ['read'] to ['read'] with [read_at] the time of
    the call; every other row, and every other table, is left as it is;
    a second call, at whatever time, changes nothing. *)
Theorem mark_messages_as_read_batch_idempotent :
  forall (d : db) (now : timestamptz) (channel reader : uuid),
    let d' := mark_messages_as_read d now channel reader in
    Forall2 (read_transition now channel reader) (messages d) (messages d')
    /\ contacts d' = contacts d
    /\ persona_channels d' = persona_channels d
    /\ user_presence d' = user_presence d
    /\ typing_indicators d' = typing_indicators d
    /\ forall now', mark_messages_as_read d' now' channel reader = d'.
Proof.
  intros d now channel reader. cbv zeta. repeat split.
  - unfold mark_messages_as_read; simpl.
    induction (messages d) as [|m l IH]; simpl; constructor; trivial.
    apply mark_read_row_transition.
  - intros now'. unfold mark_messages_as_read, with_messages; simpl. f_equal.
    rewrite map_map. apply map_ext. intros m. apply mark_read_row_idem.
Qed.

(** Bob sends three messages while Alice is away; she opens the channel
    at 9, and her client repeats the call at 11. *)
Lemma mark_messages_as_read_batch_idempotent_witness :
  let d3 := run [OpInsert "m1" 1 (Sample.text Sample.bob "one");
                 OpInsert "m2" 2 (Sample.text Sample.bob "two");
                 OpInsert "m3" 3 (Sample.text Sample.bob "three")]
              (reset_unread_count Sample.db_channel "channel-1") in
  let d4 := mark_messages_as_read d3 9 "channel-1" Sample.alice in
  unread_of d3 "channel-1" = Some 3
  /\ map Messages.status (messages d4) = [read; read; read]
  /\ map Messages.read_at (messages d4) = [Some 9; Some 9; Some 9]
  /\ mark_messages_as_read d4 11 "channel-1" Sample.alice = d4.
Proof.
  cbv zeta. do 3 (split; [reflexivity|]).
  apply (mark_messages_as_read_batch_idempotent
           (run [OpInsert "m1" 1 (Sample.text Sample.bob "one");
                 OpInsert "m2" 2 (Sample.text Sample.bob "two");
                 OpInsert "m3" 3 (Sample.text Sample.bob "three")]
              (reset_unread_count Sample.db_channel "channel-1"))
           9 "channel-1" Sample.alice).
Defined.

(** C1 (defect in [markMessageAsDelivered]).  Bob's message is read by
    Alice when she opens the channel at 5; the INSERT event for it,
    handled at 9, takes it back to ['delivered'].  A repeated event
    rewrites [delivered_at], and the next [markMessagesAsRead] rewrites
    [read_at]. *)
Theorem markMessageAsDelivered_takes_read_back :
  let pr := Sample.props_alice in
  let v := Sample.view_alice in
  let m := Sample.text Sample.bob "hi" in
  let d1 := step Sample.db_channel (OpInsert "m1" 1 m) in
  let d2 := ChatView.markMessagesAsRead pr 5 d1 v in
  let d3 := ChatView.subscribeToMessages_on_insert pr 9 (new_message "m1" 1 m) d2 in
  let d4 := ChatView.subscribeToMessages_on_insert pr 10 (new_message "m1" 1 m) d3 in
  let d5 := ChatView.markMessagesAsRead pr 12 d4 v in
  message_state d1 "m1" = Some (sent, None, None)
  /\ message_state d2 "m1" = Some (read, None, Some 5)
  /\ message_state d3 "m1" = Some (delivered, Some 9, Some 5)
  /\ message_state d4 "m1" = Some (delivered, Some 10, Some 5)
  /\ message_state d5 "m1" = Some (read, Some 10, Some 12).
Proof. vm_compute. repeat split. Qed.

(** ** Channel resolution *)

Lemma filter_none {A} (p : A -> bool) (l : list A) :
  existsb p l = false -> filter p l = [].
Proof.
  induction l as [|x l IH]; simpl; [reflexivity|].
  destruct (p x); simpl; [discriminate|exact IH].
Qed.

Lemma existsb_snoc {A} (p : A -> bool) (l : list A) (x : A) :
  p x = true -> existsb p (l ++ [x]) = true.
Proof. intros H. rewrite existsb_app. simpl. rewrite H. apply orb_true_r. Qed.

Section Resolve.

Variable pr : ChatView.props.
Let c := ChatView.contact_id pr.
Let p := ChatView.persona_id pr.

Lemma channel_of_pair_new fresh now :
  ChatView.channel_of_pair c p (ChatView.new_channel fresh now c p) = true.
Proof. unfold ChatView.channel_of_pair; simpl. now rewrite !uuid_eqb_refl. Qed.

Lemma select_channel_absent d :
  existsb (ChatView.channel_of_pair c p) (persona_channels d) = false ->
  ChatView.select_channel d c p = None.
Proof. intros H. unfold ChatView.select_channel. now rewrite filter_none. Qed.

Lemma insert_channel_fresh d fresh now :
  find_contact d c <> None ->
  existsb (ChatView.channel_of_pair c p) (persona_channels d) = false ->
  existsb (fun pc => uuid_eqb (PersonaChannels.id pc) fresh) (persona_channels d)
  = false ->
  ChatView.insert_channel d fresh now c p
  = Ok (with_persona_channels d
          (persona_channels d ++ [ChatView.new_channel fresh now c p]),
        ChatView.new_channel fresh now c p).
Proof.
  intros Hc Hp Hf. unfold ChatView.insert_channel. rewrite Hf, Hp.
  destruct (find_contact d c); [reflexivity|contradiction].
Qed.

(** Once a row for the pair is there every insert for the pair is refused. *)
Lemma insert_channel_conflict d fresh now :
  existsb (ChatView.channel_of_pair c p) (persona_channels d) = true ->
  ChatView.insert_channel d fresh now c p = Err unique_violation.
Proof.
  intros H. unfold ChatView.insert_channel. rewrite H.
  now destruct (existsb (fun pc => uuid_eqb (PersonaChannels.id pc) fresh) _).
Qed.

Lemma filter_pair_created d fresh now :
  existsb (ChatView.channel_of_pair c p) (persona_channels d) = false ->
  filter (ChatView.channel_of_pair c p)
         (persona_channels d ++ [ChatView.new_channel fresh now c p])
  = [ChatView.new_channel fresh now c p].
Proof.
  intros H. rewrite filter_app, (filter_none _ _ H). simpl.
  now rewrite channel_of_pair_new.
Qed.

End Resolve.

(** C3, as the code has it.  For a pair whose contact exists and that has
    no channel yet: resolving creates exactly one row, with the default
    flags (unlocked, notifications on, [unread_count] 0, [last_message_at]
    null), and resolving again returns that row and adds none.  When two
    resolvers race, the loser's insert is refused by
    [UNIQUE(contact_id, persona_id)] and the store keeps exactly one row
    for the pair; the loser does not fetch the winner's row, its
    [channelId] stays what it was. *)
Theorem loadChannel_creates_one_row :
  forall (pr : ChatView.props) (d : db) (fresh1 fresh2 : uuid)
         (now1 now2 : timestamptz) (v1 v2 : ChatView.view),
    let c := ChatView.contact_id pr in
    let p := ChatView.persona_id pr in
    find_contact d c <> None ->
    existsb (ChatView.channel_of_pair c p) (persona_channels d) = false ->
    existsb (fun pc => uuid_eqb (PersonaChannels.id pc) fresh1)
            (persona_channels d) = false ->
    let r := ChatView.new_channel fresh1 now1 c p in
    let first := ChatView.loadChannel pr fresh1 now1 d v1 in
    let second := ChatView.loadChannel pr fresh2 now2 (fst first) v2 in
    let raced := ChatView.race pr fresh1 fresh2 now1 now2 d v1 v2 in
    (persona_channels (fst first) = persona_channels d ++ [r]
     /\ PersonaChannels.contact_id r = c
     /\ PersonaChannels.persona_id r = p
     /\ PersonaChannels.is_locked r = false
     /\ PersonaChannels.notification_enabled r = true
     /\ PersonaChannels.unread_count r = 0
     /\ PersonaChannels.last_message_at r = None
     /\ ChatView.channelId (snd first) = Some fresh1)
    /\ (fst second = fst first
        /\ ChatView.channelId (snd second) = Some fresh1)
    /\ (ChatView.insert_channel (fst first) fresh2 now2 c p = Err unique_violation
        /\ filter (ChatView.channel_of_pair c p) (persona_channels (fst (fst raced)))
           = [r]
        /\ ChatView.channelId (snd (fst raced)) = Some fresh1
        /\ ChatView.channelId (snd raced) = ChatView.channelId v2).
Proof.
  intros pr d fresh1 fresh2 now1 now2 v1 v2 c p Hc Hp Hf r first second raced.
  subst c p.
  assert (Hwin : ChatView.loadChannel_after_select pr fresh1 now1 None d
                   (ChatView.set_loading true v1)
                 = (with_persona_channels d (persona_channels d ++ [r]),
                    ChatView.set_loading false
                      (ChatView.set_channel r (ChatView.set_loading true v1)))).
  { unfold ChatView.loadChannel_after_select.
    rewrite (insert_channel_fresh pr d fresh1 now1 Hc Hp Hf). reflexivity. }
  assert (Hfirst : first
                   = (with_persona_channels d (persona_channels d ++ [r]),
                      ChatView.set_loading false
                        (ChatView.set_channel r (ChatView.set_loading true v1)))).
  { unfold first, ChatView.loadChannel.
    rewrite (select_channel_absent pr d Hp). exact Hwin. }
  assert (Hex : existsb (ChatView.channel_of_pair (ChatView.contact_id pr)
                                                   (ChatView.persona_id pr))
                         (persona_channels (fst first))
                = true).
  { rewrite Hfirst. cbn [fst persona_channels with_persona_channels].
    apply existsb_snoc. apply channel_of_pair_new. }
  assert (Hsel : ChatView.select_channel (fst first) (ChatView.contact_id pr)
                   (ChatView.persona_id pr)
                 = Some r).
  { rewrite Hfirst. unfold ChatView.select_channel.
    cbn [fst persona_channels with_persona_channels].
    unfold r. now rewrite (filter_pair_created pr d fresh1 now1 Hp). }
  split; [|split].
  - rewrite Hfirst. simpl. repeat split.
  - unfold second, ChatView.loadChannel. rewrite Hsel.
    unfold ChatView.loadChannel_after_select. simpl. split; reflexivity.
  - split; [apply (insert_channel_conflict pr _ _ _ Hex)|].
    unfold raced, ChatView.race.
    rewrite (select_channel_absent pr d Hp).
    rewrite Hwin. rewrite Hfirst in Hex.
    unfold ChatView.loadChannel_after_select.
    rewrite (insert_channel_conflict pr _ fresh2 now2 Hex).
    cbn [fst snd persona_channels with_persona_channels].
    split; [apply (filter_pair_created pr d fresh1 now1 Hp)|].
    split; reflexivity.
Qed.

Lemma loadChannel_creates_one_row_witness :
  persona_channels
    (fst (ChatView.loadChannel Sample.props_alice "ch-a" 1 Sample.db_contact
            ChatView.initial))
  = [ChatView.new_channel "ch-a" 1 "contact-ab" "professional"]
  /\ ChatView.insert_channel
       (fst (ChatView.loadChannel Sample.props_alice "ch-a" 1 Sample.db_contact
               ChatView.initial))
       "ch-b" 2 "contact-ab" "professional"
     = Err unique_violation.
Proof.
  destruct (loadChannel_creates_one_row Sample.props_alice Sample.db_contact
              "ch-a" "ch-b" 1 2 ChatView.initial ChatView.initial)
    as ((H1 & _) & _ & (H3 & _)).
  - vm_compute. discriminate.
  - reflexivity.
  - reflexivity.
  - split; [exact H1|exact H3].
Defined.

(** Two resolvers race on Alice's pair: the loser ends without a channel
    id although the winner's row is in the store. *)
Lemma race_loser_has_no_channel_id :
  let raced :=
    ChatView.race Sample.props_alice "ch-a" "ch-b" 1 2 Sample.db_contact
      ChatView.initial ChatView.initial in
  ChatView.channelId (snd (fst raced)) = Some "ch-a"%string
  /\ ChatView.channelId (snd raced) = None
  /\ ChatView.channelId (snd raced) <> ChatView.channelId (snd (fst raced))
  /\ option_map PersonaChannels.id
       (ChatView.select_channel (fst (fst raced)) "contact-ab" "professional")
     = Some "ch-a"%string.
Proof. vm_compute. repeat split. discriminate. Qed.

(** ** [last_message_at] *)

(** The trigger of the bundled schema keeps the greater of the stored value
    and the creation time of the row. *)
Lemma update_channel_last_message_at_max d NEW pc :
  find_channel d (Messages.channel_id NEW) = Some pc ->
  last_message_at_of (update_channel_last_message_at d NEW) (Messages.channel_id NEW)
  = Some (Some (Z.max (coalesce (PersonaChannels.last_message_at pc) epoch)
                      (Messages.created_at NEW))).
Proof.
  intros H. unfold last_message_at_of, update_channel_last_message_at, find_channel.
  cbn [persona_channels with_persona_channels].
  rewrite find_map_stable.
  - fold (find_channel d (Messages.channel_id NEW)). rewrite H. simpl.
    apply find_channel_id in H. rewrite H, uuid_eqb_refl. reflexivity.
  - intros x. destruct (uuid_eqb (PersonaChannels.id x) _) eqn:E; simpl; exact E.
Qed.

(** The update [handleSendMessage] issues writes the sender's clock. *)
Lemma touch_channel_overwrites d now channel pc :
  find_channel d channel = Some pc ->
  last_message_at_of (ChatView.touch_channel d now channel) channel
  = Some (Some now).
Proof.
  intros H. unfold last_message_at_of, ChatView.touch_channel, find_channel.
  cbn [persona_channels with_persona_channels].
  rewrite find_map_stable.
  - fold (find_channel d channel). rewrite H. simpl.
    apply find_channel_id in H. rewrite H, uuid_eqb_refl. reflexivity.
  - intros x. destruct (uuid_eqb (PersonaChannels.id x) _) eqn:E; simpl; exact E.
Qed.

(** C4 (defect in [handleSendMessage]).  The channel holds
    [last_message_at] 100; Alice, whose clock reads 50, sends a message
    the store creates at 40: the update sets [last_message_at] to 50.  On
    the same row the trigger [update_channel_last_message_at] of the
    bundled schema keeps 100, and the client's update after it still
    writes 50. *)
Theorem handleSendMessage_moves_last_message_at_back :
  let pr := Sample.props_alice in
  let v := ChatView.set_newMessage (JS.lit "hello") Sample.view_alice in
  let after := fst (ChatView.handleSendMessage pr "m1" 40 50 Sample.db_channel v) in
  let NEW := new_message "m1" 40 (Sample.text Sample.alice "hello") in
  let triggered := update_channel_last_message_at Sample.db_channel NEW in
  last_message_at_of Sample.db_channel "channel-1" = Some (Some 100)
  /\ map Messages.created_at (messages after) = [40]
  /\ last_message_at_of after "channel-1" = Some (Some 50)
  /\ last_message_at_of triggered "channel-1" = Some (Some 100)
  /\ last_message_at_of (ChatView.touch_channel triggered 50 "channel-1") "channel-1"
     = Some (Some 50).
Proof. vm_compute. repeat split. Qed.

(** ** Typing signals *)

Section Typing.

Variables channel user : uuid.

Lemma same_key_spec r :
  TypingService.same_key channel user r = true
  <-> (TypingIndicators.channel_id r, TypingIndicators.user_id r) = (channel, user).
Proof.
  unfold TypingService.same_key. rewrite andb_true_iff, !uuid_eqb_eq.
  split; [intros [-> ->]; reflexivity|intros [= -> ->]; tauto].
Qed.

Lemma existsb_same_key_in rows :
  existsb (TypingService.same_key channel user) rows = true
  <-> In (channel, user)
         (map (fun r => (TypingIndicators.channel_id r, TypingIndicators.user_id r))
              rows).
Proof.
  rewrite existsb_exists, in_map_iff. split.
  - intros (r & Hin & Hk). exists r. split; [now apply same_key_spec|exact Hin].
  - intros (r & Hk & Hin). exists r. split; [exact Hin|now apply same_key_spec].
Qed.

(** Under the unique constraint a key selects one row at most. *)
Lemma filter_same_key_unique rows :
  NoDup (map (fun r => (TypingIndicators.channel_id r, TypingIndicators.user_id r))
             rows) ->
  existsb (TypingService.same_key channel user) rows = true ->
  exists r, filter (TypingService.same_key channel user) rows = [r].
Proof.
  induction rows as [|x rows IH]; simpl; [discriminate|].
  intros Hnd Hex. inversion Hnd as [|k ks Hnotin Hnd']; subst.
  destruct (TypingService.same_key channel user x) eqn:Hx.
  - exists x. f_equal. apply filter_none.
    destruct (existsb (TypingService.same_key channel user) rows) eqn:E; trivial.
    apply existsb_same_key_in in E. apply same_key_spec in Hx.
    rewrite Hx in Hnotin. contradiction.
  - simpl in Hex. apply IH; assumption.
Qed.

Lemma filter_same_key_set t rows :
  filter (TypingService.same_key channel user)
         (map (fun r => if TypingService.same_key channel user r
                        then TypingService.set_expires_at t r else r) rows)
  = map (TypingService.set_expires_at t)
        (filter (TypingService.same_key channel user) rows).
Proof.
  induction rows as [|x rows IH]; simpl; [reflexivity|].
  destruct (TypingService.same_key channel user x) eqn:Hx.
  - change (TypingService.same_key channel user (TypingService.set_expires_at t x))
      with (TypingService.same_key channel user x).
    rewrite Hx. simpl. now rewrite IH.
  - rewrite Hx. exact IH.
Qed.

Lemma keys_set t rows :
  map (fun r => (TypingIndicators.channel_id r, TypingIndicators.user_id r))
      (map (fun r => if TypingService.same_key channel user r
                     then TypingService.set_expires_at t r else r) rows)
  = map (fun r => (TypingIndicators.channel_id r, TypingIndicators.user_id r)) rows.
Proof.
  rewrite map_map. apply map_ext. intros r.
  now destruct (TypingService.same_key channel user r).
Qed.

(** [sendTypingIndicator] leaves one row for the key, expiring 5000 ms
    after the clock reading of the call, and keeps the constraint. *)
Lemma sendTypingIndicator_row d fresh server_now client_now :
  NoDup (typing_keys d) ->
  find_channel d channel <> None ->
  existsb (fun r => uuid_eqb (TypingIndicators.id r) fresh) (typing_indicators d)
  = false ->
  let d' := TypingService.sendTypingIndicator d fresh server_now client_now
              channel user in
  NoDup (typing_keys d')
  /\ exists r,
       filter (TypingService.same_key channel user) (typing_indicators d') = [r]
       /\ TypingIndicators.channel_id r = channel
       /\ TypingIndicators.user_id r = user
       /\ TypingIndicators.expires_at r = client_now + 5000.
Proof.
  intros Hnd Hch Hfresh.
  unfold TypingService.sendTypingIndicator, TypingService.upsert_typing, typing_keys.
  destruct (existsb (TypingService.same_key channel user) (typing_indicators d))
    eqn:Hex.
  - cbn [commit typing_indicators with_typing_indicators].
    rewrite keys_set, filter_same_key_set. split; [exact Hnd|].
    destruct (filter_same_key_unique _ Hnd Hex) as [r Hr].
    assert (Hk : TypingService.same_key channel user r = true).
    { assert (Hin : In r (filter (TypingService.same_key channel user)
                                 (typing_indicators d)))
        by (rewrite Hr; now left).
      now apply filter_In in Hin. }
    apply same_key_spec in Hk. injection Hk as Hc Hu.
    exists (TypingService.set_expires_at (client_now + 5000) r).
    rewrite Hr. simpl. repeat split; assumption.
  - rewrite Hfresh.
    destruct (find_channel d channel); [|contradiction].
    cbn [commit typing_indicators with_typing_indicators].
    split.
    + rewrite map_app. simpl.
      apply NoDup_app; [exact Hnd|repeat constructor; intros []|].
      intros k Hin [<-|[]].
      apply existsb_same_key_in in Hin. unfold typing_keys in *. congruence.
    + eexists. rewrite filter_app, (filter_none _ _ Hex). simpl.
      unfold TypingService.same_key; simpl. rewrite !uuid_eqb_refl. simpl.
      repeat split.
Qed.

End Typing.

(** An INSERT or UPDATE event read at or after [expires_at]: the
    subscriber's own row is skipped, any other row is reported as not
    typing. *)
Lemma subscribeToTyping_stale_event subscriber now e r :
  e <> TypingService.DELETE ->
  TypingIndicators.expires_at r <= now ->
  TypingService.subscribeToTyping_on_change subscriber now
    (TypingService.change_event e r)
  = if uuid_eqb (TypingIndicators.user_id r) subscriber then None
    else Some {| TypingService.call_isTyping := false;
                 TypingService.call_userId := Some (TypingIndicators.user_id r) |}.
Proof.
  intros He Hle. unfold TypingService.subscribeToTyping_on_change.
  assert (Hlt : (now <? TypingIndicators.expires_at r) = false)
    by (apply Z.ltb_ge; exact Hle).
  destruct e; try contradiction; simpl; rewrite Hlt;
    destruct (uuid_eqb (TypingIndicators.user_id r) subscriber); reflexivity.
Qed.

(** The callback of the chat view never turns the indicator on for a call
    that says not typing. *)
Lemma contact_typing_stays_off pr u v :
  ChatView.contactTyping v = false ->
  ChatView.contactTyping
    (ChatView.subscribeToTypingIndicators_callback pr
       {| TypingService.call_isTyping := false; TypingService.call_userId := u |} v)
  = false.
Proof.
  intros H. unfold ChatView.subscribeToTypingIndicators_callback. simpl.
  destruct (TypingService.strict_eq u _); [reflexivity|exact H].
Qed.

(** C6.  [sendTypingIndicator(channel, user)], called when the sender's
    clock reads [client_now], leaves exactly one row for
    [(channel, user)], with [expires_at = client_now + 5000] ms; and an
    INSERT or UPDATE event for a row, handled by a subscriber whose clock
    reads [t] at or after the row's [expires_at], however late, is
    reported as not typing (the subscriber's own row is not reported at
    all) and does not turn on an indicator that is off. *)
Theorem typing_signal_expires :
  forall (d : db) (fresh : uuid) (server_now client_now : timestamptz)
         (channel user : uuid),
    NoDup (typing_keys d) ->
    find_channel d channel <> None ->
    existsb (fun r => uuid_eqb (TypingIndicators.id r) fresh) (typing_indicators d)
    = false ->
    let d' := TypingService.sendTypingIndicator d fresh server_now client_now
                channel user in
    NoDup (typing_keys d')
    /\ (exists r,
          filter (TypingService.same_key channel user) (typing_indicators d') = [r]
          /\ TypingIndicators.channel_id r = channel
          /\ TypingIndicators.user_id r = user
          /\ TypingIndicators.expires_at r = client_now + 5000)
    /\ (forall (r : TypingIndicators.row) (e : TypingService.eventType)
               (subscriber : uuid) (t : timestamptz),
          e <> TypingService.DELETE ->
          TypingIndicators.expires_at r <= t ->
          TypingService.subscribeToTyping_on_change subscriber t
            (TypingService.change_event e r)
          = if uuid_eqb (TypingIndicators.user_id r) subscriber then None
            else Some {| TypingService.call_isTyping := false;
                         TypingService.call_userId :=
                           Some (TypingIndicators.user_id r) |})
    /\ (forall (r : TypingIndicators.row) (e : TypingService.eventType)
               (pr : ChatView.props) (v : ChatView.view) (t : timestamptz),
          e <> TypingService.DELETE ->
          TypingIndicators.expires_at r <= t ->
          ChatView.contactTyping v = false ->
          ChatView.contactTyping
            (ChatView.on_typing_event pr t (TypingService.change_event e r) v)
          = false).
Proof.
  intros d fresh server_now client_now channel user Hnd Hch Hfresh d'.
  destruct (sendTypingIndicator_row channel user d fresh server_now client_now
              Hnd Hch Hfresh) as [Hnd' Hrow].
  repeat split; trivial.
  - intros r e subscriber t He Hle. now apply subscribeToTyping_stale_event.
  - intros r e pr v t He Hle Hoff. unfold ChatView.on_typing_event.
    rewrite (subscribeToTyping_stale_event _ _ _ _ He Hle).
    destruct (uuid_eqb (TypingIndicators.user_id r) (ChatView.user_id pr));
      [exact Hoff|].
    now apply contact_typing_stays_off.
Qed.

(** Bob signals at 1000 on his clock and again at 2000; Alice handles the
    INSERT event at 7000 on hers. *)
Lemma typing_signal_expires_witness :
  let d1 := TypingService.sendTypingIndicator Sample.db_channel "typing-1" 1001 1000
              "channel-1" Sample.bob in
  let d2 := TypingService.sendTypingIndicator d1 "typing-2" 2001 2000
              "channel-1" Sample.bob in
  map TypingIndicators.expires_at (typing_indicators d2) = [7000]
  /\ TypingService.subscribeToTyping_on_change Sample.alice 7000
       (TypingService.change_event TypingService.INSERT (Sample.typing_bob 2000))
     = Some {| TypingService.call_isTyping := false;
               TypingService.call_userId := Some Sample.bob |}.
Proof.
  cbv zeta. split; [reflexivity|].
  destruct (typing_signal_expires Sample.db_channel "typing-1" 1001 1000
              "channel-1" Sample.bob) as (_ & _ & H & _).
  - constructor.
  - vm_compute. discriminate.
  - reflexivity.
  - apply (H (Sample.typing_bob 2000) TypingService.INSERT Sample.alice 7000).
    + discriminate.
    + vm_compute. discriminate.
Defined.

(** C7 (defect in the DELETE branch of [subscribeToTyping]).  Bob signals,
    Alice's view shows him typing; Bob sends his message, which deletes the
    row.  The handler reads [payload.new], which a DELETE event leaves
    empty: the callback is called with no user id, so the view, which
    clears only on the contact's id, still shows Bob typing.  The DELETE
    event of a subscriber's own row reaches the callback in the same
    way. *)
Theorem delete_event_carries_no_user_id :
  let r := Sample.typing_bob 1000 in
  let d1 := TypingService.sendTypingIndicator Sample.db_channel "typing-1" 1000 1000
              "channel-1" Sample.bob in
  let v1 := ChatView.on_typing_event Sample.props_alice 1500
              (TypingService.change_event TypingService.INSERT r) Sample.view_alice in
  let d2 := TypingService.cleanupTyping d1 "channel-1" Sample.bob in
  let deleted := TypingService.change_event TypingService.DELETE r in
  let v2 := ChatView.on_typing_event Sample.props_alice 2000 deleted v1 in
  typing_indicators d1 = [r]
  /\ ChatView.contactTyping v1 = true
  /\ typing_indicators d2 = []
  /\ TypingService.subscribeToTyping_on_change Sample.alice 2000 deleted
     = Some {| TypingService.call_isTyping := false;
               TypingService.call_userId := None |}
  /\ ChatView.contactTyping v2 = true
  /\ TypingService.subscribeToTyping_on_change Sample.bob 2000 deleted
     = Some {| TypingService.call_isTyping := false;
               TypingService.call_userId := None |}.
Proof. vm_compute. repeat split. Qed.

(** What holds of the subscription: an INSERT or UPDATE event for the
    subscriber's own row never reaches the callback, and no event for it
    changes the view. *)
Lemma own_typing_signal_is_ignored :
  forall (pr : ChatView.props) (r : TypingIndicators.row)
         (e : TypingService.eventType) (t : timestamptz) (v : ChatView.view),
    TypingIndicators.user_id r = ChatView.user_id pr ->
    (e <> TypingService.DELETE ->
     TypingService.subscribeToTyping_on_change (ChatView.user_id pr) t
       (TypingService.change_event e r) = None)
    /\ (ChatView.contactTyping v = false ->
        ChatView.contactTyping
          (ChatView.on_typing_event pr t (TypingService.change_event e r) v)
        = false).
Proof.
  intros pr r e t v Hown. split.
  - intros He. unfold TypingService.subscribeToTyping_on_change.
    destruct e; try contradiction; simpl; now rewrite Hown, uuid_eqb_refl.
  - intros Hoff.
    unfold ChatView.on_typing_event, TypingService.subscribeToTyping_on_change.
    destruct e; simpl; rewrite ?Hown, ?uuid_eqb_refl; trivial.
Qed.

(** ** Presence *)

Section Presence.

Variable userId : uuid.

Let mine (r : UserPresence.row) : bool := uuid_eqb (UserPresence.user_id r) userId.

Lemma put_user_id u status t1 t2 r :
  UserPresence.user_id (PresenceService.put u status t1 t2 r)
  = UserPresence.user_id r.
Proof.
  unfold PresenceService.put.
  destruct (uuid_eqb (UserPresence.user_id r) u) eqn:E; [|reflexivity].
  simpl. now apply uuid_eqb_eq in E.
Qed.

Lemma existsb_user_in u rows :
  existsb (fun r => uuid_eqb (UserPresence.user_id r) u) rows = true
  <-> In u (map UserPresence.user_id rows).
Proof.
  rewrite existsb_exists, in_map_iff. split.
  - intros (r & Hin & Hk). exists r. split; [now apply uuid_eqb_eq|exact Hin].
  - intros (r & Hk & Hin). exists r. split; [exact Hin|now apply uuid_eqb_eq].
Qed.

(** Every call keeps [UNIQUE(user_id)], whoever it is for. *)
Lemma updatePresence_keeps_unique d fresh u status t1 t2 :
  NoDup (presence_keys d) ->
  NoDup (presence_keys (PresenceService.updatePresence d fresh u status t1 t2)).
Proof.
  intros Hnd.
  unfold PresenceService.updatePresence, PresenceService.upsert_presence,
    presence_keys.
  destruct (existsb (fun r => uuid_eqb (UserPresence.user_id r) u) (user_presence d))
    eqn:Hex.
  - cbn [commit user_presence with_user_presence].
    rewrite map_map.
    erewrite map_ext; [exact Hnd|]. intros r. apply put_user_id.
  - destruct (existsb (fun r => uuid_eqb (UserPresence.id r) fresh)
                      (user_presence d)); [exact Hnd|].
    cbn [commit user_presence with_user_presence].
    rewrite map_app. simpl.
    apply NoDup_app; [exact Hnd|repeat constructor; intros []|].
    intros k Hin [<-|[]].
    apply existsb_user_in in Hin. unfold presence_keys in *. congruence.
Qed.

Lemma last_seen_put status t1 t2 rows :
  existsb mine rows = true ->
  exists r rest,
    filter mine (map (PresenceService.put userId status t1 t2) rows) = r :: rest
    /\ UserPresence.last_seen r = t1.
Proof.
  induction rows as [|x rows IH]; simpl; [discriminate|].
  unfold mine at 1 3. rewrite put_user_id. fold (mine x).
  destruct (mine x) eqn:Hx.
  - intros _. eexists _, _. split; [reflexivity|].
    unfold PresenceService.put. unfold mine in Hx. now rewrite Hx.
  - simpl. exact IH.
Qed.

(** After a call the record carries the clock reading of the call, unless
    there was no record and none could be inserted. *)
Lemma last_seen_after_call d c :
  PresenceService.last_seen_of (PresenceService.on_event userId d c) userId
  = Some (PresenceService.call_t_seen c)
  \/ (PresenceService.last_seen_of d userId = None
      /\ PresenceService.last_seen_of (PresenceService.on_event userId d c) userId
         = None).
Proof.
  unfold PresenceService.on_event, PresenceService.updatePresence,
    PresenceService.upsert_presence, PresenceService.last_seen_of,
    PresenceService.presence_rows.
  fold mine.
  destruct (existsb mine (user_presence d)) eqn:Hex.
  - left. cbn [commit user_presence with_user_presence].
    destruct (last_seen_put (PresenceService.status_of_event
                               (PresenceService.call_event c))
                (PresenceService.call_t_seen c) (PresenceService.call_t_updated c)
                _ Hex) as (r & rest & -> & ->).
    reflexivity.
  - rewrite (filter_none _ _ Hex).
    destruct (existsb (fun r => uuid_eqb (UserPresence.id r)
                                  (PresenceService.call_fresh c))
                      (user_presence d)).
    + right. cbn [commit]. rewrite (filter_none _ _ Hex). split; reflexivity.
    + left. cbn [commit user_presence with_user_presence].
      rewrite filter_app, (filter_none _ _ Hex). simpl.
      unfold mine; simpl. now rewrite uuid_eqb_refl.
Qed.

Lemma states_head d cs :
  exists rest, PresenceService.states userId d cs = d :: rest.
Proof. destruct cs; simpl; eauto. Qed.

Lemma last_seen_non_decreasing cs :
  forall d,
    PresenceService.non_decreasing
      (PresenceService.last_seen_of d userId
       :: map (fun c => Some (PresenceService.call_t_seen c)) cs) ->
    PresenceService.non_decreasing
      (map (fun s => PresenceService.last_seen_of s userId)
           (PresenceService.states userId d cs)).
Proof.
  induction cs as [|c cs IH]; intros d H; [exact I|].
  cbn [map] in H. destruct H as [Hle Hrest].
  cbn [PresenceService.states map].
  assert (Hstep : PresenceService.seen_le
                    (PresenceService.last_seen_of d userId)
                    (PresenceService.last_seen_of
                       (PresenceService.on_event userId d c) userId)
                  /\ PresenceService.non_decreasing
                       (PresenceService.last_seen_of
                          (PresenceService.on_event userId d c) userId
                        :: map (fun c => Some (PresenceService.call_t_seen c)) cs)).
  { destruct (last_seen_after_call d c) as [->|[Hn ->]].
    - split; assumption.
    - rewrite Hn. split; [exact I|].
      destruct cs; simpl; [exact I|]. split; [exact I|].
      simpl in Hrest. apply Hrest. }
  destruct Hstep as [Hnow Hnext]. specialize (IH _ Hnext).
  destruct (states_head (PresenceService.on_event userId d c) cs) as [rest E].
  rewrite E in *. cbn [map] in *. split; assumption.
Qed.

(** A call writes its clock reading when the user has a record, or when
    the id for a new record is free. *)
Lemma last_seen_written d c :
  PresenceService.last_seen_of d userId <> None
  \/ ~ In (PresenceService.call_fresh c) (map UserPresence.id (user_presence d)) ->
  PresenceService.last_seen_of (PresenceService.on_event userId d c) userId
  = Some (PresenceService.call_t_seen c).
Proof.
  unfold PresenceService.on_event, PresenceService.updatePresence,
    PresenceService.upsert_presence, PresenceService.last_seen_of,
    PresenceService.presence_rows.
  fold mine.
  destruct (existsb mine (user_presence d)) eqn:Hex.
  - intros _. cbn [commit user_presence with_user_presence].
    destruct (last_seen_put (PresenceService.status_of_event
                               (PresenceService.call_event c))
                (PresenceService.call_t_seen c) (PresenceService.call_t_updated c)
                _ Hex) as (r & rest & -> & ->).
    reflexivity.
  - rewrite (filter_none _ _ Hex). intros [H|H]; [contradiction|].
    destruct (existsb (fun r => uuid_eqb (UserPresence.id r)
                                  (PresenceService.call_fresh c))
                      (user_presence d)) eqn:Hid.
    + exfalso. apply H. apply existsb_exists in Hid as (r & Hin & Hr).
      apply uuid_eqb_eq in Hr. rewrite <- Hr. now apply in_map.
    + cbn [commit user_presence with_user_presence].
      rewrite filter_app, (filter_none _ _ Hex). simpl.
      unfold mine; simpl. now rewrite uuid_eqb_refl.
Qed.

(** So the values [last_seen] takes are the clock readings of the calls,
    one after the other. *)
Lemma last_seen_is_the_reading cs :
  forall c d,
    PresenceService.last_seen_of d userId <> None
    \/ ~ In (PresenceService.call_fresh c) (map UserPresence.id (user_presence d)) ->
    map (fun s => PresenceService.last_seen_of s userId)
        (PresenceService.states userId d (c :: cs))
    = PresenceService.last_seen_of d userId
      :: map (fun c => Some (PresenceService.call_t_seen c)) (c :: cs).
Proof.
  induction cs as [|c' cs IH]; intros c d H.
  - cbn [PresenceService.states map]. now rewrite (last_seen_written d c H).
  - change (PresenceService.states userId d (c :: c' :: cs))
      with (d :: PresenceService.states userId
                   (PresenceService.on_event userId d c) (c' :: cs)).
    cbn [map]. f_equal.
    pose proof (last_seen_written d c H) as E.
    rewrite IH; [now rewrite E|].
    left. rewrite E. discriminate.
Qed.

Lemma states_keep_unique cs :
  forall d,
    NoDup (presence_keys d) ->
    Forall (fun s => NoDup (presence_keys s)) (PresenceService.states userId d cs).
Proof.
  induction cs as [|c cs IH]; intros d H; simpl; constructor; trivial.
  apply IH. now apply updatePresence_keeps_unique.
Qed.

End Presence.

(** C8, as the code has it.  Every update is an upsert on [user_id], so
    a store with at most one presence row per user keeps that through any
    sequence of heartbeat ticks, visibility changes and teardown calls.
    Each call writes the clock reading of its caller into [last_seen]:
    once the user has a record, or when the id for a new one is free, the
    values [last_seen] takes along the sequence are the readings of the
    calls, one after the other.  So along a sequence whose readings do not
    go back, from the stored value on, [last_seen] does not go back. *)
Theorem last_seen_follows_the_clock :
  forall (userId : uuid) (d : db) (cs : list PresenceService.call),
    NoDup (presence_keys d) ->
    Forall (fun s => NoDup (presence_keys s)) (PresenceService.states userId d cs)
    /\ (forall c cs',
          cs = c :: cs' ->
          PresenceService.last_seen_of d userId <> None
          \/ ~ In (PresenceService.call_fresh c)
                  (map UserPresence.id (user_presence d)) ->
          map (fun s => PresenceService.last_seen_of s userId)
              (PresenceService.states userId d cs)
          = PresenceService.last_seen_of d userId
            :: map (fun c => Some (PresenceService.call_t_seen c)) cs)
    /\ (PresenceService.non_decreasing
          (PresenceService.last_seen_of d userId
           :: map (fun c => Some (PresenceService.call_t_seen c)) cs) ->
        PresenceService.non_decreasing
          (map (fun s => PresenceService.last_seen_of s userId)
               (PresenceService.states userId d cs))).
Proof.
  intros userId d cs Hnd. split; [|split].
  - now apply states_keep_unique.
  - intros c cs' -> H. now apply last_seen_is_the_reading.
  - apply last_seen_non_decreasing.
Qed.

Lemma last_seen_follows_the_clock_witness :
  map (fun s => PresenceService.last_seen_of s Sample.alice)
      (PresenceService.states Sample.alice Sample.empty_db
         [Sample.tick "p1" 10; Sample.tick "p2" 40; Sample.tick "p3" 40])
  = [None; Some 10; Some 40; Some 40]
  /\ PresenceService.non_decreasing
       (map (fun s => PresenceService.last_seen_of s Sample.alice)
            (PresenceService.states Sample.alice Sample.empty_db
               [Sample.tick "p1" 10; Sample.tick "p2" 40; Sample.tick "p3" 40])).
Proof.
  assert (Hnd : NoDup (presence_keys Sample.empty_db)) by constructor.
  split.
  - refine (proj1 (proj2 (last_seen_follows_the_clock Sample.alice Sample.empty_db
                            [Sample.tick "p1" 10; Sample.tick "p2" 40;
                             Sample.tick "p3" 40] Hnd))
              (Sample.tick "p1" 10) [Sample.tick "p2" 40; Sample.tick "p3" 40]
              eq_refl _).
    right. intros [].
  - refine (proj2 (proj2 (last_seen_follows_the_clock Sample.alice Sample.empty_db
                            [Sample.tick "p1" 10; Sample.tick "p2" 40;
                             Sample.tick "p3" 40] Hnd)) _).
    vm_compute. repeat split; discriminate.
Defined.

(** Two sessions of Alice, the clock of the second behind the first: the
    second heartbeat takes [last_seen] from 10 back to 5. *)
Lemma last_seen_goes_back_with_the_clock :
  map (fun s => PresenceService.last_seen_of s Sample.alice)
      (PresenceService.states Sample.alice Sample.empty_db
         [Sample.tick "p1" 10; Sample.tick "p2" 5])
  = [None; Some 10; Some 5]
  /\ ~ PresenceService.non_decreasing
        (map (fun s => PresenceService.last_seen_of s Sample.alice)
             (PresenceService.states Sample.alice Sample.empty_db
                [Sample.tick "p1" 10; Sample.tick "p2" 5])).
Proof.
  split; [reflexivity|]. vm_compute. intros (_ & H & _). now apply H.
Qed.

(** ** Validation *)

Lemma trim_start_white_space s :
  forallb JS.is_white_space s = true -> JS.trim_start s = [].
Proof.
  induction s as [|c s IH]; simpl; [reflexivity|].
  intros H. apply andb_prop in H as [Hc Hs]. rewrite Hc. now apply IH.
Qed.

Lemma trim_white_space s :
  forallb JS.is_white_space s = true -> JS.trim s = [].
Proof.
  intros H. unfold JS.trim. now rewrite (trim_start_white_space s H).
Qed.

Lemma includes_spec l x : FileService.includes l x = true <-> In x l.
Proof.
  unfold FileService.includes. rewrite existsb_exists. split.
  - intros (y & Hin & He). apply String.eqb_eq in He. now subst.
  - intros Hin. exists x. split; [exact Hin|apply String.eqb_refl].
Qed.

Lemma validateFile_rejects file :
  52428800 < FileService.size file
  \/ ~ In (FileService.type file) FileService.ALLOWED_TYPES ->
  FileService.valid (FileService.validateFile file) = false
  /\ FileService.error (FileService.validateFile file) <> None.
Proof.
  intros H. unfold FileService.validateFile.
  change (FileService.MAX_FILE_SIZE <? FileService.size file)
    with (52428800 <? FileService.size file).
  destruct (52428800 <? FileService.size file) eqn:Hs.
  - split; [reflexivity|cbn [FileService.error]; discriminate].
  - destruct H as [H|H]; [apply Z.ltb_ge in Hs; lia|].
    destruct (FileService.includes FileService.ALLOWED_TYPES (FileService.type file))
      eqn:Hi.
    + apply includes_spec in Hi. contradiction.
    + split; [reflexivity|cbn [negb FileService.error]; discriminate].
Qed.

(** C9.  A message that is empty or all white space is not sent:
    [handleSendMessage] returns with the store and the view as they were,
    no row inserted and no channel updated.  A file over 50 MB
    (52428800 bytes), or of a type that is not in [ALLOWED_TYPES], is
    refused by [validateFile], and [uploadFile] throws the error of the
    validation with the bucket as it was. *)
Theorem validation_rejects_before_any_write :
  (forall (pr : ChatView.props) (fresh : uuid)
          (server_now client_now : timestamptz) (d : db) (v : ChatView.view),
      forallb JS.is_white_space (ChatView.newMessage v) = true ->
      ChatView.handleSendMessage pr fresh server_now client_now d v = (d, v))
  /\ (forall (file : FileService.File),
        52428800 < FileService.size file
        \/ ~ In (FileService.type file) FileService.ALLOWED_TYPES ->
        FileService.valid (FileService.validateFile file) = false
        /\ FileService.error (FileService.validateFile file) <> None
        /\ forall (getPublicUrl : string -> string) (timestamp : Z) (rnd : string)
                  (channelId userId : uuid) (st : FileService.storage),
             FileService.uploadFile getPublicUrl timestamp rnd file channelId
               userId st
             = (FileService.thrown
                  (FileService.error (FileService.validateFile file)), st)).
Proof.
  split.
  - intros pr fresh server_now client_now d v H.
    unfold ChatView.handleSendMessage. now rewrite (trim_white_space _ H).
  - intros file H. destruct (validateFile_rejects file H) as [Hv He].
    repeat split; trivial.
    intros. unfold FileService.uploadFile. now rewrite Hv.
Qed.

Lemma validation_rejects_before_any_write_witness :
  ChatView.handleSendMessage Sample.props_alice "m1" 1 1 Sample.db_channel
    (ChatView.set_newMessage [32; 9; 8195; 10]%N Sample.view_alice)
  = (Sample.db_channel,
     ChatView.set_newMessage [32; 9; 8195; 10]%N Sample.view_alice)
  /\ FileService.uploadFile (fun path => path) 1700000000000 "k3x9" 
       (Sample.png 52428801) "channel-1" Sample.alice []
     = (FileService.thrown (Some "File size exceeds 50MB limit"%string), []).
Proof.
  destruct validation_rejects_before_any_write as [Hm Hf]. split.
  - apply Hm. reflexivity.
  - destruct (Hf (Sample.png 52428801)) as (_ & _ & Hu).
    + left. reflexivity.
    + apply Hu.
Defined.

(** ** The unread badge *)












(** * Further properties of the code *)

(** ** Channel flags *)

Lemma map_restore {A} (f : A -> A) (l : list A) :
  (forall x, In x l -> f x = x) -> map f l = l.
Proof.
  intros H. induction l as [|x l IH]; simpl; [reflexivity|].
  rewrite H by now left. f_equal. apply IH. intros y Hy. apply H. now right.
Qed.

Lemma find_channel_update f d c c' :
  (forall pc, PersonaChannels.id (f pc) = PersonaChannels.id pc) ->
  find_channel (ChatViewRest.update_channel f d (Some c)) c'
  = option_map (fun pc => if uuid_eqb (PersonaChannels.id pc) c then f pc else pc)
               (find_channel d c').
Proof.
  intros Hid. unfold find_channel, ChatViewRest.update_channel.
  cbn [persona_channels with_persona_channels]. apply find_map_stable.
  intros x. destruct (uuid_eqb (PersonaChannels.id x) c); [|reflexivity].
  now rewrite Hid.
Qed.

(** X1.  With a resolved channel whose rows carry the flag the view shows,
    [toggleLock] negates the flag in the store and in the view, which stay
    in agreement, leaves the counter and [last_message_at] of the channel
    alone, and a second [toggleLock] gives back the store and the view one
    started from.  Without a resolved channel only the flag of the view
    changes. *)
Theorem toggleLock_flips_store_and_view :
  forall (d : db) (v : ChatView.view),
    (forall c,
        ChatView.channelId v = Some c ->
        (forall pc, In pc (persona_channels d) -> PersonaChannels.id pc = c ->
                    PersonaChannels.is_locked pc = ChatView.isLocked v) ->
        let r := ChatViewRest.toggleLock d v in
        (forall pc, In pc (persona_channels (fst r)) -> PersonaChannels.id pc = c ->
                    PersonaChannels.is_locked pc = ChatView.isLocked (snd r))
        /\ ChatView.isLocked (snd r) = negb (ChatView.isLocked v)
        /\ unread_of (fst r) c = unread_of d c
        /\ last_message_at_of (fst r) c = last_message_at_of d c
        /\ ChatViewRest.toggleLock (fst r) (snd r) = (d, v))
    /\ (ChatView.channelId v = None ->
        fst (ChatViewRest.toggleLock d v) = d
        /\ ChatView.isLocked (snd (ChatViewRest.toggleLock d v))
           = negb (ChatView.isLocked v)).
Proof.
  intros d v. split.
  - intros c Hc Hsync r. unfold r, ChatViewRest.toggleLock. rewrite Hc.
    cbn [fst snd]. repeat split.
    + intros pc Hin Hid. cbn [persona_channels ChatViewRest.update_channel
                               with_persona_channels] in Hin.
      apply in_map_iff in Hin as (pc0 & <- & _).
      destruct (uuid_eqb (PersonaChannels.id pc0) c) eqn:E; [reflexivity|].
      apply uuid_eqb_neq in E. contradiction.
    + unfold unread_of. rewrite find_channel_update by reflexivity.
      destruct (find_channel d c) as [pc|]; [|reflexivity]. simpl.
      now destruct (uuid_eqb (PersonaChannels.id pc) c).
    + unfold last_message_at_of. rewrite find_channel_update by reflexivity.
      destruct (find_channel d c) as [pc|]; [|reflexivity]. simpl.
      now destruct (uuid_eqb (PersonaChannels.id pc) c).
    + cbn [ChatView.channelId ChatViewRest.set_isLocked ChatView.isLocked].
      rewrite Hc, negb_involutive. f_equal.
      * destruct d as [cs pcs ms ups tis].
        unfold ChatViewRest.update_channel, with_persona_channels.
        cbn [persona_channels contacts messages user_presence typing_indicators].
        f_equal. rewrite map_map. apply map_restore. intros pc Hin.
        destruct (uuid_eqb (PersonaChannels.id pc) c) eqn:E.
        -- cbn [PersonaChannels.id ChatViewRest.set_is_locked]. rewrite E.
           apply uuid_eqb_eq in E.
           specialize (Hsync pc Hin E). cbn [persona_channels] in Hsync.
           destruct pc; simpl in *. now rewrite Hsync.
        -- now rewrite E.
      * now destruct v.
  - intros Hn. unfold ChatViewRest.toggleLock. rewrite Hn. split; reflexivity.
Qed.

Lemma toggleLock_flips_store_and_view_witness :
  ChatViewRest.toggleLock
    (fst (ChatViewRest.toggleLock Sample.db_channel Sample.view_alice))
    (snd (ChatViewRest.toggleLock Sample.db_channel Sample.view_alice))
  = (Sample.db_channel, Sample.view_alice).
Proof.
  refine (proj2 (proj2 (proj2 (proj2
            (proj1 (toggleLock_flips_store_and_view Sample.db_channel
                      Sample.view_alice) "channel-1"%string eq_refl _))))).
  intros pc [<-|[]] _. reflexivity.
Defined.

Lemma Forall2_map_self {A} (R : A -> A -> Prop) (f : A -> A) (l : list A) :
  (forall x, In x l -> R x (f x)) -> Forall2 R l (map f l).
Proof.
  induction l as [|x l IH]; intros H; simpl; constructor.
  - apply H. now left.
  - apply IH. intros y Hy. apply H. now right.
Qed.

(** X2.  With a resolved channel whose rows carry the flag the view shows,
    [toggleNotifications] negates [notification_enabled] in the store and
    in the view, which stay in agreement, and a second
    [toggleNotifications] gives back the store and the view one started
    from.  It leaves every other column of the channel alone, every other
    channel and every other table as they are, and in the view the lock
    flag and the channel.  Without a resolved channel only the flag of the
    view changes. *)
Theorem toggleNotifications_flips_store_and_view :
  forall (d : db) (v : ChatView.view),
    (forall c,
        ChatView.channelId v = Some c ->
        (forall pc, In pc (persona_channels d) -> PersonaChannels.id pc = c ->
                    PersonaChannels.notification_enabled pc
                    = ChatView.notificationsEnabled v) ->
        let r := ChatViewRest.toggleNotifications d v in
        (forall pc, In pc (persona_channels (fst r)) -> PersonaChannels.id pc = c ->
                    PersonaChannels.notification_enabled pc
                    = ChatView.notificationsEnabled (snd r))
        /\ ChatView.notificationsEnabled (snd r)
           = negb (ChatView.notificationsEnabled v)
        /\ unread_of (fst r) c = unread_of d c
        /\ ChatViewRest.toggleNotifications (fst r) (snd r) = (d, v)
        /\ Forall2 (fun pc pc' =>
                      same_but_notification_enabled pc pc'
                      /\ (PersonaChannels.id pc <> c -> pc' = pc))
                   (persona_channels d) (persona_channels (fst r))
        /\ last_message_at_of (fst r) c = last_message_at_of d c
        /\ contacts (fst r) = contacts d
        /\ messages (fst r) = messages d
        /\ user_presence (fst r) = user_presence d
        /\ typing_indicators (fst r) = typing_indicators d
        /\ ChatView.isLocked (snd r) = ChatView.isLocked v
        /\ ChatView.channelId (snd r) = ChatView.channelId v)
    /\ (ChatView.channelId v = None ->
        fst (ChatViewRest.toggleNotifications d v) = d
        /\ ChatView.notificationsEnabled (snd (ChatViewRest.toggleNotifications d v))
           = negb (ChatView.notificationsEnabled v)).
Proof.
  intros d v. split.
  - intros c Hc Hsync r. unfold r, ChatViewRest.toggleNotifications. rewrite Hc.
    cbn [fst snd].
    split; [|split; [reflexivity|split; [|split; [|split; [|split]]]]].
    + intros pc Hin Hid. cbn [persona_channels ChatViewRest.update_channel
                               with_persona_channels] in Hin.
      apply in_map_iff in Hin as (pc0 & <- & _).
      destruct (uuid_eqb (PersonaChannels.id pc0) c) eqn:E; [reflexivity|].
      apply uuid_eqb_neq in E. contradiction.
    + unfold unread_of. rewrite find_channel_update by reflexivity.
      destruct (find_channel d c) as [pc|]; [|reflexivity]. simpl.
      now destruct (uuid_eqb (PersonaChannels.id pc) c).
    + cbn [ChatView.channelId ChatViewRest.set_notificationsEnabled
             ChatView.notificationsEnabled].
      rewrite Hc, negb_involutive. f_equal.
      * destruct d as [cs pcs ms ups tis].
        unfold ChatViewRest.update_channel, with_persona_channels.
        cbn [persona_channels contacts messages user_presence typing_indicators].
        f_equal. rewrite map_map. apply map_restore. intros pc Hin.
        destruct (uuid_eqb (PersonaChannels.id pc) c) eqn:E.
        -- cbn [PersonaChannels.id ChatViewRest.set_notification_enabled].
           rewrite E. apply uuid_eqb_eq in E.
           specialize (Hsync pc Hin E). cbn [persona_channels] in Hsync.
           destruct pc; simpl in *. now rewrite Hsync.
        -- now rewrite E.
      * now destruct v.
    + cbn [persona_channels ChatViewRest.update_channel with_persona_channels].
      apply Forall2_map_self. intros pc _.
      destruct (uuid_eqb (PersonaChannels.id pc) c) eqn:E.
      * split; [repeat split|]. intros Hne.
        apply uuid_eqb_eq in E. contradiction.
      * split; [repeat split|reflexivity].
    + unfold last_message_at_of. rewrite find_channel_update by reflexivity.
      destruct (find_channel d c) as [pc|]; [|reflexivity]. simpl.
      now destruct (uuid_eqb (PersonaChannels.id pc) c).
    + split; [reflexivity|]. split; [reflexivity|]. split; [reflexivity|].
      split; [reflexivity|]. split; [reflexivity|]. exact Hc.
  - intros Hn. unfold ChatViewRest.toggleNotifications. rewrite Hn.
    split; reflexivity.
Qed.

Lemma toggleNotifications_flips_store_and_view_witness :
  ChatViewRest.toggleNotifications
    (fst (ChatViewRest.toggleNotifications Sample.db_channel Sample.view_alice))
    (snd (ChatViewRest.toggleNotifications Sample.db_channel Sample.view_alice))
  = (Sample.db_channel, Sample.view_alice).
Proof.
  refine (proj1 (proj2 (proj2 (proj2
            (proj1 (toggleNotifications_flips_store_and_view Sample.db_channel
                      Sample.view_alice) "channel-1"%string eq_refl _))))).
  intros pc [<-|[]] _. reflexivity.
Defined.

(** ** Rows and how they are shown *)

Lemma insert_message_appends d fresh now m d' :
  insert_message d fresh now m = Ok d' ->
  messages d' = messages d ++ [new_message fresh now m].
Proof.
  unfold insert_message.
  destruct (existsb _ (messages d)); [discriminate|].
  destruct (find_channel d (ins_channel_id m)); [|discriminate].
  unfold increment_unread_count.
  destruct (channel_owner _ _) as [o|]; [|now intros [= <-]].
  destruct (negb _); [|now intros [= <-]].
  destruct (existsb _ _); [discriminate|now intros [= <-]].
Qed.

(** A row that is in the store after an attempted insert and was not
    before is the row of the insert. *)
Lemma new_row_of_insert d fresh now m row :
  In row (messages (commit d (insert_message d fresh now m))) ->
  ~ In row (messages d) ->
  row = new_message fresh now m.
Proof.
  destruct (insert_message d fresh now m) as [d'|e] eqn:E; simpl.
  - rewrite (insert_message_appends _ _ _ _ _ E). intros Hin Hnot.
    apply in_app_or in Hin as [Hin|[<-|[]]]; [contradiction|reflexivity].
  - intros Hin Hnot. contradiction.
Qed.

Lemma truthy_spec s :
  ChatViewRest.truthy (Some s) = true <-> s <> EmptyString.
Proof. destruct s; simpl; split; congruence. Qed.

(** X3.  A row that [handleSendFile] or [handleSendGif] adds is ['sent'],
    its content starts with ["Sent a "], so that its text is never shown,
    and its attachment is shown exactly when url, type and name are not
    empty.  A row that [handleSendMessage] adds has no attachment, and its
    text is not shown either when what the user typed starts with
    ["Sent a "]. *)
Theorem rows_sent_and_what_is_shown :
  forall (pr : ChatView.props) (fresh : uuid)
         (server_now client_now : timestamptz) (d : db) (v : ChatView.view),
    (forall f row,
        In row (messages (ChatViewRest.handleSendFile pr fresh server_now
                            client_now f d v)) ->
        ~ In row (messages d) ->
        Messages.status row = sent
        /\ Messages.sender_id row = ChatView.user_id pr
        /\ ChatViewRest.shows_text row = false
        /\ (ChatViewRest.hasAttachment row = true
            <-> ChatViewRest.fd_url f <> EmptyString
                /\ ChatViewRest.fd_type f <> EmptyString
                /\ ChatViewRest.fd_name f <> EmptyString))
    /\ (forall gifUrl row,
          In row (messages (ChatViewRest.handleSendGif pr fresh server_now
                              client_now gifUrl d v)) ->
          ~ In row (messages d) ->
          Messages.status row = sent
          /\ Messages.sender_id row = ChatView.user_id pr
          /\ ChatViewRest.shows_text row = false
          /\ (ChatViewRest.hasAttachment row = true <-> gifUrl <> EmptyString))
    /\ (forall row,
          In row (messages (fst (ChatView.handleSendMessage pr fresh server_now
                                   client_now d v))) ->
          ~ In row (messages d) ->
          Messages.status row = sent
          /\ Messages.content row = JS.trim (ChatView.newMessage v)
          /\ ChatViewRest.hasAttachment row = false
          /\ ChatViewRest.shows_text row
             = negb (ChatViewRest.startsWith (JS.lit "Sent a ")
                       (JS.trim (ChatView.newMessage v)))).
Proof.
  intros pr fresh server_now client_now d v. split; [|split].
  - intros f row. unfold ChatViewRest.handleSendFile.
    destruct (ChatView.no_channel (ChatView.channelId v)); [contradiction|].
    destruct (ChatView.channelId v) as [c|]; [|contradiction].
    cbn [messages ChatView.touch_channel with_persona_channels].
    intros Hin Hnot. rewrite (new_row_of_insert _ _ _ _ _ Hin Hnot).
    do 3 (split; [reflexivity|]).
    unfold ChatViewRest.hasAttachment.
    cbn [new_message Messages.file_url Messages.file_type Messages.file_name
           ins_file_url ins_file_type ins_file_name].
    rewrite !andb_true_iff, !truthy_spec. tauto.
  - intros gifUrl row. unfold ChatViewRest.handleSendGif.
    destruct (ChatView.no_channel (ChatView.channelId v)); [contradiction|].
    destruct (ChatView.channelId v) as [c|]; [|contradiction].
    cbn [messages ChatView.touch_channel with_persona_channels].
    intros Hin Hnot. rewrite (new_row_of_insert _ _ _ _ _ Hin Hnot).
    do 3 (split; [reflexivity|]).
    unfold ChatViewRest.hasAttachment.
    cbn [new_message Messages.file_url Messages.file_type Messages.file_name
           ins_file_url ins_file_type ins_file_name].
    rewrite !andb_true_iff, truthy_spec. cbn [ChatViewRest.truthy]. tauto.
  - intros row. unfold ChatView.handleSendMessage.
    destruct (JS.falsy (JS.trim (ChatView.newMessage v))) eqn:Hf;
      [simpl; contradiction|].
    destruct (ChatView.no_channel (ChatView.channelId v)); [simpl; contradiction|].
    destruct (ChatView.channelId v) as [c|]; [|simpl; contradiction].
    cbn [fst orb messages ChatView.touch_channel with_persona_channels
           TypingService.cleanupTyping TypingService.removeTypingIndicator
           with_typing_indicators].
    intros Hin Hnot. rewrite (new_row_of_insert _ _ _ _ _ Hin Hnot).
    do 3 (split; [reflexivity|]).
    unfold ChatViewRest.shows_text.
    cbn [new_message Messages.content ins_content]. now rewrite Hf.
Qed.

Lemma rows_sent_and_what_is_shown_witness :
  ChatViewRest.shows_text
    (new_message "m1" 5
       {| ins_channel_id := "channel-1"; ins_sender_id := Sample.alice;
          ins_content := JS.lit "Sent a letter yesterday";
          ins_file_url := None; ins_file_type := None; ins_file_name := None |})
  = false.
Proof.
  destruct (proj2 (proj2 (rows_sent_and_what_is_shown Sample.props_alice "m1" 5 6
                            Sample.db_channel
                            (ChatView.set_newMessage
                               (JS.lit "  Sent a letter yesterday ")
                               Sample.view_alice)))
              (new_message "m1" 5
                 {| ins_channel_id := "channel-1"; ins_sender_id := Sample.alice;
                    ins_content := JS.lit "Sent a letter yesterday";
                    ins_file_url := None; ins_file_type := None;
                    ins_file_name := None |}))
    as (_ & _ & _ & H).
  - vm_compute. left. reflexivity.
  - intros [].
  - rewrite H. reflexivity.
Defined.

(** ** The list of messages a view keeps *)

Lemma deliver_row_other now messageId m :
  Messages.id m <> messageId -> ChatView.deliver_row now messageId m = m.
Proof.
  intros H. unfold ChatView.deliver_row.
  apply uuid_eqb_neq in H. now rewrite H.
Qed.

(** X4.  When every row of the list a view keeps is a row of the store,
    and a message is marked delivered, the UPDATE handler run on the row
    the store now has for it leaves a list of which again every row is a
    row of the store, with the same ids in the same order; for a message
    that is not in the list the handler changes nothing. *)
Theorem update_event_keeps_the_list_current :
  forall (d : db) (now : timestamptz) (messageId : uuid)
         (updatedMsg : Messages.row) (prev : list Messages.row),
    (forall m, In m prev -> In m (messages d)) ->
    In updatedMsg (messages (ChatView.markMessageAsDelivered d now messageId)) ->
    Messages.id updatedMsg = messageId ->
    let next := ChatViewRest.on_update_event updatedMsg prev in
    (forall m, In m next ->
               In m (messages (ChatView.markMessageAsDelivered d now messageId)))
    /\ map Messages.id next = map Messages.id prev
    /\ (~ In messageId (map Messages.id prev) -> next = prev).
Proof.
  intros d now messageId updatedMsg prev Hprev Hup Hid next. subst next.
  unfold ChatViewRest.on_update_event. rewrite Hid. split; [|split].
  - intros m Hin. apply in_map_iff in Hin as (m0 & <- & Hin0).
    destruct (uuid_eqb (Messages.id m0) messageId) eqn:E; [exact Hup|].
    apply uuid_eqb_neq in E.
    unfold ChatView.markMessageAsDelivered. cbn [messages with_messages].
    apply in_map_iff. exists m0. split; [now apply deliver_row_other|].
    now apply Hprev.
  - rewrite map_map. apply map_ext. intros m.
    destruct (uuid_eqb (Messages.id m) messageId) eqn:E; [|reflexivity].
    apply uuid_eqb_eq in E. congruence.
  - intros Hnot. apply map_restore. intros m Hin.
    destruct (uuid_eqb (Messages.id m) messageId) eqn:E; [|reflexivity].
    apply uuid_eqb_eq in E. exfalso. apply Hnot. rewrite <- E. now apply in_map.
Qed.

Lemma update_event_keeps_the_list_current_witness :
  let m := new_message "m1" 1 (Sample.text Sample.bob "hi") in
  let d := step Sample.db_channel (OpInsert "m1" 1 (Sample.text Sample.bob "hi")) in
  map Messages.id
    (ChatViewRest.on_update_event
       (Messages.set_status delivered (Some 9) None m) [m])
  = ["m1"%string].
Proof.
  cbv zeta.
  refine (proj1 (proj2
    (update_event_keeps_the_list_current
       (step Sample.db_channel (OpInsert "m1" 1 (Sample.text Sample.bob "hi")))
       9 "m1"
       (Messages.set_status delivered (Some 9) None
          (new_message "m1" 1 (Sample.text Sample.bob "hi")))
       [new_message "m1" 1 (Sample.text Sample.bob "hi")] _ _ _))).
  - intros m [<-|[]]. vm_compute. left. reflexivity.
  - vm_compute. left. reflexivity.
  - reflexivity.
Defined.

(** ** Opening a channel *)

Lemma no_channel_some (c : uuid) :
  c <> EmptyString -> ChatView.no_channel (Some c) = false.
Proof. intros H. simpl. now apply uuid_eqb_neq. Qed.

Lemma unread_rows_after_read now c reader d :
  unread_rows c reader (mark_messages_as_read d now c reader) = 0.
Proof.
  unfold unread_rows, mark_messages_as_read. cbn [messages with_messages].
  rewrite filter_none; [reflexivity|].
  induction (messages d) as [|m l IH]; simpl; [reflexivity|].
  rewrite IH, orb_false_r. unfold mark_read_row.
  destruct (to_mark_read c reader m) eqn:E; [|exact E].
  unfold to_mark_read. simpl. apply andb_false_r.
Qed.

Lemma unread_of_reset_found d c :
  find_channel d c <> None -> unread_of (reset_unread_count d c) c = Some 0.
Proof.
  intros H. unfold unread_of. rewrite find_channel_reset.
  destruct (find_channel d c) as [pc|] eqn:Hpc; [|contradiction].
  apply find_channel_id in Hpc. simpl. now rewrite Hpc, uuid_eqb_refl.
Qed.

(** X5.  Opening a resolved channel calls [mark_messages_as_read] and
    [reset_unread_count]; the two reach the same store in either order.
    In it the counter of the channel, if the channel is there, is 0 and
    every message of the channel that is not the reader's own is
    ['read']. *)
Theorem opening_a_channel_reads_and_resets :
  forall (pr : ChatView.props) (now : timestamptz) (d : db) (v : ChatView.view)
         (c : uuid),
    ChatView.channelId v = Some c ->
    c <> EmptyString ->
    let d' := ChatViewRest.open_read_first pr now d v in
    ChatViewRest.open_reset_first pr now d v = d'
    /\ (find_channel d c <> None -> unread_of d' c = Some 0)
    /\ unread_rows c (ChatView.user_id pr) d' = 0
    /\ (forall m, In m (messages d') ->
                  Messages.channel_id m = c ->
                  Messages.sender_id m <> ChatView.user_id pr ->
                  Messages.status m = read).
Proof.
  intros pr now d v c Hc Hne d'. subst d'.
  unfold ChatViewRest.open_read_first, ChatViewRest.open_reset_first,
    ChatView.markMessagesAsRead, ChatView.resetUnreadCount.
  rewrite Hc, (no_channel_some c Hne). split; [reflexivity|]. split; [|split].
  - intros Hf. apply unread_of_reset_found. exact Hf.
  - apply (unread_rows_after_read now c (ChatView.user_id pr) d).
  - intros m Hin Hch Hs.
    cbn [messages reset_unread_count with_persona_channels mark_messages_as_read
           with_messages] in Hin.
    apply in_map_iff in Hin as (m0 & <- & _).
    pose proof (mark_read_row_transition now c (ChatView.user_id pr) m0) as [Ht Hf].
    destruct (message_status_eqb (Messages.status m0) read) eqn:Hst.
    + apply message_status_eqb_eq in Hst.
      rewrite Hf; [exact Hst|]. intros (_ & _ & Hn). contradiction.
    + assert (Hu : unread_from_others c (ChatView.user_id pr) m0).
      { unfold mark_read_row in Hch, Hs.
        destruct (to_mark_read c (ChatView.user_id pr) m0) eqn:E.
        - now apply to_mark_read_spec.
        - repeat split; trivial.
          intros Hr. apply message_status_eqb_eq in Hr. congruence. }
      now destruct (Ht Hu).
Qed.

Lemma opening_a_channel_reads_and_resets_witness :
  let d3 := run [OpInsert "m1" 1 (Sample.text Sample.bob "one");
                 OpInsert "m2" 2 (Sample.text Sample.alice "two")]
              Sample.db_channel in
  unread_of (ChatViewRest.open_read_first Sample.props_alice 9 d3 Sample.view_alice)
    "channel-1"
  = Some 0.
Proof.
  cbv zeta.
  refine (proj1 (proj2
    (opening_a_channel_reads_and_resets Sample.props_alice 9
       (run [OpInsert "m1" 1 (Sample.text Sample.bob "one");
             OpInsert "m2" 2 (Sample.text Sample.alice "two")]
          Sample.db_channel)
       Sample.view_alice "channel-1" eq_refl _)) _).
  - discriminate.
  - vm_compute. discriminate.
Defined.






(** ** Reading the typing indicators *)

Lemma filter_implied {A} (p q : A -> bool) (l : list A) :
  (forall x, In x l -> p x = true -> q x = true) ->
  filter p (filter q l) = filter p l.
Proof.
  intros H. induction l as [|x l IH]; simpl; [reflexivity|].
  assert (IH' : filter p (filter q l) = filter p l)
    by (apply IH; intros y Hy; apply H; now right).
  destruct (q x) eqn:Hq; simpl.
  - now rewrite IH'.
  - destruct (p x) eqn:Hp; [|exact IH'].
    rewrite (H x (or_introl eq_refl) Hp) in Hq. discriminate.
Qed.

(** The rows of other keys are the same before and after a signal. *)
Lemma sendTypingIndicator_other_rows d fresh server_now client_now channel user r :
  TypingService.same_key channel user r = false ->
  In r (typing_indicators
          (TypingService.sendTypingIndicator d fresh server_now client_now
             channel user))
  <-> In r (typing_indicators d).
Proof.
  intros Hr.
  unfold TypingService.sendTypingIndicator, TypingService.upsert_typing.
  destruct (existsb (TypingService.same_key channel user) (typing_indicators d)).
  - cbn [commit typing_indicators with_typing_indicators].
    rewrite in_map_iff. split.
    + intros (x & Hx & Hin).
      destruct (TypingService.same_key channel user x) eqn:E.
      * subst r.
        change (TypingService.same_key channel user
                  (TypingService.set_expires_at (client_now + 5000) x))
          with (TypingService.same_key channel user x) in Hr. congruence.
      * now subst.
    + intros Hin. exists r. now rewrite Hr.
  - destruct (existsb (fun r0 => uuid_eqb (TypingIndicators.id r0) fresh)
                      (typing_indicators d)); [reflexivity|].
    destruct (find_channel d channel); [|reflexivity].
    cbn [commit typing_indicators with_typing_indicators].
    rewrite in_app_iff. split; [|tauto].
    intros [H|[<-|[]]]; [exact H|].
    unfold TypingService.same_key in Hr. simpl in Hr.
    now rewrite !uuid_eqb_refl in Hr.
Qed.

(** X7.  After [sendTypingIndicator(channel, user)] at [client_now],
    [getTypingIndicators(channel)] has the user's indicator as long as the
    reader's clock is before [client_now + 5000] and not from then on;
    after [removeTypingIndicator] it never has it; and in both cases the
    indicators of everyone else are read as before. *)
Theorem typing_indicator_written_then_read :
  forall (d : db) (fresh : uuid) (server_now client_now now : timestamptz)
         (channel user : uuid),
    NoDup (typing_keys d) ->
    find_channel d channel <> None ->
    existsb (fun r => uuid_eqb (TypingIndicators.id r) fresh) (typing_indicators d)
    = false ->
    let d1 := TypingService.sendTypingIndicator d fresh server_now client_now
                channel user in
    let d2 := TypingService.removeTypingIndicator d1 channel user in
    (now < client_now + 5000 ->
     exists r, In r (TypingService.getTypingIndicators d1 now channel)
               /\ TypingIndicators.user_id r = user
               /\ TypingIndicators.expires_at r = client_now + 5000)
    /\ (client_now + 5000 <= now ->
        forall r, In r (TypingService.getTypingIndicators d1 now channel) ->
                  TypingIndicators.user_id r <> user)
    /\ (forall r, In r (TypingService.getTypingIndicators d2 now channel) ->
                  TypingIndicators.user_id r <> user)
    /\ (forall r, TypingIndicators.user_id r <> user ->
                  (In r (TypingService.getTypingIndicators d1 now channel)
                   <-> In r (TypingService.getTypingIndicators d now channel))
                  /\ (In r (TypingService.getTypingIndicators d2 now channel)
                      <-> In r (TypingService.getTypingIndicators d now channel))).
Proof.
  intros d fresh server_now client_now now channel user Hnd Hch Hfresh d1 d2.
  destruct (sendTypingIndicator_row channel user d fresh server_now client_now
              Hnd Hch Hfresh) as [_ (r0 & Hr0 & Hc0 & Hu0 & He0)].
  fold d1 in Hr0.
  assert (Hin0 : In r0 (typing_indicators d1)).
  { assert (H : In r0 (filter (TypingService.same_key channel user)
                              (typing_indicators d1))) by (rewrite Hr0; now left).
    now apply filter_In in H. }
  assert (Hkey : forall r, In r (typing_indicators d1) ->
                           TypingIndicators.channel_id r = channel ->
                           TypingIndicators.user_id r = user -> r = r0).
  { intros r Hin Hc Hu.
    assert (H : In r (filter (TypingService.same_key channel user)
                             (typing_indicators d1))).
    { apply filter_In. split; [exact Hin|].
      unfold TypingService.same_key. now rewrite Hc, Hu, !uuid_eqb_refl. }
    rewrite Hr0 in H. destruct H as [H|[]]. now symmetry. }
  assert (Hother : forall r, TypingIndicators.user_id r <> user ->
                             TypingService.same_key channel user r = false).
  { intros r Hu. unfold TypingService.same_key.
    apply uuid_eqb_neq in Hu. rewrite Hu. apply andb_false_r. }
  unfold TypingService.getTypingIndicators. split; [|split; [|split]].
  - intros Hlt. exists r0. repeat split; trivial.
    apply filter_In. split; [exact Hin0|].
    rewrite Hc0, uuid_eqb_refl, He0. simpl. now apply Z.ltb_lt.
  - intros Hge r Hin Hu. apply filter_In in Hin as [Hin Hp].
    apply andb_prop in Hp as [Hc Hl]. apply uuid_eqb_eq in Hc.
    rewrite (Hkey r Hin Hc Hu), He0 in Hl. apply Z.ltb_lt in Hl. lia.
  - intros r Hin Hu. apply filter_In in Hin as [Hin Hp].
    apply andb_prop in Hp as [Hc _]. apply uuid_eqb_eq in Hc.
    unfold d2, TypingService.removeTypingIndicator in Hin.
    cbn [typing_indicators with_typing_indicators] in Hin.
    apply filter_In in Hin as [_ Hk]. apply negb_true_iff in Hk.
    unfold TypingService.same_key in Hk.
    now rewrite Hc, Hu, !uuid_eqb_refl in Hk.
  - intros r Hu. specialize (Hother r Hu).
    pose proof (sendTypingIndicator_other_rows d fresh server_now client_now
                  channel user r Hother) as Hsame. fold d1 in Hsame.
    rewrite !filter_In. unfold d2, TypingService.removeTypingIndicator.
    cbn [typing_indicators with_typing_indicators].
    rewrite filter_In, Hother. simpl. tauto.
Qed.

Lemma typing_indicator_written_then_read_witness :
  let d1 := TypingService.sendTypingIndicator Sample.db_channel "typing-1" 1001 1000
              "channel-1" Sample.bob in
  Forall (fun r => TypingIndicators.user_id r <> Sample.bob)
         (TypingService.getTypingIndicators d1 6000 "channel-1").
Proof.
  cbv zeta. apply Forall_forall.
  refine (proj1 (proj2
    (typing_indicator_written_then_read Sample.db_channel "typing-1" 1001 1000 6000
       "channel-1" Sample.bob _ _ eq_refl)) _).
  - constructor.
  - vm_compute. discriminate.
  - vm_compute. discriminate.
Defined.

(** X8.  [cleanup_expired_typing_indicators] run at [now] leaves no row
    that expired before [now], is idempotent, and never changes what
    [getTypingIndicators] returns to a reader whose clock is at [now] or
    later: it removes no indicator that is still live. *)
Theorem cleanup_removes_only_expired_indicators :
  forall (d : db) (now : timestamptz),
    (forall r, In r (typing_indicators (cleanup_expired_typing_indicators d now)) ->
               In r (typing_indicators d) /\ now <= TypingIndicators.expires_at r)
    /\ cleanup_expired_typing_indicators (cleanup_expired_typing_indicators d now) now
       = cleanup_expired_typing_indicators d now
    /\ (forall now' channel,
          now <= now' ->
          TypingService.getTypingIndicators
            (cleanup_expired_typing_indicators d now) now' channel
          = TypingService.getTypingIndicators d now' channel).
Proof.
  intros d now. split; [|split].
  - intros r Hin. unfold cleanup_expired_typing_indicators in Hin.
    cbn [typing_indicators with_typing_indicators] in Hin.
    apply filter_In in Hin as [Hin Hp]. split; [exact Hin|].
    apply negb_true_iff, Z.ltb_ge in Hp. exact Hp.
  - unfold cleanup_expired_typing_indicators, with_typing_indicators.
    cbn [typing_indicators contacts persona_channels messages user_presence].
    f_equal. apply filter_implied. trivial.
  - intros now' channel Hle.
    unfold TypingService.getTypingIndicators, cleanup_expired_typing_indicators.
    cbn [typing_indicators with_typing_indicators].
    apply filter_implied. intros r _ Hp.
    apply andb_prop in Hp as [_ Hl]. apply Z.ltb_lt in Hl.
    apply negb_true_iff, Z.ltb_ge. lia.
Qed.

Lemma cleanup_removes_only_expired_indicators_witness :
  let d1 := TypingService.sendTypingIndicator Sample.db_channel "typing-1" 1001 1000
              "channel-1" Sample.bob in
  TypingService.getTypingIndicators
    (cleanup_expired_typing_indicators d1 5000) 5500 "channel-1"
  = TypingService.getTypingIndicators d1 5500 "channel-1".
Proof.
  cbv zeta.
  apply (proj2 (proj2 (cleanup_removes_only_expired_indicators
                         (TypingService.sendTypingIndicator Sample.db_channel
                            "typing-1" 1001 1000 "channel-1" Sample.bob) 5000))).
  lia.
Defined.

(** ** The timers of the typing code *)

Section Timers.

Import TypingTimers.

Lemma filter_keeps_keys_distinct {V K : Type} (key : V -> K) (keep : V -> bool)
    (rows : list V) (Hkeys : NoDup (map key rows)) :
  NoDup (map key (filter keep rows)).
Proof.
  induction rows as [|r rows IH]; simpl; [constructor|].
  simpl in Hkeys. apply NoDup_cons_iff in Hkeys as [Hnew Hrest].
  destruct (keep r); simpl; [|exact (IH Hrest)].
  apply NoDup_cons; [|exact (IH Hrest)].
  intros Hin. apply Hnew. apply in_map_iff in Hin as (r' & Hr' & Hin).
  apply filter_In in Hin as [Hin _]. rewrite <- Hr'. now apply in_map.
Qed.

Lemma NoDup_fst_functional {A B} (l : list (A * B)) a b b' :
  NoDup (map fst l) -> In (a, b) l -> In (a, b') l -> b = b'.
Proof.
  induction l as [|[x y] l IH]; simpl; [contradiction|].
  intros H. inversion H as [|z zs Hnot Hnd]; subst.
  intros [E1|H1] [E2|H2].
  - congruence.
  - injection E1 as -> ->. exfalso. apply Hnot.
    change a with (fst (a, b')). now apply in_map.
  - injection E2 as -> ->. exfalso. apply Hnot.
    change a with (fst (a, b)). now apply in_map.
  - now apply IH.
Qed.

Lemma in_map_delete k m e :
  In e (map_delete k m) <-> In e m /\ fst e <> k.
Proof.
  unfold map_delete. rewrite filter_In, negb_true_iff.
  now rewrite String.eqb_neq.
Qed.

Lemma in_clearTimeout h p e :
  In e (clearTimeout h p) <-> In e p /\ fst e <> h.
Proof.
  unfold clearTimeout. rewrite filter_In, negb_true_iff.
  now rewrite N.eqb_neq.
Qed.

Lemma map_get_in k m h : map_get k m = Some h -> In (k, h) m.
Proof.
  unfold map_get. destruct (find _ m) as [[k' h']|] eqn:E; [|discriminate].
  intros [= <-]. apply find_some in E as [Hin Hk]. simpl in Hk.
  apply String.eqb_eq in Hk. now subst.
Qed.

Lemma map_get_none k m : map_get k m = None -> ~ In k (map fst m).
Proof.
  unfold map_get. destruct (find _ m) as [e|] eqn:E; [discriminate|].
  intros _ Hin. apply in_map_iff in Hin as (e & He & Hin).
  pose proof (find_none _ _ E e Hin) as Hn. simpl in Hn.
  rewrite He, String.eqb_refl in Hn. discriminate.
Qed.

Lemma in_map_get k m h :
  NoDup (map fst m) -> In (k, h) m -> map_get k m = Some h.
Proof.
  intros Hnd Hin. destruct (map_get k m) as [h'|] eqn:E.
  - f_equal. apply map_get_in in E. now apply (NoDup_fst_functional m k).
  - exfalso. apply (map_get_none _ _ E).
    change k with (fst (k, h)). now apply in_map.
Qed.

(** Dropping an entry with its timeout keeps the timers consistent. *)
Lemma drop_entry_consistent s k h :
  consistent s ->
  In (k, h) (typingTimeouts s) ->
  consistent {| typingTimeouts := map_delete k (typingTimeouts s);
                pending := clearTimeout h (pending s) |}.
Proof.
  intros (Hk & Hh & Hp & Hm) Hin. unfold consistent. cbn [typingTimeouts pending].
  split; [now apply filter_keeps_keys_distinct|]. split; [now apply filter_keeps_keys_distinct|].
  split.
  - intros h' c u Hin'. apply in_clearTimeout in Hin' as [Hin' Hne].
    apply in_map_delete. split; [now apply Hp|]. simpl. intros Heq.
    apply Hne. simpl. apply Hp in Hin'. rewrite Heq in Hin'.
    now apply (NoDup_fst_functional (typingTimeouts s) k).
  - intros k' h' Hin'. apply in_map_delete in Hin' as [Hin' Hne]. simpl in Hne.
    destruct (Hm k' h' Hin') as (c & u & -> & Hpe). exists c, u.
    split; [reflexivity|]. apply in_clearTimeout. split; [exact Hpe|].
    simpl. intros ->. destruct (Hm k h Hin) as (c0 & u0 & -> & Hpe0).
    assert (E : (c, u) = (c0, u0))
      by now apply (NoDup_fst_functional (pending s) h).
    injection E as -> ->. now apply Hne.
Qed.

Lemma clear_key_consistent k s : consistent s -> consistent (clear_key k s).
Proof.
  intros H. unfold clear_key.
  destruct (map_get k (typingTimeouts s)) as [h|] eqn:E; [|exact H].
  apply drop_entry_consistent; [exact H|now apply map_get_in].
Qed.

Lemma clear_key_absent k s : ~ In k (map fst (typingTimeouts (clear_key k s))).
Proof.
  unfold clear_key.
  destruct (map_get k (typingTimeouts s)) as [h|] eqn:E.
  - cbn [typingTimeouts]. intros Hin.
    apply in_map_iff in Hin as (e & He & Hin).
    apply in_map_delete in Hin as [_ Hne]. contradiction.
  - now apply map_get_none.
Qed.

Lemma clear_key_pending k s e :
  In e (pending (clear_key k s)) -> In e (pending s).
Proof.
  unfold clear_key. destruct (map_get k (typingTimeouts s)); [|trivial].
  cbn [pending]. intros H. now apply in_clearTimeout in H.
Qed.

Lemma map_set_absent k h m :
  ~ In k (map fst m) -> map_set k h m = m ++ [(k, h)].
Proof.
  intros H. unfold map_set.
  destruct (existsb (fun e => String.eqb (fst e) k) m) eqn:E; [|reflexivity].
  exfalso. apply H. apply existsb_exists in E as (e & Hin & He).
  apply String.eqb_eq in He. rewrite <- He. now apply in_map.
Qed.

Lemma handleTypingInput_consistent h fresh sn cn c u b s d :
  consistent s ->
  handle_is_new (Input h fresh sn cn c u b) s ->
  consistent (fst (handleTypingInput h fresh sn cn c u b s d)).
Proof.
  intros Hs Hnew. unfold handleTypingInput.
  pose proof (clear_key_consistent (key c u) s Hs) as (Hk & Hh & Hp & Hm).
  pose proof (clear_key_absent (key c u) s) as Habs.
  destruct b; cbn [fst]; [|now repeat split].
  simpl in Hnew.
  assert (Hnew1 : ~ In h (map fst (pending (clear_key (key c u) s)))).
  { intros Hin. apply Hnew. apply in_map_iff in Hin as (e & He & Hin).
    rewrite <- He. apply in_map. now apply clear_key_pending in Hin. }
  rewrite (map_set_absent _ _ _ Habs). unfold consistent.
  cbn [typingTimeouts pending]. rewrite !map_app. simpl.
  split; [|split; [|split]].
  - apply NoDup_app; [exact Hk|repeat constructor; intros []|].
    intros x Hx [<-|[]]. contradiction.
  - apply NoDup_app; [exact Hh|repeat constructor; intros []|].
    intros x Hx [<-|[]]. contradiction.
  - intros h' c' u' Hin. apply in_app_or in Hin as [Hin|[E|[]]].
    + apply in_or_app. left. now apply Hp.
    + injection E as <- <- <-. apply in_or_app. right. now left.
  - intros k' h' Hin. apply in_app_or in Hin as [Hin|[E|[]]].
    + destruct (Hm k' h' Hin) as (c' & u' & -> & Hpe). exists c', u'.
      split; [reflexivity|]. apply in_or_app. now left.
    + injection E as <- <-. exists c, u. split; [reflexivity|].
      apply in_or_app. right. now left.
Qed.

Lemma fire_consistent h s d : consistent s -> consistent (fst (fire h s d)).
Proof.
  intros Hs. unfold fire.
  destruct (find (fun e => N.eqb (fst e) h) (pending s)) as [[h0 [c u]]|] eqn:E;
    [|exact Hs].
  cbn [fst]. apply find_some in E as [Hin He]. simpl in He.
  apply N.eqb_eq in He. subst h0.
  apply drop_entry_consistent; [exact Hs|].
  destruct Hs as (_ & _ & Hp & _). now apply Hp.
Qed.

Lemma clear_all_in (m : list (string * handle)) : forall p e,
  In e (fold_left (fun p e => clearTimeout (snd e) p) m p) ->
  In e p /\ ~ In (fst e) (map snd m).
Proof.
  induction m as [|[k h] m IH]; intros p e; simpl; [tauto|].
  intros Hin. apply IH in Hin as [Hin Hnot].
  apply in_clearTimeout in Hin as [Hin Hne]. split; [exact Hin|].
  intros [E|H]; [now apply Hne|contradiction].
Qed.

Lemma cleanupTyping_consistent c u s d :
  consistent s -> consistent (fst (cleanupTyping c u s d)).
Proof.
  intros Hs. unfold cleanupTyping.
  assert (Hall : consistent
                   {| typingTimeouts := [];
                      pending := fold_left (fun p e => clearTimeout (snd e) p)
                                           (typingTimeouts s) (pending s) |}).
  { assert (Hnil : fold_left (fun p e => clearTimeout (snd e) p)
                             (typingTimeouts s) (pending s) = []).
    { destruct (fold_left _ _ _) as [|[h [c0 u0]] l] eqn:E; [reflexivity|].
      exfalso.
      assert (Hin : In (h, (c0, u0))
                       (fold_left (fun p e => clearTimeout (snd e) p)
                                  (typingTimeouts s) (pending s)))
        by (rewrite E; now left).
      apply clear_all_in in Hin as [Hin Hnot]. apply Hnot.
      destruct Hs as (_ & _ & Hp & _). apply Hp in Hin.
      apply in_map_iff. exists (key c0 u0, h). split; [reflexivity|exact Hin]. }
    rewrite Hnil. unfold consistent. simpl.
    repeat split; try constructor; contradiction. }
  destruct (given c) as [c'|]; [|exact Hall].
  destruct (given u) as [u'|]; [|exact Hall].
  cbn [fst]. now apply clear_key_consistent.
Qed.

Lemma apply_event_consistent e sd :
  consistent (fst sd) -> handle_is_new e (fst sd) ->
  consistent (fst (apply_event e sd)).
Proof.
  intros Hs Hnew. destruct e; simpl apply_event.
  - now apply handleTypingInput_consistent.
  - now apply fire_consistent.
  - now apply cleanupTyping_consistent.
Qed.

End Timers.

(** X9.  Whatever the sequence of typing inputs, timeouts running and
    cleanups of a client, starting with no timer: no key has two entries in
    [typingTimeouts], every timeout that is still to run is the one the map
    holds for its pair, so that it can still be cleared, and every entry of
    the map is a timeout still to run. *)
Theorem typing_timers_stay_consistent :
  forall (es : list TypingTimers.event) (d : db),
    TypingTimers.handles_are_new es (TypingTimers.initial, d) ->
    TypingTimers.consistent (fst (TypingTimers.run es (TypingTimers.initial, d))).
Proof.
  intros es d.
  assert (H0 : TypingTimers.consistent (fst (TypingTimers.initial, d))).
  { unfold TypingTimers.consistent. simpl.
    repeat split; try constructor; contradiction. }
  revert H0. generalize (TypingTimers.initial, d).
  induction es as [|e es IH]; intros sd Hs Hnew; [exact Hs|].
  destruct Hnew as [Hn Hrest]. simpl. apply IH; [|exact Hrest].
  now apply apply_event_consistent.
Qed.

Lemma typing_timers_stay_consistent_witness :
  TypingTimers.consistent
    (fst (TypingTimers.run
            [TypingTimers.Input 1 "t1" 10 10 "channel-1" Sample.bob true;
             TypingTimers.Input 2 "t2" 20 20 "channel-1" Sample.bob true;
             TypingTimers.Fire 1;
             TypingTimers.Fire 2]
            (TypingTimers.initial, Sample.db_channel))).
Proof.
  apply typing_timers_stay_consistent.
  vm_compute. split; [intros []|]. split; [intros [H|[]]; discriminate H|].
  repeat split.
Defined.

(** X10.  With consistent timers, when the user stops typing
    ([handleTypingInput] with [isTyping] false) or the view is cleaned up
    ([cleanupTyping] with both ids), no timeout stays pending for the pair,
    the map has no entry for its key, and the store has no typing row for
    the pair. *)
Theorem stopping_clears_timer_and_indicator :
  forall (s : TypingTimers.state) (d : db) (c u : uuid)
         (h : TypingTimers.handle) (fresh : uuid) (server_now client_now : timestamptz),
    TypingTimers.consistent s ->
    c <> EmptyString -> u <> EmptyString ->
    let stopped := TypingTimers.handleTypingInput h fresh server_now client_now
                     c u false s d in
    let cleaned := TypingTimers.cleanupTyping (Some c) (Some u) s d in
    cleaned = stopped
    /\ TypingTimers.map_get (TypingTimers.key c u)
         (TypingTimers.typingTimeouts (fst stopped)) = None
    /\ (forall h', ~ In (h', (c, u)) (TypingTimers.pending (fst stopped)))
    /\ (forall r, In r (typing_indicators (snd stopped)) ->
                  ~ (TypingIndicators.channel_id r = c
                     /\ TypingIndicators.user_id r = u)).
Proof.
  intros s d c u h fresh server_now client_now Hs Hc Hu stopped cleaned.
  assert (Habs : ~ In (TypingTimers.key c u)
                      (map fst (TypingTimers.typingTimeouts
                                  (TypingTimers.clear_key (TypingTimers.key c u) s))))
    by apply clear_key_absent.
  split.
  { unfold cleaned, stopped. destruct c; [contradiction|].
    destruct u; [contradiction|]. reflexivity. }
  cbn [stopped TypingTimers.handleTypingInput fst snd].
  split; [|split].
  - destruct (TypingTimers.map_get _ _) as [h0|] eqn:E; [|reflexivity].
    exfalso. apply Habs. apply map_get_in in E.
    apply in_map_iff. now exists (TypingTimers.key c u, h0).
  - intros h' Hin.
    destruct (clear_key_consistent (TypingTimers.key c u) s Hs) as (_ & _ & Hp & _).
    apply Hp in Hin. apply Habs.
    apply in_map_iff. now exists (TypingTimers.key c u, h').
  - intros r Hin [Hcr Hur]. unfold TypingService.removeTypingIndicator in Hin.
    cbn [typing_indicators with_typing_indicators] in Hin.
    apply filter_In in Hin as [_ Hk]. apply negb_true_iff in Hk.
    unfold TypingService.same_key in Hk.
    now rewrite Hcr, Hur, !uuid_eqb_refl in Hk.
Qed.

Lemma stopping_clears_timer_and_indicator_witness :
  let sd := TypingTimers.run
              [TypingTimers.Input 1 "t1" 10 10 "channel-1" Sample.bob true]
              (TypingTimers.initial, Sample.db_channel) in
  TypingTimers.map_get (TypingTimers.key "channel-1" Sample.bob)
    (TypingTimers.typingTimeouts
       (fst (TypingTimers.handleTypingInput 2 "t2" 20 20 "channel-1" Sample.bob
               false (fst sd) (snd sd))))
  = None.
Proof.
  cbv zeta.
  refine (proj1 (proj2
    (stopping_clears_timer_and_indicator _ _ "channel-1" Sample.bob
       2%N "t2" 20 20 _ _ _))); [|discriminate|discriminate].
  vm_compute. repeat split; try (repeat constructor; intros [H|[]]; discriminate).
  - repeat constructor. intros [].
  - repeat constructor. intros [].
  - intros h c u [H|[]]. injection H as <- <- <-. left. reflexivity.
  - intros k h [H|[]]. injection H as <- <-.
    exists "channel-1"%string, "bob"%string. split; [reflexivity|now left].
Defined.

(** ** The key of a timer *)

Lemma string_app_same_length (a a' b b' : string) :
  String.length a = String.length a' ->
  (a ++ b)%string = (a' ++ b')%string -> a = a' /\ b = b'.
Proof.
  revert a'. induction a as [|x a IH]; intros [|y a']; simpl; try discriminate.
  - intros _ H. now split.
  - intros [= Hl] [= -> Hr]. destruct (IH a' Hl Hr) as [-> ->]. now split.
Qed.

(** X11.  For channel ids of one length, as uuids are, the key
    [`${channelId}-${userId}`] of a timer determines the pair: two pairs
    share a key, and with it a timer, only when they are the same pair. *)
Theorem timer_key_determines_the_pair :
  forall (c u c' u' : uuid),
    String.length c = String.length c' ->
    TypingTimers.key c u = TypingTimers.key c' u' ->
    c = c' /\ u = u'.
Proof.
  intros c u c' u' Hl Hk. unfold TypingTimers.key in Hk.
  destruct (string_app_same_length c c' _ _ Hl Hk) as [-> H].
  split; [reflexivity|]. now injection H.
Qed.

Lemma timer_key_determines_the_pair_witness :
  TypingTimers.key "ab" "c" <> TypingTimers.key "cd" "c"
  /\ TypingTimers.key "a-b" "c" = TypingTimers.key "a" "b-c".
Proof.
  split; [|reflexivity].
  intros H.
  destruct (timer_key_determines_the_pair "ab" "c" "cd" "c" eq_refl H) as [E _].
  discriminate E.
Defined.

(** ** Reading presence *)

Lemma filter_unique_key {A K} (f : A -> K) (p : A -> bool) (k : K) (l : list A) :
  (forall x, p x = true <-> f x = k) ->
  NoDup (map f l) ->
  existsb p l = true ->
  exists r, filter p l = [r].
Proof.
  intros Hp. induction l as [|x l IH]; simpl; [discriminate|].
  intros Hnd Hex. inversion Hnd as [|y ys Hnot Hnd']; subst.
  destruct (p x) eqn:Hx.
  - exists x. f_equal. apply filter_none.
    destruct (existsb p l) eqn:E; [|reflexivity].
    apply existsb_exists in E as (z & Hz & Hpz). exfalso. apply Hnot.
    apply Hp in Hx. apply Hp in Hpz. rewrite Hx, <- Hpz. now apply in_map.
  - simpl in Hex. now apply IH.
Qed.

Section PresenceReads.

Variable u : uuid.

Let mine (r : UserPresence.row) : bool := uuid_eqb (UserPresence.user_id r) u.

Lemma mine_spec r : mine r = true <-> UserPresence.user_id r = u.
Proof. apply uuid_eqb_eq. Qed.

Lemma filter_mine_put st t1 t2 rows :
  filter mine (map (PresenceService.put u st t1 t2) rows)
  = map (PresenceService.put u st t1 t2) (filter mine rows).
Proof.
  induction rows as [|x rows IH]; simpl; [reflexivity|].
  unfold mine at 1. rewrite put_user_id. fold (mine x).
  destruct (mine x); simpl; now rewrite IH.
Qed.

Lemma filter_mine_put_other u' st t1 t2 rows :
  u' <> u ->
  filter mine (map (PresenceService.put u' st t1 t2) rows) = filter mine rows.
Proof.
  intros Hne. induction rows as [|x rows IH]; simpl; [reflexivity|].
  unfold mine at 1. rewrite put_user_id. fold (mine x).
  destruct (mine x) eqn:Hx; rewrite IH; [|reflexivity].
  f_equal. unfold PresenceService.put.
  destruct (uuid_eqb (UserPresence.user_id x) u') eqn:E; [|reflexivity].
  apply uuid_eqb_eq in E. apply mine_spec in Hx. congruence.
Qed.

(** A write for another user leaves the rows of [u] as they are. *)
Lemma write_other d e u' st :
  u' <> u ->
  PresenceService.presence_rows (PresenceRest.write d e u' st) u
  = PresenceService.presence_rows d u.
Proof.
  intros Hne.
  unfold PresenceRest.write, PresenceService.updatePresence,
    PresenceService.upsert_presence, PresenceService.presence_rows.
  fold mine.
  destruct (existsb (fun r => uuid_eqb (UserPresence.user_id r) u') (user_presence d)).
  - cbn [commit user_presence with_user_presence].
    now apply filter_mine_put_other.
  - destruct (existsb (fun r => uuid_eqb (UserPresence.id r) (PresenceRest.r_fresh e))
                      (user_presence d)); [reflexivity|].
    cbn [commit user_presence with_user_presence].
    rewrite filter_app. simpl. unfold mine at 2. simpl.
    apply uuid_eqb_neq in Hne. rewrite Hne. apply app_nil_r.
Qed.

(** A write for [u], when the store can take it, leaves one row for [u],
    with what was written. *)
Lemma write_mine d e st :
  NoDup (presence_keys d) ->
  existsb mine (user_presence d) = true
  \/ existsb (fun r => uuid_eqb (UserPresence.id r) (PresenceRest.r_fresh e))
             (user_presence d) = false ->
  exists r,
    PresenceService.presence_rows (PresenceRest.write d e u st) u = [r]
    /\ UserPresence.user_id r = u
    /\ UserPresence.status r = st
    /\ UserPresence.last_seen r = PresenceRest.r_seen e
    /\ UserPresence.updated_at r = PresenceRest.r_updated e.
Proof.
  intros Hnd Hcan.
  unfold PresenceRest.write, PresenceService.updatePresence,
    PresenceService.upsert_presence, PresenceService.presence_rows.
  fold mine.
  destruct (existsb mine (user_presence d)) eqn:Hex.
  - cbn [commit user_presence with_user_presence].
    rewrite filter_mine_put.
    destruct (filter_unique_key UserPresence.user_id mine u (user_presence d)
                mine_spec Hnd Hex) as [r Hr].
    rewrite Hr. simpl. eexists. split; [reflexivity|].
    assert (Hm : mine r = true).
    { assert (Hin : In r (filter mine (user_presence d))) by (rewrite Hr; now left).
      now apply filter_In in Hin. }
    unfold PresenceService.put. unfold mine in Hm. rewrite Hm. simpl.
    repeat split.
  - destruct Hcan as [Hcan|Hcan]; [discriminate|]. rewrite Hcan.
    cbn [commit user_presence with_user_presence].
    rewrite filter_app, (filter_none _ _ Hex). simpl.
    unfold mine at 1. simpl. rewrite uuid_eqb_refl.
    eexists. split; [reflexivity|]. repeat split.
Qed.

Lemma write_keeps_row d e u' st :
  existsb mine (user_presence d) = true ->
  existsb mine (user_presence (PresenceRest.write d e u' st)) = true.
Proof.
  intros Hex. apply existsb_exists in Hex as (r & Hin & Hr).
  unfold PresenceRest.write, PresenceService.updatePresence,
    PresenceService.upsert_presence.
  destruct (existsb (fun r => uuid_eqb (UserPresence.user_id r) u') (user_presence d)).
  - cbn [commit user_presence with_user_presence].
    apply existsb_exists. exists (PresenceService.put u' st (PresenceRest.r_seen e)
                                    (PresenceRest.r_updated e) r).
    split; [now apply in_map|]. unfold mine. now rewrite put_user_id.
  - destruct (existsb (fun r => uuid_eqb (UserPresence.id r) (PresenceRest.r_fresh e))
                      (user_presence d));
      cbn [commit user_presence with_user_presence].
    + apply existsb_exists. now exists r.
    + rewrite existsb_app. replace (existsb mine (user_presence d)) with true.
      * reflexivity.
      * symmetry. apply existsb_exists. now exists r.
Qed.

End PresenceReads.

(** X12.  With at most one row per user, and a row for the user or an id
    that is free, [updatePresence] followed by [getUserPresence] returns a
    row with the status and the two times written; what
    [getMultipleUserPresence] returns for that user alone is that row; and
    what [getUserPresence] returns for any other user is what it returned
    before. *)
Theorem presence_written_then_read :
  forall (d : db) (fresh userId : uuid) (st : PresenceStatus)
         (t_seen t_updated : timestamptz),
    NoDup (presence_keys d) ->
    existsb (fun r => uuid_eqb (UserPresence.user_id r) userId) (user_presence d)
    = true
    \/ existsb (fun r => uuid_eqb (UserPresence.id r) fresh) (user_presence d)
       = false ->
    let d' := PresenceService.updatePresence d fresh userId st t_seen t_updated in
    (exists r,
        PresenceRest.getUserPresence d' userId = Some r
        /\ PresenceRest.getMultipleUserPresence d' [userId] = [r]
        /\ UserPresence.user_id r = userId
        /\ UserPresence.status r = st
        /\ UserPresence.last_seen r = t_seen
        /\ UserPresence.updated_at r = t_updated)
    /\ (forall other, other <> userId ->
                      PresenceRest.getUserPresence d' other
                      = PresenceRest.getUserPresence d other).
Proof.
  intros d fresh userId st t_seen t_updated Hnd Hcan d'.
  set (e := {| PresenceRest.r_fresh := fresh; PresenceRest.r_seen := t_seen;
               PresenceRest.r_updated := t_updated |}).
  change d' with (PresenceRest.write d e userId st). split.
  - destruct (write_mine userId d e st Hnd Hcan) as (r & Hr & Hu & Hs & H1 & H2).
    exists r. unfold PresenceRest.getUserPresence. rewrite Hr.
    repeat split; trivial.
    unfold PresenceRest.getMultipleUserPresence.
    unfold PresenceService.presence_rows in Hr. rewrite <- Hr.
    apply filter_ext. intros x. simpl. apply orb_false_r.
  - intros other Hne. unfold PresenceRest.getUserPresence.
    rewrite (write_other other d e userId st); [reflexivity|].
    congruence.
Qed.

Lemma presence_written_then_read_witness :
  option_map UserPresence.status
    (PresenceRest.getUserPresence
       (PresenceService.updatePresence
          (PresenceService.updatePresence Sample.empty_db "p1" Sample.alice online 10 10)
          "p2" Sample.alice away 20 21)
       Sample.alice)
  = Some away.
Proof.
  destruct (proj1 (presence_written_then_read
                     (PresenceService.updatePresence Sample.empty_db "p1"
                        Sample.alice online 10 10)
                     "p2" Sample.alice away 20 21
                     ltac:(repeat constructor; intros [])
                     ltac:(left; reflexivity)))
    as (r & Hr & _ & _ & Hs & _).
  rewrite Hr. simpl. now rewrite Hs.
Defined.

(** ** The heartbeat *)

Lemma stopHeartbeat_state e userId s d :
  PresenceRest.one_interval s ->
  PresenceRest.heartbeatInterval (fst (PresenceRest.stopHeartbeat e userId s d)) = None
  /\ PresenceRest.intervals (fst (PresenceRest.stopHeartbeat e userId s d)) = []
  /\ PresenceRest.visibility_listeners (fst (PresenceRest.stopHeartbeat e userId s d))
     = PresenceRest.visibility_listeners s
  /\ PresenceRest.unload_listeners (fst (PresenceRest.stopHeartbeat e userId s d))
     = PresenceRest.unload_listeners s.
Proof.
  unfold PresenceRest.one_interval, PresenceRest.stopHeartbeat. intros H.
  assert (Hs : forall s1 : PresenceRest.state,
             fst (match PresenceRest.given userId with
                  | Some u0 => (s1, PresenceRest.write d e u0 offline)
                  | None => (s1, d)
                  end) = s1)
    by (intros s1; now destruct (PresenceRest.given userId)).
  rewrite Hs.
  destruct (PresenceRest.heartbeatInterval s) as [h|] eqn:Eh.
  - cbn [PresenceRest.heartbeatInterval PresenceRest.intervals
           PresenceRest.visibility_listeners PresenceRest.unload_listeners].
    repeat split.
    destruct (PresenceRest.intervals s) as [|[h0 u0] [|i l]]; try discriminate.
    injection H as ->. simpl. now rewrite N.eqb_refl.
  - rewrite Eh. repeat split.
    now destruct (PresenceRest.intervals s).
Qed.

Lemma apply_event_state ev sd :
  PresenceRest.one_interval (fst sd) ->
  PresenceRest.unload_listeners (fst sd) = PresenceRest.visibility_listeners (fst sd) ->
  let sd' := PresenceRest.apply_event ev sd in
  PresenceRest.one_interval (fst sd')
  /\ PresenceRest.unload_listeners (fst sd') = PresenceRest.visibility_listeners (fst sd')
  /\ List.length (PresenceRest.visibility_listeners (fst sd'))
     = (List.length (PresenceRest.visibility_listeners (fst sd))
        + PresenceRest.starts [ev])%nat.
Proof.
  destruct sd as [s d]. cbn [fst]. intros H1 H2.
  destruct ev as [h e u|e u|h e|hidden env|env]; cbn [PresenceRest.apply_event
    PresenceRest.starts].
  - unfold PresenceRest.startHeartbeat. cbn [fst].
    destruct (stopHeartbeat_state e None s d H1) as (_ & Hi & Hv & Hu).
    rewrite Hi, Hv, Hu, H2. unfold PresenceRest.one_interval. simpl.
    repeat split. rewrite length_app. reflexivity.
  - destruct (stopHeartbeat_state e u s d H1) as (Hh & Hi & Hv & Hu).
    unfold PresenceRest.one_interval. rewrite Hh, Hi, Hv, Hu.
    repeat split; trivial; lia.
  - destruct (find _ (PresenceRest.intervals s)) as [[h0 u0]|]; cbn [fst];
      repeat split; trivial; lia.
  - cbn [fst]. repeat split; trivial; lia.
  - cbn [fst]. repeat split; trivial; lia.
Qed.

(** X13.  Whatever the sequence of [startHeartbeat] and [stopHeartbeat]
    calls, interval ticks, visibility changes and unloads, from the state
    of a page just loaded: at most one interval runs, the one
    [heartbeatInterval] holds (none after a stop); the listeners are never
    removed, there is one [visibilitychange] and one [beforeunload]
    listener for each [startHeartbeat] so far. *)
Theorem one_heartbeat_interval_and_listeners_pile_up :
  forall (evs : list PresenceRest.event) (d : db),
    let s := fst (PresenceRest.run evs (PresenceRest.initial, d)) in
    PresenceRest.one_interval s
    /\ (List.length (PresenceRest.intervals s) <= 1)%nat
    /\ List.length (PresenceRest.visibility_listeners s) = PresenceRest.starts evs
    /\ PresenceRest.unload_listeners s = PresenceRest.visibility_listeners s.
Proof.
  intros evs d.
  assert (G : forall evs sd,
             PresenceRest.one_interval (fst sd) ->
             PresenceRest.unload_listeners (fst sd)
             = PresenceRest.visibility_listeners (fst sd) ->
             let s := fst (PresenceRest.run evs sd) in
             PresenceRest.one_interval s
             /\ PresenceRest.unload_listeners s = PresenceRest.visibility_listeners s
             /\ List.length (PresenceRest.visibility_listeners s)
                = (List.length (PresenceRest.visibility_listeners (fst sd))
                   + PresenceRest.starts evs)%nat).
  { clear. induction evs as [|ev evs IH]; intros sd H1 H2.
    - simpl. repeat split; trivial; lia.
    - destruct (apply_event_state ev sd H1 H2) as (H1' & H2' & Hl).
      destruct (IH _ H1' H2') as (Ha & Hb & Hc).
      cbn [PresenceRest.run]. repeat split; trivial.
      rewrite Hc, Hl. simpl PresenceRest.starts.
      destruct ev; simpl; lia. }
  destruct (G evs (PresenceRest.initial, d) eq_refl eq_refl) as (Ha & Hb & Hc).
  cbv zeta. repeat split; trivial.
  unfold PresenceRest.one_interval in Ha.
  rewrite <- (length_map fst), Ha.
  destruct (PresenceRest.heartbeatInterval _); simpl; lia.
Qed.

Lemma presence_rows_exists d u r l :
  PresenceService.presence_rows d u = r :: l ->
  existsb (fun x => uuid_eqb (UserPresence.user_id x) u) (user_presence d) = true.
Proof.
  intros H. apply existsb_exists. exists r.
  apply (proj1 (filter_In (fun x => uuid_eqb (UserPresence.user_id x) u) r
                          (user_presence d))).
  unfold PresenceService.presence_rows in H. rewrite H. now left.
Qed.

Lemma write_status d e u st :
  NoDup (presence_keys d) ->
  existsb (fun x => uuid_eqb (UserPresence.user_id x) u) (user_presence d) = true ->
  PresenceRest.status_of (PresenceRest.write d e u st) u = Some st.
Proof.
  intros Hnd Hex.
  destruct (write_mine u d e st Hnd (or_introl Hex)) as (r & Hr & _ & Hs & _).
  unfold PresenceRest.status_of, PresenceRest.getUserPresence.
  rewrite Hr. simpl. now rewrite Hs.
Qed.

Lemma notify_status u st env users :
  forall i d,
    NoDup (presence_keys d) ->
    existsb (fun x => uuid_eqb (UserPresence.user_id x) u) (user_presence d) = true ->
    In u users \/ PresenceRest.status_of d u = Some st ->
    PresenceRest.status_of (PresenceRest.notify st env i users d) u = Some st.
Proof.
  induction users as [|x users IH]; intros i d Hnd Hex Hor; simpl.
  - now destruct Hor.
  - apply IH.
    + now apply updatePresence_keeps_unique.
    + now apply write_keeps_row.
    + destruct (uuid_eqb x u) eqn:E.
      * apply uuid_eqb_eq in E. subst x. right. now apply write_status.
      * apply uuid_eqb_neq in E. destruct Hor as [[Hx|Hin]|Hst];
          [contradiction|now left|right].
        unfold PresenceRest.status_of, PresenceRest.getUserPresence in *.
        now rewrite (write_other u d (env i) x st E).
Qed.

(** X14.  [stopHeartbeat(userId)] clears the interval and writes
    ['offline'], but the listeners [startHeartbeat] added stay: when the
    page becomes visible again after the stop, the user's status is
    written ['online'] again. *)
Theorem visibility_change_after_stop_writes_online :
  forall (s : PresenceRest.state) (d : db) (h : N) (e1 e2 : PresenceRest.reading)
         (env : nat -> PresenceRest.reading) (u : uuid),
    NoDup (presence_keys d) ->
    u <> EmptyString ->
    existsb (fun x => uuid_eqb (UserPresence.user_id x) u) (user_presence d) = true
    \/ existsb (fun x => uuid_eqb (UserPresence.id x) (PresenceRest.r_fresh e1))
               (user_presence d) = false ->
    let sd1 := PresenceRest.startHeartbeat h e1 u s d in
    let sd2 := PresenceRest.stopHeartbeat e2 (Some u) (fst sd1) (snd sd1) in
    let sd3 := PresenceRest.apply_event (PresenceRest.VisibilityChange false env) sd2 in
    PresenceRest.heartbeatInterval (fst sd2) = None
    /\ PresenceRest.status_of (snd sd1) u = Some online
    /\ PresenceRest.status_of (snd sd2) u = Some offline
    /\ PresenceRest.status_of (snd sd3) u = Some online.
Proof.
  intros s d h e1 e2 env u Hnd Hu Hcan sd1 sd2 sd3.
  destruct (write_mine u d e1 online Hnd Hcan) as (r & Hr & _ & Hs & _).
  assert (Hnd1 : NoDup (presence_keys (snd sd1)))
    by now apply updatePresence_keeps_unique.
  assert (Hex1 : existsb (fun x => uuid_eqb (UserPresence.user_id x) u)
                         (user_presence (snd sd1)) = true)
    by (apply (presence_rows_exists _ _ r []); exact Hr).
  assert (Hsd2 : sd2 = ({| PresenceRest.heartbeatInterval := None;
                           PresenceRest.intervals :=
                             filter (fun i => negb (N.eqb (fst i) h))
                                    (PresenceRest.intervals (fst sd1));
                           PresenceRest.visibility_listeners :=
                             PresenceRest.visibility_listeners (fst sd1);
                           PresenceRest.unload_listeners :=
                             PresenceRest.unload_listeners (fst sd1) |},
                        PresenceRest.write (snd sd1) e2 u offline)).
  { unfold sd2, PresenceRest.stopHeartbeat.
    destruct u; [contradiction|]. reflexivity. }
  split; [now rewrite Hsd2|]. split; [|split].
  - unfold PresenceRest.status_of, PresenceRest.getUserPresence.
    cbn [sd1 PresenceRest.startHeartbeat snd]. rewrite Hr. simpl. now rewrite Hs.
  - rewrite Hsd2. cbn [snd]. now apply write_status.
  - unfold sd3. rewrite Hsd2. cbn [PresenceRest.apply_event snd fst
      PresenceRest.visibility_listeners].
    apply notify_status.
    + now apply updatePresence_keeps_unique.
    + now apply write_keeps_row.
    + left. cbn [sd1 PresenceRest.startHeartbeat fst
                   PresenceRest.visibility_listeners].
      apply in_or_app. right. now left.
Qed.

Lemma visibility_change_after_stop_writes_online_witness :
  let e := fun t => {| PresenceRest.r_fresh := "p1"; PresenceRest.r_seen := t;
                       PresenceRest.r_updated := t |} in
  let sd1 := PresenceRest.startHeartbeat 1 (e 10) Sample.alice PresenceRest.initial
               Sample.empty_db in
  let sd2 := PresenceRest.stopHeartbeat (e 20) (Some Sample.alice) (fst sd1) (snd sd1) in
  PresenceRest.status_of
    (snd (PresenceRest.apply_event
            (PresenceRest.VisibilityChange false (fun _ => e 30)) sd2))
    Sample.alice
  = Some online.
Proof.
  cbv zeta.
  refine (proj2 (proj2 (proj2
    (visibility_change_after_stop_writes_online PresenceRest.initial Sample.empty_db
       1 _ _ _ Sample.alice _ _ _)))).
  - constructor.
  - discriminate.
  - right. reflexivity.
Defined.

(** ** The last-seen text *)

(** X15.  [getLastSeenText]: less than a minute ago, or in the future,
    reads ["Just now"]; from one minute on the text is the number of whole
    minutes, from 1 to 59, from one hour on the number of whole hours,
    from 1 to 23, from one day on the number of whole days, from 1 to 6,
    and from seven days on the date. *)
Theorem getLastSeenText_buckets :
  forall (toLocaleDateString : timestamptz -> string) (now lastSeen : timestamptz),
    let diff := now - lastSeen in
    let text := PresenceRest.getLastSeenText toLocaleDateString now lastSeen in
    (diff < 60000 -> text = "Just now"%string)
    /\ (60000 <= diff < 3600000 ->
        exists m, 1 <= m <= 59 /\ m * 60000 <= diff < (m + 1) * 60000
                  /\ text = (JS.toString m ++ "m ago")%string)
    /\ (3600000 <= diff < 86400000 ->
        exists h, 1 <= h <= 23 /\ h * 3600000 <= diff < (h + 1) * 3600000
                  /\ text = (JS.toString h ++ "h ago")%string)
    /\ (86400000 <= diff < 604800000 ->
        exists n, 1 <= n <= 6 /\ n * 86400000 <= diff < (n + 1) * 86400000
                  /\ text = (JS.toString n ++ "d ago")%string)
    /\ (604800000 <= diff -> text = toLocaleDateString lastSeen).
Proof.
  intros f now lastSeen diff text. subst text.
  unfold PresenceRest.getLastSeenText. fold diff.
  pose proof (Z.div_mod diff 60000 ltac:(lia)) as Em.
  pose proof (Z.mod_pos_bound diff 60000 ltac:(lia)) as Bm.
  pose proof (Z.div_mod diff 3600000 ltac:(lia)) as Eh.
  pose proof (Z.mod_pos_bound diff 3600000 ltac:(lia)) as Bh.
  pose proof (Z.div_mod diff 86400000 ltac:(lia)) as Ed.
  pose proof (Z.mod_pos_bound diff 86400000 ltac:(lia)) as Bd.
  set (m := diff / 60000) in *. set (h := diff / 3600000) in *.
  set (n := diff / 86400000) in *.
  repeat split.
  - intros H. assert (E : (m <? 1) = true) by (apply Z.ltb_lt; lia).
    now rewrite E.
  - intros H. exists m.
    assert (E1 : (m <? 1) = false) by (apply Z.ltb_ge; lia).
    assert (E2 : (m <? 60) = true) by (apply Z.ltb_lt; lia).
    rewrite E1, E2. repeat split; lia.
  - intros H. exists h.
    assert (E1 : (m <? 1) = false) by (apply Z.ltb_ge; lia).
    assert (E2 : (m <? 60) = false) by (apply Z.ltb_ge; lia).
    assert (E3 : (h <? 24) = true) by (apply Z.ltb_lt; lia).
    rewrite E1, E2, E3. repeat split; lia.
  - intros H. exists n.
    assert (E1 : (m <? 1) = false) by (apply Z.ltb_ge; lia).
    assert (E2 : (m <? 60) = false) by (apply Z.ltb_ge; lia).
    assert (E3 : (h <? 24) = false) by (apply Z.ltb_ge; lia).
    assert (E4 : (n <? 7) = true) by (apply Z.ltb_lt; lia).
    rewrite E1, E2, E3, E4. repeat split; lia.
  - intros H.
    assert (E1 : (m <? 1) = false) by (apply Z.ltb_ge; lia).
    assert (E2 : (m <? 60) = false) by (apply Z.ltb_ge; lia).
    assert (E3 : (h <? 24) = false) by (apply Z.ltb_ge; lia).
    assert (E4 : (n <? 7) = false) by (apply Z.ltb_ge; lia).
    now rewrite E1, E2, E3, E4.
Qed.

Lemma getLastSeenText_buckets_witness :
  PresenceRest.getLastSeenText (fun _ => "1/1/2026"%string) 7260000 0
  = "2h ago"%string
  /\ PresenceRest.getLastSeenText (fun _ => "1/1/2026"%string) 0 5000
     = "Just now"%string.
Proof.
  split.
  - destruct (proj1 (proj2 (proj2
               (getLastSeenText_buckets (fun _ => "1/1/2026"%string) 7260000 0))))
      as (h & _ & Hb & ->); [lia|].
    assert (h = 2) as -> by lia. reflexivity.
  - apply (proj1 (getLastSeenText_buckets (fun _ => "1/1/2026"%string) 0 5000)).
    lia.
Defined.

(** ** Files *)

(** X16.  [validateFile] accepts a file exactly when its size is at most
    52428800 bytes and its type is in [ALLOWED_TYPES]; it gives an error
    message exactly when it rejects; and a file that is too large is
    reported as too large whatever its type. *)
Theorem validateFile_accepts_exactly :
  forall (file : FileService.File),
    (FileService.valid (FileService.validateFile file) = true
     <-> FileService.size file <= 52428800
         /\ In (FileService.type file) FileService.ALLOWED_TYPES)
    /\ (FileService.error (FileService.validateFile file) = None
        <-> FileService.valid (FileService.validateFile file) = true)
    /\ (52428800 < FileService.size file ->
        FileService.error (FileService.validateFile file)
        = Some "File size exceeds 50MB limit"%string).
Proof.
  intros file. unfold FileService.validateFile.
  change (FileService.MAX_FILE_SIZE <? FileService.size file)
    with (52428800 <? FileService.size file).
  destruct (52428800 <? FileService.size file) eqn:Hs.
  - apply Z.ltb_lt in Hs. cbn [FileService.valid FileService.error].
    split; [split; [discriminate|intros [H _]; lia]|].
    split; [split; discriminate|reflexivity].
  - apply Z.ltb_ge in Hs.
    destruct (FileService.includes FileService.ALLOWED_TYPES (FileService.type file))
      eqn:Hi; cbn [negb FileService.valid FileService.error].
    + apply includes_spec in Hi.
      split; [split; [intros _; split; [lia|exact Hi]|reflexivity]|].
      split; [split; reflexivity|intros H; lia].
    + split; [split; [discriminate|]|].
      * intros [_ H]. apply includes_spec in H. congruence.
      * split; [split; discriminate|intros H; lia].
Qed.

Lemma validateFile_accepts_exactly_witness :
  FileService.valid (FileService.validateFile (Sample.png 52428800)) = true
  /\ FileService.error (FileService.validateFile
                          {| FileService.name := "a.exe"; FileService.size := 52428801;
                             FileService.type := "application/x-msdownload" |})
     = Some "File size exceeds 50MB limit"%string.
Proof.
  split.
  - apply (proj1 (validateFile_accepts_exactly (Sample.png 52428800))).
    split; [simpl; lia|]. simpl. tauto.
  - apply (proj2 (proj2 (validateFile_accepts_exactly _))). simpl. lia.
Defined.

Lemma upload_spec st filePath file :
  (existsb (fun o => String.eqb (fst o) filePath) st = true
   /\ FileService.upload st filePath file = None)
  \/ (~ In filePath (map fst st)
      /\ FileService.upload st filePath file = Some (st ++ [(filePath, file)])).
Proof.
  unfold FileService.upload.
  destruct (existsb (fun o => String.eqb (fst o) filePath) st) eqn:E.
  - left. now split.
  - right. split; [|reflexivity]. intros Hin.
    apply in_map_iff in Hin as (o & Ho & Hin).
    assert (Ht : existsb (fun o => String.eqb (fst o) filePath) st = true).
    { apply existsb_exists. exists o. split; [exact Hin|].
      rewrite Ho. apply String.eqb_refl. }
    congruence.
Qed.

(** X17.  [uploadFile] never replaces or removes an object of the bucket:
    the bucket it leaves is the one it found, with at most one object
    added at the end.  It returns only when the file is valid and nothing
    is stored at the path [channelId/timestamp-rnd.ext]; the result then
    carries that path, its public url and the type, name and size of the
    file, and the file is what was added.  With a valid file and the path
    taken it throws ["Failed to upload file"] and adds nothing. *)
Theorem uploadFile_adds_one_object :
  forall (getPublicUrl : string -> string) (timestamp : Z) (rnd : string)
         (file : FileService.File) (channelId userId : uuid)
         (st : FileService.storage),
    let filePath := FileRest.filePath_of timestamp rnd file channelId in
    let r := FileService.uploadFile getPublicUrl timestamp rnd file channelId
               userId st in
    (exists added, snd r = st ++ added /\ (List.length added <= 1)%nat)
    /\ (forall res,
          fst r = FileService.returned res ->
          FileService.valid (FileService.validateFile file) = true
          /\ ~ In filePath (map fst st)
          /\ snd r = st ++ [(filePath, file)]
          /\ FileService.path res = filePath
          /\ FileService.url res = FileRest.getFileUrl getPublicUrl filePath
          /\ FileService.res_type res = FileService.type file
          /\ FileService.res_name res = FileService.name file
          /\ FileService.res_size res = FileService.size file)
    /\ (FileService.valid (FileService.validateFile file) = true ->
        In filePath (map fst st) ->
        r = (FileService.thrown (Some "Failed to upload file"%string), st)).
Proof.
  intros getPublicUrl timestamp rnd file channelId userId st filePath r.
  subst r. unfold FileService.uploadFile.
  destruct (FileService.valid (FileService.validateFile file)) eqn:Hv;
    cbn [negb].
  - fold (FileRest.filePath_of timestamp rnd file channelId). fold filePath.
    destruct (upload_spec st filePath file) as [[Hex ->]|[Hfree ->]];
      cbn [fst snd].
    + split; [exists []; rewrite app_nil_r; split; [reflexivity|simpl; lia]|].
      split; [discriminate|reflexivity].
    + split; [exists [(filePath, file)]; split; [reflexivity|simpl; lia]|].
      split.
      * intros res [= <-]. repeat split; trivial.
      * intros _ Hin. contradiction.
  - cbn [fst snd].
    split; [exists []; rewrite app_nil_r; split; [reflexivity|simpl; lia]|].
    split; discriminate.
Qed.

Lemma uploadFile_adds_one_object_witness :
  snd (FileService.uploadFile (fun p => p) 1700000000000 "k3x9" (Sample.png 10)
         "channel-1" Sample.alice [])
  = [("channel-1/1700000000000-k3x9.png"%string, Sample.png 10)].
Proof.
  destruct (proj1 (proj2
             (uploadFile_adds_one_object (fun p => p) 1700000000000 "k3x9"
                (Sample.png 10) "channel-1" Sample.alice []))
             {| FileService.url := "channel-1/1700000000000-k3x9.png";
                FileService.path := "channel-1/1700000000000-k3x9.png";
                FileService.res_type := "image/png";
                FileService.res_name := "photo.png";
                FileService.res_size := 10 |} eq_refl)
    as (_ & _ & E & _).
  exact E.
Defined.

Lemma deleteFile_absent filePath st :
  ~ In filePath (map fst st) -> FileRest.deleteFile filePath st = st.
Proof.
  intros H. unfold FileRest.deleteFile.
  induction st as [|o st IH]; simpl; [reflexivity|].
  destruct (String.eqb (fst o) filePath) eqn:E.
  - apply String.eqb_eq in E. exfalso. apply H. left. exact E.
  - simpl. f_equal. apply IH. intros Hin. apply H. now right.
Qed.

(** X18.  The [path] of the result of a successful [uploadFile] is the
    one [deleteFile] needs: deleting at it gives back the bucket as it
    was before the upload, every earlier object still there. *)
Theorem deleteFile_undoes_uploadFile :
  forall (getPublicUrl : string -> string) (timestamp : Z) (rnd : string)
         (file : FileService.File) (channelId userId : uuid)
         (st : FileService.storage) (res : FileService.FileUploadResult),
    fst (FileService.uploadFile getPublicUrl timestamp rnd file channelId userId st)
    = FileService.returned res ->
    FileRest.deleteFile (FileService.path res)
      (snd (FileService.uploadFile getPublicUrl timestamp rnd file channelId
              userId st))
    = st.
Proof.
  intros getPublicUrl timestamp rnd file channelId userId st res.
  unfold FileService.uploadFile.
  destruct (negb (FileService.valid (FileService.validateFile file)));
    [discriminate|].
  destruct (upload_spec st
              (channelId ++ "/" ++ JS.toString timestamp ++ "-" ++ rnd ++ "."
               ++ FileService.fileExt_of (FileService.name file))%string file)
    as [[_ ->]|[Hfree ->]]; [discriminate|].
  cbn [fst snd]. intros [= <-]. cbn [FileService.path].
  unfold FileRest.deleteFile. rewrite filter_app. simpl.
  rewrite String.eqb_refl. simpl. rewrite app_nil_r.
  now apply deleteFile_absent.
Qed.

Lemma deleteFile_undoes_uploadFile_witness :
  FileRest.deleteFile "channel-1/1700000000000-k3x9.png"
    (snd (FileService.uploadFile (fun p => p) 1700000000000 "k3x9" (Sample.png 10)
            "channel-1" Sample.alice []))
  = [].
Proof.
  apply (deleteFile_undoes_uploadFile (fun p => p) 1700000000000 "k3x9"
           (Sample.png 10) "channel-1" Sample.alice []
           {| FileService.url := "channel-1/1700000000000-k3x9.png";
              FileService.path := "channel-1/1700000000000-k3x9.png";
              FileService.res_type := "image/png";
              FileService.res_name := "photo.png";
              FileService.res_size := 10 |} eq_refl).
Defined.

Lemma last_segment_no_dot (cs acc : list ascii) :
  ~ In "."%char cs ->
  FileService.last_segment cs acc = (rev acc ++ cs)%list.
Proof.
  revert acc. induction cs as [|c cs IH]; intros acc Hn; simpl.
  - now rewrite app_nil_r.
  - destruct (Ascii.eqb c ".") eqn:E.
    + apply Ascii.eqb_eq in E. exfalso. apply Hn. left. exact E.
    + rewrite IH by (intros H; apply Hn; now right).
      simpl. now rewrite <- app_assoc.
Qed.

Lemma last_segment_after_dot (pre suf acc : list ascii) :
  FileService.last_segment (pre ++ "."%char :: suf) acc
  = FileService.last_segment suf [].
Proof.
  revert acc. induction pre as [|c pre IH]; intros acc; simpl.
  - reflexivity.
  - destruct (Ascii.eqb c "."); apply IH.
Qed.

Lemma last_segment_has_no_dot (cs acc : list ascii) :
  ~ In "."%char acc -> ~ In "."%char (FileService.last_segment cs acc).
Proof.
  revert acc. induction cs as [|c cs IH]; intros acc Hn; simpl.
  - now rewrite <- in_rev.
  - destruct (Ascii.eqb c ".") eqn:E.
    + apply IH. intros [].
    + apply IH. intros [H|H]; [|now apply Hn].
      apply Ascii.eqb_neq in E. congruence.
Qed.

Lemma list_ascii_of_string_app (a b : string) :
  list_ascii_of_string (a ++ b)
  = (list_ascii_of_string a ++ list_ascii_of_string b)%list.
Proof. induction a as [|c a IH]; simpl; [reflexivity|now rewrite IH]. Qed.

(** X19.  The extension [uploadFile] puts in the stored path (the last
    piece of [file.name.split('.')]) never contains a dot; it is what
    follows the last dot of the name, so the empty string for a name that
    ends in a dot; and for a name without any dot it is the whole name. *)
Theorem fileExt_of_is_after_the_last_dot :
  forall (n : string),
    ~ In "."%char (list_ascii_of_string (FileService.fileExt_of n))
    /\ (~ In "."%char (list_ascii_of_string n) -> FileService.fileExt_of n = n)
    /\ (forall pre suf : string,
          n = (pre ++ "." ++ suf)%string ->
          ~ In "."%char (list_ascii_of_string suf) ->
          FileService.fileExt_of n = suf).
Proof.
  intros n. unfold FileService.fileExt_of. split; [|split].
  - rewrite list_ascii_of_string_of_list_ascii.
    apply last_segment_has_no_dot. intros [].
  - intros Hn. rewrite last_segment_no_dot by exact Hn. simpl.
    apply string_of_list_ascii_of_string.
  - intros pre suf -> Hn.
    rewrite list_ascii_of_string_app. cbn [list_ascii_of_string append].
    rewrite last_segment_after_dot, last_segment_no_dot by exact Hn. simpl.
    apply string_of_list_ascii_of_string.
Qed.

Lemma fileExt_of_is_after_the_last_dot_witness :
  FileService.fileExt_of "README" = "README"%string
  /\ FileService.fileExt_of "archive.tar.gz" = "gz"%string
  /\ FileService.fileExt_of "notes." = EmptyString.
Proof.
  split; [|split].
  - apply (proj1 (proj2 (fileExt_of_is_after_the_last_dot "README"))).
    simpl. intros H. repeat destruct H as [H|H]; try discriminate H; exact H.
  - apply (proj2 (proj2 (fileExt_of_is_after_the_last_dot "archive.tar.gz"))
             "archive.tar"%string "gz"%string); [reflexivity|].
    simpl. intros H. repeat destruct H as [H|H]; try discriminate H; exact H.
  - apply (proj2 (proj2 (fileExt_of_is_after_the_last_dot "notes."))
             "notes"%string EmptyString); [reflexivity|].
    simpl. intros H. exact H.
Defined.

Lemma renderIcon_of_other_types (fileType : string) :
  FileRest.isImageFile fileType = false ->
  FileRest.isVideoFile fileType = false ->
  FileRest.isAudioFile fileType = false ->
  FileRest.renderIcon fileType
  = if String.eqb fileType "application/pdf"
       || FileRest.str_includes "word" fileType
    then "FileText"%string else "FileIcon"%string.
Proof.
  intros Hi Hv Ha. unfold FileRest.renderIcon, FileRest.getFileIcon.
  rewrite Hi, Hv, Ha.
  destruct (String.eqb fileType "application/pdf"); [reflexivity|].
  destruct (FileRest.str_includes "word" fileType); [reflexivity|].
  cbn [orb].
  destruct (FileRest.str_includes "excel" fileType
            || FileRest.str_includes "sheet" fileType); [reflexivity|].
  destruct (FileRest.str_includes "powerpoint" fileType
            || FileRest.str_includes "presentation" fileType); reflexivity.
Qed.

(** X20.  When [MessageAttachment] draws the download link, the type is
    no image, video or audio type, and the icon is [FileText] for
    ["application/pdf"] and for a type that contains ["word"], and the
    generic [FileIcon] for every other type: the names ["Table"] and
    ["Presentation"] of [getFileIcon] have no case in [renderIcon], and
    its cases for ["Image"], ["Video"] and ["Music"] are never reached. *)
Theorem download_icon_is_FileText_or_FileIcon :
  forall (fileType icon : string),
    FileRest.MessageAttachment fileType = FileRest.download icon ->
    FileRest.isImageFile fileType = false
    /\ FileRest.isVideoFile fileType = false
    /\ FileRest.isAudioFile fileType = false
    /\ icon = (if String.eqb fileType "application/pdf"
                  || FileRest.str_includes "word" fileType
               then "FileText"%string else "FileIcon"%string)
    /\ (In (FileRest.getFileIcon fileType)
           ["Table"%string; "Presentation"%string; "File"%string] ->
        icon = "FileIcon"%string).
Proof.
  intros fileType icon. unfold FileRest.MessageAttachment.
  destruct (FileRest.isImageFile fileType) eqn:Hi; [discriminate|].
  destruct (FileRest.isVideoFile fileType) eqn:Hv; [discriminate|].
  destruct (FileRest.isAudioFile fileType) eqn:Ha; [discriminate|].
  intros [= <-]. do 3 (split; [reflexivity|]).
  split; [now apply renderIcon_of_other_types|].
  unfold FileRest.renderIcon. intros [<-|[<-|[<-|[]]]]; reflexivity.
Qed.

Lemma download_icon_is_FileText_or_FileIcon_witness :
  FileRest.getFileIcon "application/vnd.ms-excel" = "Table"%string
  /\ FileRest.MessageAttachment "application/vnd.ms-excel"
     = FileRest.download "FileIcon".
Proof.
  split; [reflexivity|].
  assert (H : FileRest.MessageAttachment "application/vnd.ms-excel"
              = FileRest.download
                  (FileRest.renderIcon "application/vnd.ms-excel"))
    by reflexivity.
  rewrite H. apply f_equal.
  apply (proj2 (proj2 (proj2 (proj2
           (download_icon_is_FileText_or_FileIcon _ _ H))))).
  left. reflexivity.
Defined.

(** ** Notifications *)

Lemma shouldSendNotification_spec (b : NotificationService.browser) :
  NotificationService.shouldSendNotification b = true
  <-> NotificationService.supported b = true
      /\ NotificationService.permission b = NotificationService.granted
      /\ NotificationService.hidden b = true.
Proof.
  unfold NotificationService.shouldSendNotification,
    NotificationService.isNotificationSupported.
  rewrite !andb_true_iff.
  destruct (NotificationService.permission b); simpl;
    intuition (try discriminate; try reflexivity).
Qed.

Lemma sendNotification_some (b : NotificationService.browser)
    (title : JS.jsstring) (o : option NotificationService.options) :
  NotificationService.sendNotification b title o <> None
  <-> NotificationService.shouldSendNotification b = true
      /\ NotificationService.constructor_throws b = false.
Proof.
  rewrite shouldSendNotification_spec.
  unfold NotificationService.sendNotification,
    NotificationService.isNotificationSupported.
  destruct (NotificationService.supported b),
    (NotificationService.permission b),
    (NotificationService.hidden b),
    (NotificationService.constructor_throws b); simpl;
    intuition (try discriminate; try congruence).
Qed.

Lemma body_of_spec (content : JS.jsstring) :
  (List.length (NotificationService.body_of content) <= 103)%nat
  /\ firstn 100 (NotificationService.body_of content) = firstn 100 content
  /\ ((List.length content <= 100)%nat ->
      NotificationService.body_of content = content)
  /\ ((100 < List.length content)%nat ->
      NotificationService.body_of content
      = (firstn 100 content ++ JS.lit "...")%list).
Proof.
  unfold NotificationService.body_of.
  destruct (100 <? List.length content)%nat eqn:E.
  - apply Nat.ltb_lt in E.
    assert (Hl : List.length (firstn 100 content) = 100%nat)
      by (rewrite length_firstn; lia).
    split; [|split; [|split]].
    + rewrite length_app, Hl. simpl. lia.
    + rewrite firstn_app, Hl. replace (100 - 100)%nat with 0%nat by lia.
      rewrite firstn_O, app_nil_r. apply firstn_firstn.
    + intros H. lia.
    + reflexivity.
  - apply Nat.ltb_ge in E. split; [lia|]. split; [reflexivity|].
    split; [reflexivity|]. intros H. lia.
Qed.

(** X21.  [sendMessageNotification] creates a notification exactly when
    [shouldSendNotification] holds (notifications supported, permission
    granted, page hidden) and the constructor does not throw.  The
    notification it creates is closed after 5000 ms, has the default
    icon, the tag ["message-"] followed by the channel id, and a body of
    at most 103 code units: the message content itself when that has at
    most 100 code units, otherwise its first 100 followed by ["..."]. *)
Theorem message_notification_is_gated_and_short :
  forall (b : NotificationService.browser)
         (senderName content personaName : JS.jsstring)
         (d : NotificationService.NotificationData),
    (NotificationService.sendMessageNotification b senderName content
       personaName d <> None
     <-> NotificationService.shouldSendNotification b = true
         /\ NotificationService.constructor_throws b = false)
    /\ (forall n t,
          NotificationService.sendMessageNotification b senderName content
            personaName d = Some (n, t) ->
          t = Some 5000
          /\ NotificationService.n_icon n = "/icon-192.png"%string
          /\ NotificationService.n_tag n
             = Some (JS.lit "message-"
                     ++ NotificationService.template
                          (NotificationService.channelId d))%list
          /\ exists body,
               NotificationService.n_body n = Some body
               /\ (List.length body <= 103)%nat
               /\ firstn 100 body = firstn 100 content
               /\ ((List.length content <= 100)%nat -> body = content)
               /\ ((100 < List.length content)%nat ->
                   body = (firstn 100 content ++ JS.lit "...")%list)).
Proof.
  intros b senderName content personaName d. split.
  - apply sendNotification_some.
  - intros n t. unfold NotificationService.sendMessageNotification,
      NotificationService.sendNotification.
    destruct (negb (NotificationService.isNotificationSupported b));
      [discriminate|].
    destruct (negb (NotificationService.permission_eqb
                      (NotificationService.permission b)
                      NotificationService.granted)); [discriminate|].
    destruct (negb (NotificationService.hidden b)); [discriminate|].
    destruct (NotificationService.constructor_throws b); [discriminate|].
    intros [= <- <-]. cbn.
    do 3 (split; [reflexivity|]).
    exists (NotificationService.body_of content).
    split; [reflexivity|]. apply body_of_spec.
Qed.

Lemma message_notification_is_gated_and_short_witness :
  exists n,
    NotificationService.sendMessageNotification
      {| NotificationService.supported := true;
         NotificationService.permission := NotificationService.granted;
         NotificationService.hidden := true;
         NotificationService.constructor_throws := false |}
      (JS.lit "Bob") (repeat 97%N 101) (JS.lit "Work")
      {| NotificationService.channelId := Some "channel-1"%string;
         NotificationService.contactId := None;
         NotificationService.personaId := None;
         NotificationService.messageId := None |}
    = Some (n, Some 5000)
    /\ NotificationService.n_body n
       = Some (repeat 97%N 100 ++ JS.lit "...")%list.
Proof.
  eexists. split; [reflexivity|].
  destruct (proj2 (message_notification_is_gated_and_short
                     {| NotificationService.supported := true;
                        NotificationService.permission :=
                          NotificationService.granted;
                        NotificationService.hidden := true;
                        NotificationService.constructor_throws := false |}
                     (JS.lit "Bob") (repeat 97%N 101) (JS.lit "Work")
                     {| NotificationService.channelId :=
                          Some "channel-1"%string;
                        NotificationService.contactId := None;
                        NotificationService.personaId := None;
                        NotificationService.messageId := None |})
              _ _ eq_refl)
    as (_ & _ & _ & body & Hb & _ & _ & _ & Hlong).
  rewrite Hb. apply f_equal. apply Hlong. simpl. lia.
Defined.

(** X22.  The INSERT handler of [ChatView] raises a notification only for
    a message of someone else, with notifications enabled for the channel
    in the state the handler saw, the permission granted and the page
    hidden; a message of the user never raises one.  The title is the
    nickname of the contact, or the display name when there is no
    nickname or an empty one, followed by the persona name in
    parentheses; the data name the message and the channel. *)
Theorem insert_handler_notifies_about_others_only :
  forall (b : NotificationService.browser) (pr : ChatView.props)
         (v : ChatView.view) (channelId : uuid)
         (names : NotificationService.names) (newMsg : Messages.row),
    (Messages.sender_id newMsg = ChatView.user_id pr ->
     NotificationService.on_insert_notification b pr v channelId names newMsg
     = None)
    /\ (forall n t,
          NotificationService.on_insert_notification b pr v channelId names
            newMsg = Some (n, t) ->
          Messages.sender_id newMsg <> ChatView.user_id pr
          /\ ChatView.notificationsEnabled v = true
          /\ NotificationService.permission b = NotificationService.granted
          /\ NotificationService.hidden b = true
          /\ NotificationService.n_title n
             = ((match NotificationService.nickname names with
                 | Some [] | None => NotificationService.display_name names
                 | Some nick => nick
                 end)
                ++ JS.lit " (" ++ NotificationService.persona_name names
                ++ JS.lit ")")%list
          /\ NotificationService.n_data n
             = Some {| NotificationService.channelId := Some channelId;
                       NotificationService.contactId :=
                         Some (ChatView.contact_id pr);
                       NotificationService.personaId :=
                         Some (ChatView.persona_id pr);
                       NotificationService.messageId :=
                         Some (Messages.id newMsg) |}).
Proof.
  intros b pr v channelId names newMsg.
  unfold NotificationService.on_insert_notification. split.
  - intros ->. now rewrite uuid_eqb_refl.
  - intros n t.
    destruct (uuid_eqb (Messages.sender_id newMsg) (ChatView.user_id pr)) eqn:Hs;
      [discriminate|]. cbn [negb].
    destruct (NotificationService.shouldSendNotification b) eqn:Hb;
      [|discriminate].
    destruct (ChatView.notificationsEnabled v); [|discriminate]. cbn [andb].
    apply shouldSendNotification_spec in Hb as (Hsup & Hperm & Hhid).
    unfold NotificationService.sendMessageNotification,
      NotificationService.sendNotification,
      NotificationService.isNotificationSupported.
    rewrite Hsup, Hperm, Hhid. cbn.
    destruct (NotificationService.constructor_throws b); [discriminate|].
    intros [= <- <-]. cbn.
    split; [now apply uuid_eqb_neq|].
    do 3 (split; [reflexivity|]).
    split; [|reflexivity].
    unfold NotificationService.senderName_of.
    destruct (NotificationService.nickname names) as [[|c r]|]; reflexivity.
Qed.

Lemma insert_handler_notifies_about_others_only_witness :
  NotificationService.on_insert_notification
    {| NotificationService.supported := true;
       NotificationService.permission := NotificationService.granted;
       NotificationService.hidden := true;
       NotificationService.constructor_throws := false |}
    Sample.props_alice Sample.view_alice "channel-1"
    {| NotificationService.nickname := Some [];
       NotificationService.display_name := JS.lit "Bob";
       NotificationService.persona_name := JS.lit "Work" |}
    (new_message "m1" 5 (Sample.text Sample.alice "hi"))
  = None.
Proof.
  apply (proj1 (insert_handler_notifies_about_others_only _ _ _ _ _ _)).
  reflexivity.
Defined.

(** ** Unread counters on the contact list and the persona panel *)

Lemma Map_get_unique {V : Type} (m : list (uuid * V)) (k : uuid) (v : V) :
  NoDup (map fst m) -> In (k, v) m -> UnreadViews.Map_get m k = Some v.
Proof.
  intros Hnd Hin. unfold UnreadViews.Map_get.
  destruct (find (fun e => uuid_eqb (fst e) k) (rev m)) as [[k' v']|] eqn:E.
  - apply find_some in E as [Hin' Hk]. apply in_rev in Hin'.
    apply uuid_eqb_eq in Hk. simpl in Hk. subst k'. simpl. f_equal.
    exact (NoDup_fst_functional m k v' v Hnd Hin' Hin).
  - exfalso. apply in_rev in Hin.
    pose proof (find_none _ _ E _ Hin) as H. simpl in H.
    now rewrite uuid_eqb_refl in H.
Qed.

Lemma Map_get_absent {V : Type} (m : list (uuid * V)) (k : uuid) :
  ~ In k (map fst m) -> UnreadViews.Map_get m k = None.
Proof.
  intros Hn. unfold UnreadViews.Map_get.
  destruct (find (fun e => uuid_eqb (fst e) k) (rev m)) as [[k' v']|] eqn:E;
    [|reflexivity].
  apply find_some in E as [Hin Hk]. apply in_rev in Hin.
  apply uuid_eqb_eq in Hk. simpl in Hk. subst k'.
  exfalso. apply Hn. change k with (fst (k, v')). now apply in_map.
Qed.

Lemma Map_get_set {V : Type} (m : list (uuid * V)) (k k' : uuid) (v : V) :
  UnreadViews.Map_get (UnreadViews.Map_set m k v) k'
  = if uuid_eqb k k' then Some v else UnreadViews.Map_get m k'.
Proof.
  unfold UnreadViews.Map_get, UnreadViews.Map_set.
  rewrite rev_app_distr. simpl. destruct (uuid_eqb k k'); reflexivity.
Qed.

(** The sum of the counters of the channels of a contact. *)
Lemma SUM_or_zero (l : list Z) :
  match UnreadViews.SUM l with Some n => n | None => 0 end
  = fold_right Z.add 0 l.
Proof. destruct l; reflexivity. Qed.

Lemma unreadMap_keys (d : db) (user : uuid) :
  map fst (UnreadViews.unreadMap d user)
  = map Contacts.id
        (filter (fun c => uuid_eqb (Contacts.user_id c) user) (contacts d)).
Proof.
  unfold UnreadViews.unreadMap, UnreadViews.unreadData,
    UnreadViews.contact_unread_counts.
  induction (contacts d) as [|c l IH]; simpl; [reflexivity|].
  destruct (uuid_eqb (Contacts.user_id c) user); simpl; now rewrite IH.
Qed.

Lemma unreadMap_entry (d : db) (user : uuid) (c : Contacts.row) :
  In c (contacts d) -> Contacts.user_id c = user ->
  In (Contacts.id c,
      UnreadViews.SUM (map PersonaChannels.unread_count
                           (UnreadViews.channels_of d (Contacts.id c))))
     (UnreadViews.unreadMap d user).
Proof.
  intros Hin Hu. unfold UnreadViews.unreadMap, UnreadViews.unreadData,
    UnreadViews.contact_unread_counts.
  apply in_map_iff.
  exists {| UnreadViews.contact_id := Contacts.id c;
            UnreadViews.user_id := Contacts.user_id c;
            UnreadViews.total_unread :=
              UnreadViews.SUM (map PersonaChannels.unread_count
                                   (UnreadViews.channels_of d (Contacts.id c))) |}.
  split; [reflexivity|]. apply filter_In. split.
  - apply in_map_iff. exists c. now split.
  - simpl. rewrite Hu. apply uuid_eqb_refl.
Qed.

Lemma contact_unread_count_total (d : db) (user : uuid) (c : Contacts.row) :
  NoDup (map Contacts.id (contacts d)) ->
  In c (contacts d) -> Contacts.user_id c = user ->
  UnreadViews.contact_unread_count d user (Contacts.id c)
  = fold_right Z.add 0
      (map PersonaChannels.unread_count
           (UnreadViews.channels_of d (Contacts.id c))).
Proof.
  intros Hnd Hin Hu. unfold UnreadViews.contact_unread_count.
  assert (Hkeys : NoDup (map fst (UnreadViews.unreadMap d user)))
    by (rewrite unreadMap_keys; now apply filter_keeps_keys_distinct).
  rewrite (Map_get_unique _ _ _ Hkeys (unreadMap_entry d user c Hin Hu)).
  rewrite <- SUM_or_zero.
  destruct (UnreadViews.SUM _) as [n|]; [|reflexivity].
  destruct (n =? 0) eqn:E; [|reflexivity]. apply Z.eqb_eq in E. now subst.
Qed.

(** X23.  On the contact list the count of a contact of the user is the
    sum of the [unread_count] of the channels of that contact, zero when
    it has none; for an id that is no contact of the user it is zero.
    When the count is zero the badge expression
    [unread_count && unread_count > 0 && <UnreadBadge/>] has the value 0,
    a number, not [false]; when it is positive it is the badge, and the
    badge is drawn. *)
Theorem contact_list_count_is_sum_of_channel_counters :
  forall (d : db) (user : uuid),
    NoDup (map Contacts.id (contacts d)) ->
    (forall c,
        In c (contacts d) -> Contacts.user_id c = user ->
        let n := UnreadViews.contact_unread_count d user (Contacts.id c) in
        n = fold_right Z.add 0
              (map PersonaChannels.unread_count
                   (UnreadViews.channels_of d (Contacts.id c)))
        /\ (n = 0 ->
            UnreadViews.ContactList_badge n = UnreadViews.jsx_number 0)
        /\ (0 < n ->
            exists el,
              UnreadViews.ContactList_badge n
              = UnreadViews.jsx_component (Some el)))
    /\ (forall contact,
          (forall c, In c (contacts d) -> Contacts.id c = contact ->
                     Contacts.user_id c <> user) ->
          UnreadViews.contact_unread_count d user contact = 0).
Proof.
  intros d user Hnd. split.
  - intros c Hin Hu n. split; [now apply contact_unread_count_total|].
    unfold UnreadViews.ContactList_badge. split.
    + intros ->. reflexivity.
    + intros Hpos.
      assert (E0 : (n =? 0) = false) by (apply Z.eqb_neq; lia).
      assert (E1 : (0 <? n) = true) by (apply Z.ltb_lt; lia).
      assert (E2 : (n <=? 0) = false) by (apply Z.leb_gt; lia).
      rewrite E0, E1. unfold UnreadBadge.UnreadBadge. rewrite E2.
      eexists. reflexivity.
  - intros contact Hother. unfold UnreadViews.contact_unread_count.
    rewrite Map_get_absent; [reflexivity|].
    rewrite unreadMap_keys. intros Hin.
    apply in_map_iff in Hin as (c & Hid & Hin).
    apply filter_In in Hin as [Hin Hu]. apply uuid_eqb_eq in Hu.
    exact (Hother c Hin Hid Hu).
Qed.

Lemma contact_list_count_is_sum_of_channel_counters_witness :
  UnreadViews.contact_unread_count Sample.db_channel Sample.alice "contact-ab" = 7
  /\ UnreadViews.contact_unread_count Sample.db_contact Sample.alice "contact-ab"
     = 0
  /\ UnreadViews.ContactList_badge
       (UnreadViews.contact_unread_count Sample.db_contact Sample.alice
          "contact-ab")
     = UnreadViews.jsx_number 0.
Proof.
  assert (Hnd : NoDup (map Contacts.id [Sample.contact_ab]))
    by (constructor; [intros []|constructor]).
  split; [|split].
  - apply (proj1 (proj1 (contact_list_count_is_sum_of_channel_counters
                           Sample.db_channel Sample.alice Hnd)
                    Sample.contact_ab (or_introl eq_refl) eq_refl)).
  - apply (proj1 (proj1 (contact_list_count_is_sum_of_channel_counters
                           Sample.db_contact Sample.alice Hnd)
                    Sample.contact_ab (or_introl eq_refl) eq_refl)).
  - apply (proj1 (proj2 (proj1 (contact_list_count_is_sum_of_channel_counters
                                  Sample.db_contact Sample.alice Hnd)
                           Sample.contact_ab (or_introl eq_refl) eq_refl))).
    reflexivity.
Defined.

Lemma total_update (f : PersonaChannels.row -> PersonaChannels.row)
    (l : list PersonaChannels.row) (contact : uuid) (pc : PersonaChannels.row) :
  (forall x, PersonaChannels.contact_id (f x) = PersonaChannels.contact_id x) ->
  (forall x, PersonaChannels.id x <> PersonaChannels.id pc -> f x = x) ->
  NoDup (map PersonaChannels.id l) -> In pc l ->
  fold_right Z.add 0
    (map PersonaChannels.unread_count
         (filter (fun r => uuid_eqb (PersonaChannels.contact_id r) contact)
                 (map f l)))
  = fold_right Z.add 0
      (map PersonaChannels.unread_count
           (filter (fun r => uuid_eqb (PersonaChannels.contact_id r) contact) l))
    + (if uuid_eqb (PersonaChannels.contact_id pc) contact
       then PersonaChannels.unread_count (f pc) - PersonaChannels.unread_count pc
       else 0).
Proof.
  intros Hc Hf. induction l as [|a l IH]; [intros _ []|].
  intros Hnd Hin. inversion Hnd as [|y ys Hnot Hnd']; subst.
  destruct Hin as [->|Hin].
  - cbn [map filter]. rewrite Hc.
    rewrite (map_restore f l).
    + destruct (uuid_eqb (PersonaChannels.contact_id pc) contact);
        cbn [map fold_right]; lia.
    + intros x Hx. apply Hf. intros E. apply Hnot. rewrite <- E.
      now apply in_map.
  - assert (Ha : f a = a).
    { apply Hf. intros E. apply Hnot. rewrite E. now apply in_map. }
    cbn [map filter]. rewrite Ha.
    destruct (uuid_eqb (PersonaChannels.contact_id a) contact);
      cbn [map fold_right]; rewrite (IH Hnd' Hin); lia.
Qed.

Lemma insert_message_channels (d d' : db) (fresh : uuid) (now : timestamptz)
    (m : message_insert) (owner : uuid) :
  channel_owner d (ins_channel_id m) = Some owner ->
  insert_message d fresh now m = Ok d' ->
  contacts d' = contacts d
  /\ persona_channels d'
     = if uuid_eqb (ins_sender_id m) owner then persona_channels d
       else map (bump (ins_channel_id m)) (persona_channels d).
Proof.
  intros Hown. unfold insert_message.
  destruct (existsb _ (messages d)); [discriminate|].
  destruct (find_channel d (ins_channel_id m)) eqn:Hm; [|discriminate].
  unfold increment_unread_count.
  change (Messages.channel_id (new_message fresh now m)) with (ins_channel_id m).
  change (Messages.sender_id (new_message fresh now m)) with (ins_sender_id m).
  change (channel_owner (with_messages d (messages d ++ [new_message fresh now m]))
            (ins_channel_id m))
    with (channel_owner d (ins_channel_id m)).
  rewrite Hown.
  destruct (uuid_eqb (ins_sender_id m) owner); cbn [negb].
  - intros [= <-]. split; reflexivity.
  - cbn [persona_channels with_messages].
    destruct (existsb _ _); [discriminate|].
    intros [= <-]. split; reflexivity.
Qed.

(** X24.  The count of a contact on the contact list moves with the
    counters of its channels: a message that someone else sends into one
    of the contact's channels raises it by one, a message of the user
    leaves it as it is, and [reset_unread_count] on a channel lowers it by
    the counter of that channel and leaves the count of every other
    contact of the user as it is. *)
Theorem contact_list_count_follows_inserts_and_resets :
  forall (d : db) (user : uuid) (c : Contacts.row) (pc : PersonaChannels.row),
    NoDup (map Contacts.id (contacts d)) ->
    NoDup (map PersonaChannels.id (persona_channels d)) ->
    In c (contacts d) -> Contacts.user_id c = user ->
    In pc (persona_channels d) ->
    PersonaChannels.contact_id pc = Contacts.id c ->
    (forall fresh now m d',
        ins_channel_id m = PersonaChannels.id pc ->
        insert_message d fresh now m = Ok d' ->
        UnreadViews.contact_unread_count d' user (Contacts.id c)
        = UnreadViews.contact_unread_count d user (Contacts.id c)
          + (if uuid_eqb (ins_sender_id m) user then 0 else 1))
    /\ UnreadViews.contact_unread_count
         (reset_unread_count d (PersonaChannels.id pc)) user (Contacts.id c)
       = UnreadViews.contact_unread_count d user (Contacts.id c)
         - PersonaChannels.unread_count pc
    /\ (forall c',
          In c' (contacts d) -> Contacts.user_id c' = user ->
          Contacts.id c' <> Contacts.id c ->
          UnreadViews.contact_unread_count
            (reset_unread_count d (PersonaChannels.id pc)) user (Contacts.id c')
          = UnreadViews.contact_unread_count d user (Contacts.id c')).
Proof.
  intros d user c pc Hndc Hndp Hc Hu Hpc Hcid.
  assert (Hown : channel_owner d (PersonaChannels.id pc) = Some user).
  { unfold channel_owner. rewrite (find_channel_unique d pc Hndp Hpc), Hcid.
    rewrite (find_contact_unique d c Hndc Hc). now rewrite Hu. }
  split; [|split].
  - intros fresh now m d' Hch Hins.
    rewrite <- Hch in Hown.
    destruct (insert_message_channels d d' fresh now m user Hown Hins)
      as [Hcs Hpcs].
    rewrite (contact_unread_count_total d' user c), (contact_unread_count_total d user c);
      trivial; try (rewrite Hcs; trivial).
    unfold UnreadViews.channels_of. rewrite Hpcs.
    destruct (uuid_eqb (ins_sender_id m) user); [lia|].
    rewrite (total_update (bump (ins_channel_id m)) (persona_channels d)
               (Contacts.id c) pc); trivial.
    + rewrite Hcid, uuid_eqb_refl. unfold bump. rewrite Hch, uuid_eqb_refl.
      simpl. lia.
    + apply bump_contact_id.
    + intros x Hx. unfold bump. rewrite Hch.
      now rewrite (proj2 (uuid_eqb_neq _ _) Hx).
  - rewrite (contact_unread_count_total _ user c), (contact_unread_count_total d user c);
      trivial.
    unfold UnreadViews.channels_of, reset_unread_count.
    cbn [persona_channels with_persona_channels].
    rewrite (total_update _ (persona_channels d) (Contacts.id c) pc); trivial.
    + rewrite Hcid, !uuid_eqb_refl. simpl. lia.
    + intros x. destruct (uuid_eqb _ _); reflexivity.
    + intros x Hx. now rewrite (proj2 (uuid_eqb_neq _ _) Hx).
  - intros c' Hc' Hu' Hne.
    rewrite (contact_unread_count_total _ user c'), (contact_unread_count_total d user c');
      trivial.
    unfold UnreadViews.channels_of, reset_unread_count.
    cbn [persona_channels with_persona_channels].
    rewrite (total_update _ (persona_channels d) (Contacts.id c') pc); trivial.
    + rewrite Hcid. rewrite (proj2 (uuid_eqb_neq _ _) (fun E => Hne (eq_sym E))).
      lia.
    + intros x. destruct (uuid_eqb _ _); reflexivity.
    + intros x Hx. now rewrite (proj2 (uuid_eqb_neq _ _) Hx).
Qed.

Lemma contact_list_count_follows_inserts_and_resets_witness :
  UnreadViews.contact_unread_count
    (reset_unread_count Sample.db_channel "channel-1") Sample.alice "contact-ab"
  = 0.
Proof.
  assert (Hc : NoDup (map Contacts.id (contacts Sample.db_channel)))
    by (constructor; [intros []|constructor]).
  assert (Hp : NoDup (map PersonaChannels.id (persona_channels Sample.db_channel)))
    by (constructor; [intros []|constructor]).
  exact (proj1 (proj2 (contact_list_count_follows_inserts_and_resets
                         Sample.db_channel Sample.alice Sample.contact_ab
                         Sample.channel_ab Hc Hp (or_introl eq_refl) eq_refl
                         (or_introl eq_refl) eq_refl))).
Defined.

Lemma NoDup_personas_of_contact (l : list PersonaChannels.row) (contact : uuid) :
  NoDup (map (fun r => (PersonaChannels.contact_id r, PersonaChannels.persona_id r)) l) ->
  NoDup (map PersonaChannels.persona_id
             (filter (fun pc => uuid_eqb (PersonaChannels.contact_id pc) contact) l)).
Proof.
  induction l as [|a l IH]; simpl; [constructor|].
  intros Hnd. inversion Hnd as [|y ys Hnot Hnd']; subst.
  destruct (uuid_eqb (PersonaChannels.contact_id a) contact) eqn:E;
    [|now apply IH].
  simpl. constructor; [|now apply IH].
  intros Hin. apply Hnot. apply in_map_iff in Hin as (x & Hx & Hin).
  apply filter_In in Hin as [Hin Hcx].
  apply uuid_eqb_eq in E. apply uuid_eqb_eq in Hcx.
  apply in_map_iff. exists x. split; [|exact Hin]. congruence.
Qed.

Lemma loadUnreadCounts_keys (d : db) (contactId : uuid) :
  map fst (UnreadViews.loadUnreadCounts d contactId)
  = map PersonaChannels.persona_id (UnreadViews.channels_of d contactId).
Proof. unfold UnreadViews.loadUnreadCounts. rewrite map_map. reflexivity. Qed.

Lemma or_zero_id (n : Z) : (if n =? 0 then 0 else n) = n.
Proof. destruct (n =? 0) eqn:E; [apply Z.eqb_eq in E; now subst|reflexivity]. Qed.

Lemma unreadCount_after_handlers (updated : PersonaChannels.row) (persona : uuid)
    (subs : list uuid) :
  forall m,
    UnreadViews.unreadCount
      (fold_left (fun m c =>
                    if uuid_eqb (PersonaChannels.contact_id updated) c
                    then UnreadViews.handler updated m else m) subs m)
      persona
    = if existsb (uuid_eqb (PersonaChannels.contact_id updated)) subs
         && uuid_eqb (PersonaChannels.persona_id updated) persona
      then PersonaChannels.unread_count updated
      else UnreadViews.unreadCount m persona.
Proof.
  induction subs as [|c subs IH]; intros m; [reflexivity|].
  cbn [fold_left existsb]. rewrite IH.
  destruct (uuid_eqb (PersonaChannels.contact_id updated) c); cbn [orb];
    [|reflexivity].
  assert (E : UnreadViews.unreadCount (UnreadViews.handler updated m) persona
              = if uuid_eqb (PersonaChannels.persona_id updated) persona
                then PersonaChannels.unread_count updated
                else UnreadViews.unreadCount m persona).
  { unfold UnreadViews.unreadCount, UnreadViews.handler.
    rewrite Map_get_set.
    destruct (uuid_eqb (PersonaChannels.persona_id updated) persona);
      [apply or_zero_id|reflexivity]. }
  rewrite E.
  destruct (existsb (uuid_eqb (PersonaChannels.contact_id updated)) subs),
    (uuid_eqb (PersonaChannels.persona_id updated) persona); reflexivity.
Qed.

(** X25.  Right after the effect of [PersonaPanel] has run for a contact,
    the count of a persona is the [unread_count] of the channel of the
    contact and that persona, zero when the pair has no channel.  The
    effect adds a subscription and removes none.  An UPDATE event for a
    row whose contact has a subscription, the contact shown or any contact
    shown before, replaces the count of the persona of the row and no
    other, and an event for any other row changes nothing.  So the event
    of a reset of the channel shown takes the badge of its persona away,
    and an event for a channel of a contact shown before sets the count of
    its persona under the contact shown now. *)
Theorem persona_panel_counts_follow_every_subscription :
  forall (d : db) (a : ascii) (rest : string) (p : UnreadViews.panel),
    NoDup (map (fun r => (PersonaChannels.contact_id r, PersonaChannels.persona_id r))
               (persona_channels d)) ->
    let contactId := String a rest in
    let p1 := UnreadViews.effect d (Some contactId) p in
    (forall pc,
        In pc (persona_channels d) ->
        PersonaChannels.contact_id pc = contactId ->
        UnreadViews.unreadCount (UnreadViews.unreadCounts p1)
          (PersonaChannels.persona_id pc)
        = PersonaChannels.unread_count pc
        /\ UnreadViews.PersonaPanel_badge
             (UnreadViews.unreadCount
                (UnreadViews.unreadCounts
                   (UnreadViews.on_update
                      (PersonaChannels.set_unread_count 0 pc) p1))
                (PersonaChannels.persona_id pc))
           = UnreadViews.jsx_false)
    /\ (forall persona,
          (forall r, In r (persona_channels d) ->
                     PersonaChannels.contact_id r = contactId ->
                     PersonaChannels.persona_id r <> persona) ->
          UnreadViews.unreadCount (UnreadViews.unreadCounts p1) persona = 0)
    /\ (forall c, In c (UnreadViews.subscriptions p1)
                  <-> In c (UnreadViews.subscriptions p) \/ c = contactId)
    /\ (forall q updated persona,
          UnreadViews.subscriptions (UnreadViews.on_update updated q)
          = UnreadViews.subscriptions q
          /\ UnreadViews.unreadCount
               (UnreadViews.unreadCounts (UnreadViews.on_update updated q)) persona
             = if existsb (uuid_eqb (PersonaChannels.contact_id updated))
                          (UnreadViews.subscriptions q)
                  && uuid_eqb (PersonaChannels.persona_id updated) persona
               then PersonaChannels.unread_count updated
               else UnreadViews.unreadCount (UnreadViews.unreadCounts q) persona)
    /\ (forall updated,
          In (PersonaChannels.contact_id updated) (UnreadViews.subscriptions p) ->
          UnreadViews.unreadCount
            (UnreadViews.unreadCounts (UnreadViews.on_update updated p1))
            (PersonaChannels.persona_id updated)
          = PersonaChannels.unread_count updated).
Proof.
  intros d a rest p Hnd contactId p1.
  assert (Hp1 : p1 = {| UnreadViews.unreadCounts :=
                          UnreadViews.loadUnreadCounts d contactId;
                        UnreadViews.subscriptions :=
                          (UnreadViews.subscriptions p ++ [contactId])%list |})
    by reflexivity.
  clearbody p1 contactId. subst p1.
  cbn [UnreadViews.unreadCounts UnreadViews.subscriptions].
  assert (Hsubs : forall c, In c (UnreadViews.subscriptions p ++ [contactId])
                            <-> In c (UnreadViews.subscriptions p) \/ c = contactId).
  { intros c. rewrite in_app_iff. simpl. intuition congruence. }
  assert (Hexists : forall c subs, In c subs ->
                      existsb (uuid_eqb c) subs = true).
  { intros c subs Hin. apply existsb_exists. exists c. split; [exact Hin|].
    apply uuid_eqb_refl. }
  split; [|split; [|split; [exact Hsubs|split]]].
  - intros pc Hin Hc. split.
    + unfold UnreadViews.unreadCount.
      rewrite (Map_get_unique _ (PersonaChannels.persona_id pc)
                 (PersonaChannels.unread_count pc)).
      * apply or_zero_id.
      * rewrite loadUnreadCounts_keys. now apply NoDup_personas_of_contact.
      * unfold UnreadViews.loadUnreadCounts. apply in_map_iff. exists pc.
        split; [reflexivity|]. apply filter_In. split; [exact Hin|].
        rewrite Hc. apply uuid_eqb_refl.
    + unfold UnreadViews.on_update.
      cbn [UnreadViews.unreadCounts UnreadViews.subscriptions].
      rewrite unreadCount_after_handlers.
      cbn [PersonaChannels.set_unread_count PersonaChannels.persona_id
           PersonaChannels.unread_count PersonaChannels.contact_id].
      rewrite Hc, (Hexists contactId) by (apply Hsubs; now right).
      now rewrite uuid_eqb_refl.
  - intros persona Hnone. unfold UnreadViews.unreadCount.
    rewrite Map_get_absent; [reflexivity|].
    rewrite loadUnreadCounts_keys. intros Hin.
    apply in_map_iff in Hin as (r & Hr & Hin).
    apply filter_In in Hin as [Hin Hc]. apply uuid_eqb_eq in Hc.
    exact (Hnone r Hin Hc Hr).
  - intros q updated persona. split; [reflexivity|].
    unfold UnreadViews.on_update. cbn [UnreadViews.unreadCounts].
    apply unreadCount_after_handlers.
  - intros updated Hin.
    unfold UnreadViews.on_update.
    cbn [UnreadViews.unreadCounts UnreadViews.subscriptions].
    rewrite unreadCount_after_handlers.
    rewrite Hexists by (apply Hsubs; now left).
    now rewrite uuid_eqb_refl.
Qed.

(** The panel has shown the contact [contact-cd] and now shows
    [contact-ab]: an update of a channel of the earlier contact sets the
    count shown for the persona. *)
Lemma persona_panel_counts_follow_every_subscription_witness :
  let other :=
    {| PersonaChannels.id := "channel-2"%string;
       PersonaChannels.contact_id := "contact-cd"%string;
       PersonaChannels.persona_id := "professional"%string;
       PersonaChannels.last_message_at := None;
       PersonaChannels.is_locked := false;
       PersonaChannels.notification_enabled := true;
       PersonaChannels.created_at := 0;
       PersonaChannels.unread_count := 3 |} in
  let p0 :=
    UnreadViews.effect Sample.db_channel (Some "contact-cd"%string)
      {| UnreadViews.unreadCounts := []; UnreadViews.subscriptions := [] |} in
  let p1 := UnreadViews.effect Sample.db_channel (Some "contact-ab"%string) p0 in
  UnreadViews.unreadCount (UnreadViews.unreadCounts p1) "professional" = 7
  /\ UnreadViews.unreadCount
       (UnreadViews.unreadCounts (UnreadViews.on_update other p1)) "professional"
     = 3.
Proof.
  intros other p0 p1.
  assert (Hnd : NoDup (map (fun r => (PersonaChannels.contact_id r,
                                      PersonaChannels.persona_id r))
                           (persona_channels Sample.db_channel)))
    by (constructor; [intros []|constructor]).
  split.
  - exact (proj1 (proj1 (persona_panel_counts_follow_every_subscription
                           Sample.db_channel "c"%char "ontact-ab"%string p0 Hnd)
                    Sample.channel_ab (or_introl eq_refl) eq_refl)).
  - refine (proj2 (proj2 (proj2 (proj2
              (persona_panel_counts_follow_every_subscription
                 Sample.db_channel "c"%char "ontact-ab"%string p0 Hnd))))
              other _).
    left. reflexivity.
Defined.

(** ** Typing in the input *)

Lemma find_app_none {A} (p : A -> bool) (l l' : list A) :
  find p l = None -> find p (l ++ l') = find p l'.
Proof.
  induction l as [|x l IH]; simpl; [reflexivity|].
  destruct (p x); [discriminate|exact IH].
Qed.

Lemma find_handle_absent {B} (h : TypingTimers.handle)
    (l : list (TypingTimers.handle * B)) :
  ~ In h (map fst l) -> find (fun e => N.eqb (fst e) h) l = None.
Proof.
  intros Hn.
  destruct (find (fun e => N.eqb (fst e) h) l) as [e|] eqn:E; [|reflexivity].
  apply find_some in E as [Hin He]. apply N.eqb_eq in He.
  exfalso. apply Hn. rewrite <- He. now apply in_map.
Qed.

Lemma type_on_while_typing (c : uuid) (userId : uuid)
    (ks : list ChatViewTyping.keystroke) (s : ChatViewTyping.state) (d : db) :
  ChatView.no_channel (Some c) = false ->
  ChatViewTyping.isTyping s = true ->
  let sd := ChatViewTyping.type_on (Some c) userId ks (s, d) in
  ChatViewTyping.isTyping (fst sd) = true
  /\ ChatViewTyping.timers (fst sd) = ChatViewTyping.timers s
  /\ snd sd = d.
Proof.
  intros Hc. revert s. induction ks as [|k ks IH]; intros s Ht.
  - simpl. auto.
  - cbn [ChatViewTyping.type_on fst snd].
    unfold ChatViewTyping.handleTyping. rewrite Hc, Ht, andb_false_r.
    cbn [fst snd].
    match goal with
    | |- context [ChatViewTyping.type_on _ _ ks (?s', d)] =>
        destruct (IH s' eq_refl) as (H1 & H2 & H3)
    end.
    auto.
Qed.

(** X26.  While the user goes on typing the indicator is not renewed:
    [handleTyping] calls the service on the first keystroke only, so that
    after any number of further keystrokes the store is the one the first
    keystroke left, the row still expiring 5000 ms after that one.  When
    the 3000 ms timeout of the service then runs, the row of the user is
    deleted although [isTyping] still holds, and no keystroke after that
    brings it back: [getTypingIndicators] has no row of the user. *)
Theorem typing_indicator_is_not_renewed_while_typing :
  forall (c userId : uuid) (s : ChatViewTyping.state) (d : db)
         (k : ChatViewTyping.keystroke)
         (ks ks' : list ChatViewTyping.keystroke),
    ChatView.no_channel (Some c) = false ->
    ChatViewTyping.isTyping s = false ->
    ChatViewTyping.value k <> [] ->
    ~ In (ChatViewTyping.service_handle k)
         (map fst (TypingTimers.pending (ChatViewTyping.timers s))) ->
    let sd1 := ChatViewTyping.handleTyping (Some c) userId k s d in
    let sd2 := ChatViewTyping.type_on (Some c) userId ks sd1 in
    let sd3 := ChatViewTyping.service_timeout (ChatViewTyping.service_handle k)
                 (fst sd2) (snd sd2) in
    let sd4 := ChatViewTyping.type_on (Some c) userId ks' sd3 in
    snd sd2
    = TypingService.sendTypingIndicator d (ChatViewTyping.fresh k)
        (ChatViewTyping.server_now k) (ChatViewTyping.client_now k) c userId
    /\ ChatViewTyping.isTyping (fst sd4) = true
    /\ (forall now r,
          In r (TypingService.getTypingIndicators (snd sd4) now c) ->
          TypingIndicators.user_id r <> userId).
Proof.
  intros c userId s d k ks ks' Hc Ht Hv Hnew sd1 sd2 sd3 sd4.
  assert (Hlen : (0 <? List.length (ChatViewTyping.value k))%nat = true).
  { apply Nat.ltb_lt. destruct (ChatViewTyping.value k); [contradiction|simpl; lia]. }
  assert (E1 : sd1
          = ({| ChatViewTyping.newMessage := ChatViewTyping.value k;
                ChatViewTyping.isTyping := true;
                ChatViewTyping.typingTimeoutRef :=
                  Some (ChatViewTyping.view_handle k);
                ChatViewTyping.view_pending :=
                  (ChatViewTyping.clear_view (ChatViewTyping.typingTimeoutRef s)
                     (ChatViewTyping.view_pending s)
                   ++ [(ChatViewTyping.view_handle k, c)])%list;
                ChatViewTyping.timers :=
                  fst (TypingTimers.handleTypingInput
                         (ChatViewTyping.service_handle k) (ChatViewTyping.fresh k)
                         (ChatViewTyping.server_now k) (ChatViewTyping.client_now k)
                         c userId true (ChatViewTyping.timers s) d) |},
             TypingService.sendTypingIndicator d (ChatViewTyping.fresh k)
               (ChatViewTyping.server_now k) (ChatViewTyping.client_now k)
               c userId)).
  { subst sd1. unfold ChatViewTyping.handleTyping.
    rewrite Hc, Hlen, Ht. reflexivity. }
  destruct (type_on_while_typing c userId ks (fst sd1) (snd sd1) Hc)
    as (T2 & M2 & D2); [rewrite E1; reflexivity|].
  rewrite <- surjective_pairing in T2, M2, D2. fold sd2 in T2, M2, D2.
  assert (Hfire : TypingTimers.fire (ChatViewTyping.service_handle k)
                    (ChatViewTyping.timers (fst sd2)) (snd sd2)
                  = ({| TypingTimers.typingTimeouts :=
                          TypingTimers.map_delete (TypingTimers.key c userId)
                            (TypingTimers.typingTimeouts
                               (ChatViewTyping.timers (fst sd2)));
                        TypingTimers.pending :=
                          TypingTimers.clearTimeout
                            (ChatViewTyping.service_handle k)
                            (TypingTimers.pending
                               (ChatViewTyping.timers (fst sd2))) |},
                     TypingService.removeTypingIndicator (snd sd2) c userId)).
  { unfold TypingTimers.fire. rewrite M2, E1.
    cbn [fst ChatViewTyping.timers TypingTimers.handleTypingInput
         TypingTimers.pending].
    rewrite find_app_none.
    - cbn [find fst]. rewrite N.eqb_refl. reflexivity.
    - apply find_handle_absent. intros Hin. apply Hnew.
      apply in_map_iff in Hin as (e & He & Hin).
      apply in_map_iff. exists e. split; [exact He|].
      exact (clear_key_pending _ _ _ Hin). }
  destruct (type_on_while_typing c userId ks' (fst sd3) (snd sd3) Hc)
    as (T4 & _ & D4); [subst sd3; exact T2|].
  rewrite <- surjective_pairing in T4, D4. fold sd4 in T4, D4.
  split; [rewrite D2, E1; reflexivity|]. split; [exact T4|].
  intros now r Hin. rewrite D4 in Hin. subst sd3.
  unfold ChatViewTyping.service_timeout in Hin. cbn [snd] in Hin.
  rewrite Hfire in Hin. cbn [snd] in Hin.
  unfold TypingService.getTypingIndicators, TypingService.removeTypingIndicator in Hin.
  cbn [typing_indicators with_typing_indicators] in Hin.
  apply filter_In in Hin as [Hin Hch].
  apply filter_In in Hin as [_ Hkey].
  apply andb_true_iff in Hch as [Hch _].
  apply negb_true_iff in Hkey. unfold TypingService.same_key in Hkey.
  rewrite Hch in Hkey. cbn [andb] in Hkey.
  now apply uuid_eqb_neq.
Qed.

Lemma typing_indicator_is_not_renewed_while_typing_witness :
  let key h v :=
    {| ChatViewTyping.view_handle := h;
       ChatViewTyping.service_handle := (h + 1)%N;
       ChatViewTyping.fresh := "typing-1"%string;
       ChatViewTyping.server_now := 0; ChatViewTyping.client_now := 0;
       ChatViewTyping.value := JS.lit v |} in
  let s0 :=
    {| ChatViewTyping.newMessage := []; ChatViewTyping.isTyping := false;
       ChatViewTyping.typingTimeoutRef := None;
       ChatViewTyping.view_pending := [];
       ChatViewTyping.timers := TypingTimers.initial |} in
  let sd2 :=
    ChatViewTyping.type_on (Some "channel-1"%string) Sample.alice
      [key 3%N "hi"%string]
      (ChatViewTyping.handleTyping (Some "channel-1"%string) Sample.alice
         (key 1%N "h"%string) s0 Sample.db_channel) in
  let sd4 :=
    ChatViewTyping.type_on (Some "channel-1"%string) Sample.alice
      [key 5%N "hi!"%string]
      (ChatViewTyping.service_timeout 2%N (fst sd2) (snd sd2)) in
  map TypingIndicators.expires_at (typing_indicators (snd sd2)) = [5000]
  /\ ChatViewTyping.isTyping (fst sd4) = true
  /\ typing_indicators (snd sd4) = [].
Proof.
  intros key s0 sd2 sd4.
  split; [reflexivity|]. split; [|reflexivity].
  refine (proj1 (proj2 (typing_indicator_is_not_renewed_while_typing
                          "channel-1"%string Sample.alice s0 Sample.db_channel
                          (key 1%N "h"%string) [key 3%N "hi"%string]
                          [key 5%N "hi!"%string] eq_refl eq_refl _ _))).
  - discriminate.
  - intros [].
Defined.

(** X27.  When the 2000 ms timeout of the view runs, after a pause in
    typing, [isTyping] is taken back, the row of the user in the channel
    is deleted and the timeout of the service for the pair is cleared;
    the next keystroke with a non-empty value then sends the indicator
    again. *)
Theorem pause_ends_typing_and_next_keystroke_restarts :
  forall (c userId : uuid) (h : TypingTimers.handle)
         (s : ChatViewTyping.state) (d : db) (k : ChatViewTyping.keystroke),
    ChatView.no_channel (Some c) = false ->
    find (fun e => N.eqb (fst e) h) (ChatViewTyping.view_pending s)
    = Some (h, c) ->
    ChatViewTyping.value k <> [] ->
    let sd1 := ChatViewTyping.view_timeout userId h s d in
    let sd2 := ChatViewTyping.handleTyping (Some c) userId k (fst sd1) (snd sd1) in
    ChatViewTyping.isTyping (fst sd1) = false
    /\ (forall r, In r (typing_indicators (snd sd1)) ->
                  TypingService.same_key c userId r = false)
    /\ ~ In (TypingTimers.key c userId)
           (map fst (TypingTimers.typingTimeouts
                       (ChatViewTyping.timers (fst sd1))))
    /\ ChatViewTyping.isTyping (fst sd2) = true
    /\ snd sd2
       = TypingService.sendTypingIndicator (snd sd1) (ChatViewTyping.fresh k)
           (ChatViewTyping.server_now k) (ChatViewTyping.client_now k) c userId.
Proof.
  intros c userId h s d k Hc Hfind Hv sd1 sd2.
  assert (Hlen : (0 <? List.length (ChatViewTyping.value k))%nat = true).
  { apply Nat.ltb_lt. destruct (ChatViewTyping.value k); [contradiction|simpl; lia]. }
  assert (E1 : sd1
          = ({| ChatViewTyping.newMessage := ChatViewTyping.newMessage s;
                ChatViewTyping.isTyping := false;
                ChatViewTyping.typingTimeoutRef := ChatViewTyping.typingTimeoutRef s;
                ChatViewTyping.view_pending :=
                  filter (fun e => negb (N.eqb (fst e) h))
                         (ChatViewTyping.view_pending s);
                ChatViewTyping.timers :=
                  TypingTimers.clear_key (TypingTimers.key c userId)
                    (ChatViewTyping.timers s) |},
             TypingService.removeTypingIndicator d c userId)).
  { subst sd1. unfold ChatViewTyping.view_timeout. rewrite Hfind. reflexivity. }
  split; [rewrite E1; reflexivity|].
  split; [|split; [|split]].
  - intros r. rewrite E1. cbn [snd].
    unfold TypingService.removeTypingIndicator.
    cbn [typing_indicators with_typing_indicators].
    intros Hin. apply filter_In in Hin as [_ Hn]. now apply negb_true_iff.
  - rewrite E1. cbn [fst ChatViewTyping.timers]. apply clear_key_absent.
  - subst sd2. unfold ChatViewTyping.handleTyping.
    rewrite Hc, Hlen, E1. reflexivity.
  - subst sd2. unfold ChatViewTyping.handleTyping.
    rewrite Hc, Hlen, E1. reflexivity.
Qed.

Lemma pause_ends_typing_and_next_keystroke_restarts_witness :
  let key h t :=
    {| ChatViewTyping.view_handle := h;
       ChatViewTyping.service_handle := (h + 1)%N;
       ChatViewTyping.fresh := "typing-1"%string;
       ChatViewTyping.server_now := t; ChatViewTyping.client_now := t;
       ChatViewTyping.value := JS.lit "h" |} in
  let s0 :=
    {| ChatViewTyping.newMessage := []; ChatViewTyping.isTyping := false;
       ChatViewTyping.typingTimeoutRef := None;
       ChatViewTyping.view_pending := [];
       ChatViewTyping.timers := TypingTimers.initial |} in
  let sd0 :=
    ChatViewTyping.handleTyping (Some "channel-1"%string) Sample.alice
      (key 1%N 0) s0 Sample.db_channel in
  let sd1 := ChatViewTyping.view_timeout Sample.alice 1%N (fst sd0) (snd sd0) in
  let sd2 :=
    ChatViewTyping.handleTyping (Some "channel-1"%string) Sample.alice
      (key 3%N 9000) (fst sd1) (snd sd1) in
  typing_indicators (snd sd1) = []
  /\ ChatViewTyping.isTyping (fst sd1) = false
  /\ map TypingIndicators.expires_at (typing_indicators (snd sd2)) = [14000].
Proof.
  intros key s0 sd0 sd1 sd2.
  split; [reflexivity|]. split; [|reflexivity].
  refine (proj1 (pause_ends_typing_and_next_keystroke_restarts
                   "channel-1"%string Sample.alice 1%N (fst sd0) (snd sd0)
                   (key 3%N 9000) eq_refl eq_refl _)).
  discriminate.
Defined.
